(** * script-db: backups, restores and the pending-backup worker of Sc-db.py

    A shallow embedding of the backup/restore subsystem of [Sc-db.py]:
    [ensure_dirs], [compress_bytes], [decompress_bytes], [sha256_bytes],
    [is_running], [backup_script_to_folder],
    [reproduce_script_to_default], [PendingBackupWorker.run] and the
    menu actions [add_script_interactive], [modify_script_interactive],
    [delete_script_interactive] and [backup_now_interactive].

    The Python functions become functions in a small state-and-exception
    monad over a model of the file system.  The standard library the
    script calls ([os.path], [os.makedirs], [open], [zlib], [json],
    [hashlib], [psutil], [str.lower]) is the environment: paths follow
    [posixpath], the file system is a finite map from resolved paths to
    nodes, and the codecs and [str.lower] are the fields of the class
    [Libs]. *)

From Stdlib Require Import Strings.Ascii Strings.String Strings.Byte.
From stdpp Require Import gmap strings list pretty.

(** ** Strings and POSIX paths ([os.path]) *)

Module Path.

Definition is_slash (c : ascii) : bool := Ascii.eqb c "/"%char.

(** [s.split('/')]: never empty, [""] for the empty string. *)
Fixpoint split_slash (s : string) : list string :=
  match s with
  | EmptyString => [""]
  | String c r =>
      if is_slash c then "" :: split_slash r
      else match split_slash r with
           | [] => [String c ""]
           | h :: t => String c h :: t
           end
  end.

Fixpoint has_slash (s : string) : bool :=
  match s with
  | EmptyString => false
  | String c r => is_slash c || has_slash r
  end.

(** [os.path.basename(p)]: what follows the last slash. *)
Definition basename (s : string) : string := List.last (split_slash s) "".

Definition startswith_slash (s : string) : bool :=
  match s with
  | String c _ => is_slash c
  | EmptyString => false
  end.

Fixpoint endswith_slash (s : string) : bool :=
  match s with
  | EmptyString => false
  | String c EmptyString => is_slash c
  | String _ r => endswith_slash r
  end.

(** [os.path.join(a, b)] of [posixpath]. *)
Definition join (a b : string) : string :=
  if startswith_slash b then b
  else if bool_decide (a = "") || endswith_slash a then a +:+ b
  else a +:+ "/" +:+ b.

(** The components of a path that name something: [''] and ['.'] are
    skipped, as [posixpath.normpath] does. *)
Definition keeps (c : string) : bool :=
  negb (bool_decide (c = "")) && negb (bool_decide (c = ".")).

Definition comps (s : string) : list string := List.filter keeps (split_slash s).

(** One step of [normpath]'s loop on an absolute path: ['..'] drops the
    last component (and stays at the root), any other one is appended. *)
Definition norm_step (stack : list string) (c : string) : list string :=
  if bool_decide (c = "..") then removelast stack else stack ++ [c].

(** The resolved form of [s] for a process whose working directory is
    [cwd] (already resolved): the components of [os.path.abspath(s)].
    The disk is looked up at this form.  For a path without a ['..']
    that is the file the system finds; a ['..'] is removed here with
    the component before it, where the system wants that component to
    be a directory on the disk (and [os.makedirs] would make it): on
    such a path the model can find a file where the system fails. *)
Definition resolve (cwd : list string) (s : string) : list string :=
  foldl norm_step (if startswith_slash s then [] else cwd) (comps s).

(** A path whose last component is empty, ['.'] or ['..'] can only name
    a directory. *)
Definition names_dir (s : string) : bool :=
  let b := basename s in
  bool_decide (b = "") || bool_decide (b = ".") || bool_decide (b = "..").

(** A plain file name: a single component that [resolve] appends. *)
Definition plain (x : string) : Prop :=
  has_slash x = false ∧ x ≠ "" ∧ x ≠ "." ∧ x ≠ "..".

(** [posixpath.normpath] keeps exactly two leading slashes apart. *)
Definition initial_slashes (s : string) : nat :=
  match s with
  | String c1 (String c2 (String c3 _)) =>
      if is_slash c1 then if is_slash c2 then if is_slash c3 then 1 else 2 else 1 else 0
  | String c1 (String c2 EmptyString) =>
      if is_slash c1 then if is_slash c2 then 2 else 1 else 0
  | String c1 EmptyString => if is_slash c1 then 1 else 0
  | EmptyString => 0
  end.

Fixpoint join_slash (l : list string) : string :=
  match l with
  | [] => ""
  | [c] => c
  | c :: t => c +:+ "/" +:+ join_slash t
  end.

Fixpoint slashes (n : nat) : string :=
  match n with O => "" | S k => String "/"%char (slashes k) end.

(** [os.path.abspath(s)] as a string, for a working directory [cwd]. *)
Definition abspath (cwd : list string) (s : string) : string :=
  slashes (if startswith_slash s then initial_slashes s else 1)
    +:+ join_slash (resolve cwd s).

End Path.

(** [target_name in x] on strings. *)
Fixpoint contains (t x : string) : bool :=
  String.prefix t x ||
  match x with
  | EmptyString => false
  | String _ r => contains t r
  end.

(** ** The file system and the state the script runs in *)

Inductive node :=
  | Dir
  | File (data : list byte).

#[global] Instance byte_eq_dec : EqDecision byte := Byte.byte_eq_dec.

#[global] Instance node_eq_dec : EqDecision node.
Proof. solve_decision. Defined.

(** The exceptions the modelled calls raise; all are subclasses of
    Python's [Exception]. *)
Inductive exn :=
  | FileExistsError
  | FileNotFoundError
  | IsADirectoryError
  | NotADirectoryError
  | TypeError
  | ZlibError
  | JSONDecodeError.

Module FS.

(** The root is always a directory. *)
Definition lookup_node (fs : gmap (list string) node) (p : list string) : option node :=
  if bool_decide (p = []) then Some Dir else fs !! p.

(** What [os.stat(s)] finds; [None] stands for its [OSError]. *)
Definition stat (cwd : list string) (fs : gmap (list string) node) (s : string)
  : option node :=
  if bool_decide (s = "") then None
  else match lookup_node fs (Path.resolve cwd s) with
       | Some (File b) => if Path.names_dir s then None else Some (File b)
       | o => o
       end.

(** [os.makedirs(p, exist_ok=True)] along the components [rest] below
    [pre]: missing directories are created, a regular file in the way
    raises. *)
Fixpoint mkdirs_from (pre rest : list string) (fs : gmap (list string) node)
  : exn + gmap (list string) node :=
  match rest with
  | [] => inr fs
  | c :: rest' =>
      let q := (pre ++ [c]) in
      match fs !! q with
      | Some (File _) =>
          inl (match rest' with [] => FileExistsError | _ => NotADirectoryError end)
      | Some Dir => mkdirs_from q rest' fs
      | None => mkdirs_from q rest' (<[q := Dir]> fs)
      end
  end.

Definition makedirs (cwd : list string) (fs : gmap (list string) node) (s : string)
  : exn + gmap (list string) node :=
  if bool_decide (s = "") then inl FileNotFoundError
  else mkdirs_from [] (Path.resolve cwd s) fs.

(** [with open(s, "rb") as f: f.read()]. *)
Definition read_file (cwd : list string) (fs : gmap (list string) node) (s : string)
  : exn + list byte :=
  if bool_decide (s = "") then inl FileNotFoundError
  else match lookup_node fs (Path.resolve cwd s) with
       | Some (File b) => if Path.names_dir s then inl NotADirectoryError else inr b
       | Some Dir => inl IsADirectoryError
       | None => inl FileNotFoundError
       end.

(** [with open(s, "wb") as f: f.write(data)] (and the text mode ["w"]):
    the file is created or replaced when its directory exists. *)
Definition write_file (cwd : list string) (fs : gmap (list string) node) (s : string)
    (data : list byte) : exn + gmap (list string) node :=
  if bool_decide (s = "") then inl FileNotFoundError
  else if Path.names_dir s then inl IsADirectoryError
  else
    let p := Path.resolve cwd s in
    match lookup_node fs p with
    | Some Dir => inl IsADirectoryError
    | _ =>
        match lookup_node fs (removelast p) with
        | Some Dir => inr (<[p := File data]> fs)
        | Some (File _) => inl NotADirectoryError
        | None => inl FileNotFoundError
        end
    end.

(** [os.listdir(s)]: the names directly below the directory [s], in the
    order the map enumerates them. *)
Definition listdir (cwd : list string) (fs : gmap (list string) node) (s : string)
  : exn + list string :=
  if bool_decide (s = "") then inl FileNotFoundError
  else
    let p := Path.resolve cwd s in
    match lookup_node fs p with
    | Some Dir =>
        inr (omap (λ kv : list string * node,
                     if bool_decide (kv.1 ≠ [] ∧ removelast kv.1 = p)
                     then Some (List.last kv.1 "") else None)
                  (map_to_list fs))
    | Some (File _) => inl NotADirectoryError
    | None => inl FileNotFoundError
    end.

End FS.

(** ** Records of the catalog and of the archive *)

(** A script of [scripts.json].  The script reads ["name"], ["path"]
    and ["pending_backup"] with [d.get(key)], which gives [None] for a
    missing key and for a key that holds [None] alike: for them [None]
    is either.  ["description"] is also read with a default
    ([d.get("description", "")]), which tells the two apart: [None] is
    the missing key and [Some None] the key that holds [None]. *)
Record script := Script {
  name : option string;
  path : option string;
  description : option (option string);
  pending_backup : option bool
}.

(** An entry of the manifest's ["files"] object. *)
Record file_info := FileInfo {
  backup_file : option string;
  sha256 : option string;
  orig_size : option nat
}.

(** [metadata.json]; [None] is [null].  The ["files"] object is kept in
    insertion order, the order [dict.items()] iterates in. *)
Record manifest := Manifest {
  original_path : option string;
  m_description : option string;
  timestamp : string;
  files : list (string * file_info)
}.

(** ** The libraries behind the script's one-line wrappers

    [zlib], [hashlib] and [json] are not part of the repository; the
    script relies on their contracts, which are the laws of this class.
    [lower] is [str.lower()], which follows the Unicode case tables:
    nothing is assumed of it. *)
Class Libs := {
  lower : string → string;
  zlib_compress : list byte → list byte;
  zlib_decompress : list byte → option (list byte);
  sha256_hexdigest : list byte → string;
  json_dump : manifest → list byte;
  json_load : list byte → option manifest;
  zlib_round_trip : ∀ b, zlib_decompress (zlib_compress b) = Some b;
  json_round_trip : ∀ m, json_load (json_dump m) = Some m
}.

(** ** What the script prints and does to the disk *)

Inductive message :=
  | MsgNoName
  | MsgNoSource (name : string)
  | MsgBackupSaved (name out_file : string)
  | MsgBackupFailed (e : exn)
  | MsgNoBackupFolder (name : string)
  | MsgDataMissing (orig_name : string)
  | MsgFailedDecompressing (gz_path : string)
  | MsgMismatch (orig_name : string)
  | MsgFailedReadingMetadata (e : exn)
  | MsgReproduced (files_written : nat) (target_dir : string)
  | MsgNoFilesReproduced
  | MsgPendingNow (name : option string)
  | MsgScheduling
  | MsgNoScripts
  | MsgListing (scripts : list script)
  | MsgInvalidSelection
  | MsgInvalidIndex.

Inductive event :=
  | Print (m : message)
  | MadeDirs (s : string)
  | Wrote (s : string) (data : list byte)
  | Saved (scripts : list script)
  | Slept.

(** A process as [psutil.process_iter(['pid','name','cmdline','exe'])]
    reports it; [None] is the value psutil gives for a field it could
    not read. *)
Record proc := Proc {
  cmdline : option (list string);
  exe : option string
}.

(** What the script cannot control: its working directory, whether
    [import psutil] succeeded, and, at each tick of the worker's clock,
    the process table, the wall clock and the worker's stop event. *)
Record env := Env {
  e_cwd : list string;
  PSUTIL_AVAILABLE : bool;
  e_procs : nat → list proc;
  e_now : nat → string;
  e_stop : nat → bool
}.

(** The state: the disk, the catalog file [scripts.json] (kept apart
    from the other files: the catalog is a list of records), the tick
    and what happened so far. *)
Record world := World {
  w_env : env;
  w_fs : gmap (list string) node;
  w_catalog : list script;
  w_time : nat;
  w_log : list event
}.

Definition w_cwd (w : world) : list string := e_cwd (w_env w).

Definition set_fs (fs : gmap (list string) node) (w : world) : world :=
  World (w_env w) fs (w_catalog w) (w_time w) (w_log w).

Definition add_log (e : event) (w : world) : world :=
  World (w_env w) (w_fs w) (w_catalog w) (w_time w) (w_log w ++ [e]).

Inductive result (A : Type) :=
  | Return (a : A)
  | Raise (e : exn).
Arguments Return {A} a.
Arguments Raise {A} e.

(** State and exceptions: a computation runs in a world and returns or
    raises, leaving a world behind either way. *)
Definition M (A : Type) : Type := world → result A * world.

Definition ret {A} (a : A) : M A := λ w, (Return a, w).
Definition raise {A} (e : exn) : M A := λ w, (Raise e, w).
Definition bind {A B} (m : M A) (k : A → M B) : M B :=
  λ w, match m w with
       | (Return a, w') => k a w'
       | (Raise e, w') => (Raise e, w')
       end.

(** [try: m except Exception as e: h(e)]. *)
Definition try_except {A} (m : M A) (h : exn → M A) : M A :=
  λ w, match m w with
       | (Return a, w') => (Return a, w')
       | (Raise e, w') => h e w'
       end.

Declare Scope io_scope.
Delimit Scope io_scope with io.
Notation "x <- m ;; k" := (bind m (λ x, k))
  (at level 100, m at next level, right associativity) : io_scope.
Notation "m ;;; k" := (bind m (λ _, k))
  (at level 100, right associativity) : io_scope.
Open Scope io_scope.

(** A [for] loop over [l] that updates the local [acc].  When the body
    raises, the loop stops and hands over the exception together with
    the value the local had: the code after an enclosing [try] still
    reads it. *)
Fixpoint for_each {A S} (l : list A) (body : A → S → M S) (acc : S)
  : M (S * option exn) :=
  match l with
  | [] => ret (acc, None)
  | x :: rest =>
      λ w, match body x acc w with
           | (Return acc', w') => for_each rest body acc' w'
           | (Raise e, w') => (Return (acc, Some e), w')
           end
  end.

Definition log (e : event) : M unit := λ w, (Return tt, add_log e w).

Definition print (m : message) : M unit := log (Print m).

Definition path_exists (s : string) : M bool :=
  λ w, (Return (bool_decide (is_Some (FS.stat (w_cwd w) (w_fs w) s))), w).

Definition makedirs (s : string) : M unit :=
  λ w, match FS.makedirs (w_cwd w) (w_fs w) s with
       | inl e => (Raise e, w)
       | inr fs' => (Return tt, add_log (MadeDirs s) (set_fs fs' w))
       end.

Definition read_file (s : string) : M (list byte) :=
  λ w, match FS.read_file (w_cwd w) (w_fs w) s with
       | inl e => (Raise e, w)
       | inr b => (Return b, w)
       end.

Definition write_file (s : string) (data : list byte) : M unit :=
  λ w, match FS.write_file (w_cwd w) (w_fs w) s data with
       | inl e => (Raise e, w)
       | inr fs' => (Return tt, add_log (Wrote s data) (set_fs fs' w))
       end.

Definition listdir (s : string) : M (list string) :=
  λ w, match FS.listdir (w_cwd w) (w_fs w) s with
       | inl e => (Raise e, w)
       | inr l => (Return l, w)
       end.

(** [datetime.now().isoformat()]. *)
Definition now_isoformat : M string := λ w, (Return (e_now (w_env w) (w_time w)), w).

(** [load_scripts()] and [save_scripts(scripts)]. *)
Definition load_scripts : M (list script) := λ w, (Return (w_catalog w), w).

Definition save_scripts (scripts : list script) : M unit :=
  λ w, (Return tt,
        add_log (Saved scripts) (World (w_env w) (w_fs w) scripts (w_time w) (w_log w))).

(** [time.sleep(self.poll_interval)]: the next tick. *)
Definition sleep : M unit :=
  λ w, (Return tt,
        add_log Slept (World (w_env w) (w_fs w) (w_catalog w) (S (w_time w)) (w_log w))).

(** Python's truth value of [d.get(key)] for a string. *)
Definition truthy (o : option string) : option string :=
  match o with
  | Some s => if bool_decide (s = "") then None else Some s
  | None => None
  end.

(** [s.endswith(suffix)] and [s[:-3]]. *)
Definition endswith (suffix s : string) : bool :=
  let n := String.length s in
  let k := String.length suffix in
  (k <=? n)%nat && bool_decide (String.substring (n - k) k s = suffix).

Definition drop_last3 (s : string) : string :=
  String.substring 0 (String.length s - 3) s.

(** ** The program *)

Section Program.
Context `{L : Libs}.

Definition BACKUPS_DIR : string := "backups".
Definition REPRODUCED_DIR : string := "reproduced".

Definition sha256_bytes (b : list byte) : string := sha256_hexdigest b.

Definition compress_bytes (b : list byte) : list byte := zlib_compress b.

(** [zlib.decompress] raises [zlib.error] on a stream it rejects. *)
Definition decompress_bytes (b : list byte) : M (list byte) :=
  match zlib_decompress b with
  | Some d => ret d
  | None => raise ZlibError
  end.

(** The three tests [is_running] makes on one process. *)
Definition proc_matches (cwd : list string) (target : string) (p : proc) : bool :=
  let target_name := Path.basename target in
  let target_path := Path.abspath cwd target in
  let cmdline := default [] (cmdline p) in
  let exe := default "" (exe p) in
  existsb (λ x, bool_decide (target_path = Path.abspath cwd x))
          (List.filter (λ x, negb (bool_decide (x = ""))) cmdline)
  || (negb (bool_decide (exe = ""))
      && bool_decide (lower (Path.basename exe) = lower target_name))
  || existsb (λ x, contains target_name x) cmdline.

(** [is_running(path)] in the environment [e] at tick [t].
    [os.path.basename(None)] is a [TypeError]. *)
Definition is_running_at (e : env) (t : nat) (path : option string) : result bool :=
  if negb (PSUTIL_AVAILABLE e) then Return false
  else match path with
       | None => Raise TypeError
       | Some target => Return (existsb (proc_matches (e_cwd e) target) (e_procs e t))
       end.

Definition is_running (path : option string) : M bool :=
  λ w, (is_running_at (w_env w) (w_time w) path, w).

(** The [meta] dictionary; ["description"] is
    [script.get("description", "")]. *)
Definition meta_of (src : option string) (script : script) (now : string)
    (files : list (string * file_info)) : manifest :=
  {| original_path := src;
     m_description := default (Some "") (description script);
     timestamp := now;
     files := files |}.

(** [backup_script_to_folder(script)]. *)
Definition backup_script_to_folder (script : script) : M bool :=
  let src := path script in
  match truthy (name script) with
  | None => print MsgNoName ;;; ret false
  | Some name =>
      let folder := Path.join BACKUPS_DIR name in
      makedirs folder ;;;
      present <- match truthy src with
                 | None => ret false
                 | Some s => path_exists s
                 end ;;
      match truthy src, present with
      | Some src', true =>
          try_except
            (raw <- read_file src' ;;
             let compressed := compress_bytes raw in
             let base := Path.basename src' in
             let out_file := Path.join folder (base +:+ ".gz") in
             write_file out_file compressed ;;;
             now <- now_isoformat ;;
             let meta :=
               meta_of src script now
                 [(base, {| backup_file := Some (Path.basename out_file);
                            sha256 := Some (sha256_bytes raw);
                            orig_size := Some (length raw) |})] in
             let meta_path := Path.join folder "metadata.json" in
             write_file meta_path (json_dump meta) ;;;
             print (MsgBackupSaved name out_file) ;;;
             ret true)
            (λ e, print (MsgBackupFailed e) ;;; ret false)
      | _, _ =>
          now <- now_isoformat ;;
          let meta := meta_of src script now [] in
          let meta_path := Path.join folder "metadata.json" in
          write_file meta_path (json_dump meta) ;;;
          print (MsgNoSource name) ;;;
          ret false
      end
  end.

(** The body of the manifest-driven loop of
    [reproduce_script_to_default]; [continue] returns the count as it
    is. *)
Definition restore_entry (folder target_dir : string)
    (entry : string * file_info) (files_written : nat) : M nat :=
  let '(orig_name, info) := entry in
  match backup_file info with
  | None => raise TypeError
  | Some gz_name =>
      let gz_path := Path.join folder gz_name in
      present <- path_exists gz_path ;;
      if negb present then print (MsgDataMissing orig_name) ;;; ret files_written
      else
        blob <- read_file gz_path ;;
        r <- try_except (data <- decompress_bytes blob ;; ret (Some data))
                        (λ _, print (MsgFailedDecompressing gz_path) ;;; ret None) ;;
        match r with
        | None => ret files_written
        | Some data =>
            let out_path := Path.join target_dir orig_name in
            write_file out_path data ;;;
            match truthy (sha256 info) with
            | Some sha =>
                if bool_decide (sha ≠ sha256_bytes data)
                then print (MsgMismatch orig_name) else ret tt
            | None => ret tt
            end ;;;
            ret (S files_written)
        end
  end.

(** The body of the fallback loop over [os.listdir(folder)]. *)
Definition restore_blob (folder target_dir : string) (f : string)
    (files_written : nat) : M nat :=
  if endswith ".gz" f then
    let gz_path := Path.join folder f in
    blob <- read_file gz_path ;;
    r <- try_except (data <- decompress_bytes blob ;; ret (Some data))
                    (λ _, print (MsgFailedDecompressing gz_path) ;;; ret None) ;;
    match r with
    | None => ret files_written
    | Some data =>
        let orig_name := drop_last3 f in
        let out_path := Path.join target_dir orig_name in
        write_file out_path data ;;;
        ret (S files_written)
    end
  else ret files_written.

(** [reproduce_script_to_default(script)]. *)
Definition reproduce_script_to_default (script : script) : M unit :=
  match name script with
  | None => raise TypeError
  | Some name =>
      let folder := Path.join BACKUPS_DIR name in
      present <- path_exists folder ;;
      if negb present then print (MsgNoBackupFolder name)
      else
        let target_dir := Path.join REPRODUCED_DIR name in
        makedirs target_dir ;;;
        let meta_path := Path.join folder "metadata.json" in
        has_meta <- path_exists meta_path ;;
        files_written <-
          (if has_meta then
             r <- try_except
                    (text <- read_file meta_path ;;
                     match json_load text with
                     | None => raise JSONDecodeError
                     | Some meta =>
                         for_each (files meta) (restore_entry folder target_dir) 0
                     end)
                    (λ e, ret (0, Some e)) ;;
             match r with
             | (n, Some e) => print (MsgFailedReadingMetadata e) ;;; ret n
             | (n, None) => ret n
             end
           else
             names <- listdir folder ;;
             r <- for_each names (restore_blob folder target_dir) 0 ;;
             match r with
             | (_, Some e) => raise e
             | (n, None) => ret n
             end) ;;
        match files_written with
        | O => print MsgNoFilesReproduced
        | n => print (MsgReproduced n target_dir)
        end
  end.

Definition is_pending (s : script) : bool :=
  match pending_backup s with
  | Some true => true
  | _ => false
  end.

(** [s.pop("pending_backup", None)] and [s["pending_backup"] = True]. *)
Definition pop_pending (s : script) : script :=
  Script (name s) (path s) (description s) None.

Definition set_pending (s : script) : script :=
  Script (name s) (path s) (description s) (Some true).

(** The [for s in scripts] loop of [PendingBackupWorker.run]: the
    records as the loop leaves them, [pending_any] and [changed]. *)
Fixpoint sweep (scripts : list script) : M (list script * bool * bool) :=
  match scripts with
  | [] => ret ([], false, false)
  | s :: rest =>
      r <- (if is_pending s then
              running <- is_running (path s) ;;
              if negb running then
                print (MsgPendingNow (name s)) ;;;
                ok <- backup_script_to_folder s ;;
                if ok then ret (pop_pending s, true) else ret (s, false)
              else ret (s, false)
            else ret (s, false)) ;;
      r' <- sweep rest ;;
      let '(s', changed_s) := r in
      let '(rest', pending_any, changed) := r' in
      ret (s' :: rest', is_pending s || pending_any, changed_s || changed)
  end.

Definition stop_is_set : M bool := λ w, (Return (e_stop (w_env w) (w_time w)), w).

(** [PendingBackupWorker.run], for at most [fuel] turns of its [while]
    loop: [Some tt] when the method returned, [None] when it is still
    polling. *)
Fixpoint run (fuel : nat) : M (option unit) :=
  match fuel with
  | O => ret None
  | S fuel' =>
      stopped <- stop_is_set ;;
      if stopped then ret (Some tt)
      else
        scripts <- load_scripts ;;
        r <- sweep scripts ;;
        let '(scripts', pending_any, changed) := r in
        (if changed then save_scripts scripts' else ret tt) ;;;
        if negb pending_any then ret (Some tt)
        else sleep ;;; run fuel'
  end.

(** [list_scripts(scripts)]. *)
Definition list_scripts (scripts : list script) : M unit :=
  match scripts with
  | [] => print MsgNoScripts
  | _ => print (MsgListing scripts)
  end.

(** [backup_now_interactive(scripts)]; [choice] is what [int(input())]
    gave, [None] when it raised.  The list is returned as the call
    leaves it. *)
Definition backup_now_interactive (scripts : list script) (choice : option Z)
  : M (list script) :=
  list_scripts scripts ;;;
  match scripts with
  | [] => ret scripts
  | _ =>
      match choice with
      | None => print MsgInvalidSelection ;;; ret scripts
      | Some n =>
          let idx := (n - 1)%Z in
          if bool_decide (idx < 0)%Z || bool_decide (Z.of_nat (length scripts) ≤ idx)%Z
          then print MsgInvalidIndex ;;; ret scripts
          else
            let i := Z.to_nat idx in
            match scripts !! i with
            | None => ret scripts
            | Some s =>
                running <- is_running (path s) ;;
                scripts' <-
                  (if running then
                     print MsgScheduling ;;;
                     ret (<[i := set_pending s]> scripts)
                   else
                     backup_script_to_folder s ;;;
                     ret (<[i := pop_pending s]> scripts)) ;;
                save_scripts scripts' ;;;
                ret scripts'
            end
      end
  end.

End Program.


(** ** The menu actions that change the catalog *)

Section Menu.
Context `{L : Libs}.

(** [ensure_dirs()]. *)
Definition ensure_dirs : M unit :=
  makedirs BACKUPS_DIR ;;; makedirs REPRODUCED_DIR.

(** More of what the menu prints. *)
Inductive notice :=
  | NameRequired
  | NoPathSelected
  | ScriptAdded
  | Modifying (name : option string)
  | Modified
  | Deleted (name : option string).

(** The index a menu action reads: [int(input(...).strip()) - 1], checked
    against the list.  [choice] is what [int] gave, [None] when it
    raised. *)
Definition selected {A} (scripts : list A) (choice : option Z) : message + nat :=
  match choice with
  | None => inl MsgInvalidSelection
  | Some n =>
      let idx := (n - 1)%Z in
      if bool_decide (idx < 0)%Z || bool_decide (Z.of_nat (length scripts) ≤ idx)%Z
      then inl MsgInvalidIndex
      else inr (Z.to_nat idx)
  end.

(** [add_script_interactive(scripts)]; [name_in] and [desc_in] are the
    stripped lines read from the keyboard, [path_in] what
    [pick_file_dialog] returned.  The list is returned as the call
    leaves it, with what it printed besides the messages of the
    functions it calls. *)
Definition add_script_interactive (scripts : list script)
    (name_in path_in desc_in : string) : M (list script * list notice) :=
  if bool_decide (name_in = "") then ret (scripts, [NameRequired])
  else if bool_decide (path_in = "") then ret (scripts, [NoPathSelected])
  else
    let script := Script (Some name_in) (Some path_in) (Some (Some desc_in)) None in
    running <- is_running (Some path_in) ;;
    script' <-
      (if running then print MsgScheduling ;;; ret (set_pending script)
       else backup_script_to_folder script ;;; ret script) ;;
    let scripts' := scripts ++ [script'] in
    save_scripts scripts' ;;;
    ret (scripts', [ScriptAdded]).

(** [delete_script_interactive(scripts)]: [scripts.pop(idx)], then the
    catalog is saved.  The backups are left on the disk. *)
Definition delete_script_interactive (scripts : list script) (choice : option Z)
  : M (list script * list notice) :=
  list_scripts scripts ;;;
  match scripts with
  | [] => ret (scripts, [])
  | _ =>
      match selected scripts choice with
      | inl m => print m ;;; ret (scripts, [])
      | inr i =>
          let to_del := scripts !! i in
          let scripts' := delete i scripts in
          save_scripts scripts' ;;;
          ret (scripts', [Deleted (to_del ≫= name)])
      end
  end.

(** [reproduce_interactive(scripts)]. *)
Definition reproduce_interactive (scripts : list script) (choice : option Z) : M unit :=
  list_scripts scripts ;;;
  match scripts with
  | [] => ret tt
  | _ =>
      match selected scripts choice with
      | inl m => print m
      | inr i =>
          match scripts !! i with
          | Some s => reproduce_script_to_default s
          | None => ret tt
          end
      end
  end.

(** The test of [modify_script_interactive] for an archive that already
    holds something: [need_backup] stays [True] unless [metadata.json]
    can be read and lists at least one file. *)
Definition need_backup (new_name : string) : M bool :=
  let folder := Path.join BACKUPS_DIR new_name in
  let meta_path := Path.join folder "metadata.json" in
  present <- path_exists meta_path ;;
  if present then
    try_except
      (text <- read_file meta_path ;;
       match json_load text with
       | None => raise JSONDecodeError
       | Some meta =>
           match files meta with
           | [] => ret true
           | _ => ret false
           end
       end)
      (λ _, ret true)
  else ret true.

(** [modify_script_interactive(scripts)]; an empty input keeps the
    current value ([input(...).strip() or s.get(...)]), and the three
    keys are set: a record without a description gets the key, holding
    [None]. *)
Definition modify_script_interactive (scripts : list script) (choice : option Z)
    (name_in path_in desc_in : string) : M (list script * list notice) :=
  list_scripts scripts ;;;
  match scripts with
  | [] => ret (scripts, [])
  | _ =>
      match selected scripts choice with
      | inl m => print m ;;; ret (scripts, [])
      | inr i =>
          match scripts !! i with
          | None => ret (scripts, [])
          | Some s =>
              let new_name := if bool_decide (name_in = "") then name s else Some name_in in
              let new_path := if bool_decide (path_in = "") then path s else Some path_in in
              let new_desc :=
                if bool_decide (desc_in = "") then mjoin (description s) else Some desc_in in
              let s1 := Script new_name new_path (Some new_desc) (pending_backup s) in
              match new_name with
              | None => raise TypeError
              | Some n =>
                  need <- need_backup n ;;
                  running <- is_running new_path ;;
                  s2 <-
                    (if running then print MsgScheduling ;;; ret (set_pending s1)
                     else if need then
                       backup_script_to_folder s1 ;;; ret (pop_pending s1)
                     else ret s1) ;;
                  let scripts' := <[i := s2]> scripts in
                  save_scripts scripts' ;;;
                  ret (scripts', [Modifying (name s); Modified])
              end
          end
      end
  end.

End Menu.

(** ** Names for what the claims talk about *)

Section Layout.
Context `{L : Libs}.

(** [folder], [out_file] and [meta_path] of [backup_script_to_folder];
    [target_dir] and [out_path] of [reproduce_script_to_default]. *)
Definition archive_dir (n : string) : string := Path.join BACKUPS_DIR n.

Definition blob_path (n src : string) : string :=
  Path.join (archive_dir n) (Path.basename src +:+ ".gz").

Definition manifest_path (n : string) : string :=
  Path.join (archive_dir n) "metadata.json".

Definition restore_dir (n : string) : string := Path.join REPRODUCED_DIR n.

Definition restored_path (n src : string) : string :=
  Path.join (restore_dir n) (Path.basename src).

(** The manifest a successful backup of [src] with content [raw]
    writes. *)
Definition created_manifest (script : script) (n src : string) (raw : list byte)
    (now : string) : manifest :=
  meta_of (path script) script now
    [(Path.basename src,
      {| backup_file := Some (Path.basename (blob_path n src));
         sha256 := Some (sha256_bytes raw);
         orig_size := Some (length raw) |})].

(** The manifest written when there is no source file. *)
Definition empty_manifest (script : script) (now : string) : manifest :=
  meta_of (path script) script now [].

(** The archive of [n] is the same in [w2] as in [w1]: the working
    directory and every node at or below the archive directory. *)
Definition archive_unchanged (n : string) (w1 w2 : world) : Prop :=
  w_cwd w2 = w_cwd w1 ∧
  ∀ p, Path.resolve (w_cwd w1) (archive_dir n) `prefix_of` p →
       FS.lookup_node (w_fs w2) p = FS.lookup_node (w_fs w1) p.

(** [not src or not os.path.exists(src)] on the disk [fs]. *)
Definition source_missing (cwd : list string) (fs : gmap (list string) node)
    (src : option string) : Prop :=
  match truthy src with
  | None => True
  | Some s => FS.stat cwd fs s = None
  end.

(** The disk after an event of the log, and after a run of them: what
    an observer of the disk sees between two steps of the program. *)
Definition replay_event (cwd : list string) (fs : gmap (list string) node)
    (ev : event) : gmap (list string) node :=
  match ev with
  | MadeDirs s =>
      match FS.makedirs cwd fs s with inr fs' => fs' | inl _ => fs end
  | Wrote s data =>
      match FS.write_file cwd fs s data with inr fs' => fs' | inl _ => fs end
  | _ => fs
  end.

Definition replay (cwd : list string) (fs : gmap (list string) node)
    (evs : list event) : gmap (list string) node :=
  foldl (replay_event cwd) fs evs.

(** The world once the events [evs] are logged and applied to the disk. *)
Definition world_after (w : world) (evs : list event) : world :=
  World (w_env w) (replay (w_cwd w) (w_fs w) evs) (w_catalog w) (w_time w)
        (w_log w ++ evs).

(** Every entry of the manifest of [n] that can be read on [fs] names a
    blob that exists in the archive directory. *)
Definition manifest_blobs_present (cwd : list string) (n : string)
    (fs : gmap (list string) node) : Prop :=
  ∀ d m k info g,
    FS.read_file cwd fs (manifest_path n) = inr d →
    json_load d = Some m →
    (k, info) ∈ files m →
    backup_file info = Some g →
    is_Some (FS.stat cwd fs (Path.join (archive_dir n) g)).

(** The runs of [backup_script_to_folder] for a script named [n] on the
    disk [fs]: what the call gives back and the events it logs, one
    constructor per way through the function. *)
Inductive backup_steps (cwd : list string) (script : script) (n now : string)
    (fs : gmap (list string) node) : result bool → list event → Prop :=
  | bs_makedirs_raises e :
      FS.makedirs cwd fs (archive_dir n) = inl e →
      backup_steps cwd script n now fs (Raise e) []
  | bs_no_source_raises fs1 e :
      FS.makedirs cwd fs (archive_dir n) = inr fs1 →
      source_missing cwd fs1 (path script) →
      FS.write_file cwd fs1 (manifest_path n) (json_dump (empty_manifest script now))
        = inl e →
      backup_steps cwd script n now fs (Raise e) [MadeDirs (archive_dir n)]
  | bs_no_source fs1 fs2 :
      FS.makedirs cwd fs (archive_dir n) = inr fs1 →
      source_missing cwd fs1 (path script) →
      FS.write_file cwd fs1 (manifest_path n) (json_dump (empty_manifest script now))
        = inr fs2 →
      backup_steps cwd script n now fs (Return false)
        [MadeDirs (archive_dir n);
         Wrote (manifest_path n) (json_dump (empty_manifest script now));
         Print (MsgNoSource n)]
  | bs_read_fails fs1 src e :
      FS.makedirs cwd fs (archive_dir n) = inr fs1 →
      truthy (path script) = Some src →
      is_Some (FS.stat cwd fs1 src) →
      FS.read_file cwd fs1 src = inl e →
      backup_steps cwd script n now fs (Return false)
        [MadeDirs (archive_dir n); Print (MsgBackupFailed e)]
  | bs_blob_fails fs1 src raw e :
      FS.makedirs cwd fs (archive_dir n) = inr fs1 →
      truthy (path script) = Some src →
      is_Some (FS.stat cwd fs1 src) →
      FS.read_file cwd fs1 src = inr raw →
      FS.write_file cwd fs1 (blob_path n src) (compress_bytes raw) = inl e →
      backup_steps cwd script n now fs (Return false)
        [MadeDirs (archive_dir n); Print (MsgBackupFailed e)]
  | bs_manifest_fails fs1 src raw fs2 e :
      FS.makedirs cwd fs (archive_dir n) = inr fs1 →
      truthy (path script) = Some src →
      is_Some (FS.stat cwd fs1 src) →
      FS.read_file cwd fs1 src = inr raw →
      FS.write_file cwd fs1 (blob_path n src) (compress_bytes raw) = inr fs2 →
      FS.write_file cwd fs2 (manifest_path n)
        (json_dump (created_manifest script n src raw now)) = inl e →
      backup_steps cwd script n now fs (Return false)
        [MadeDirs (archive_dir n);
         Wrote (blob_path n src) (compress_bytes raw);
         Print (MsgBackupFailed e)]
  | bs_saved fs1 src raw fs2 fs3 :
      FS.makedirs cwd fs (archive_dir n) = inr fs1 →
      truthy (path script) = Some src →
      is_Some (FS.stat cwd fs1 src) →
      FS.read_file cwd fs1 src = inr raw →
      FS.write_file cwd fs1 (blob_path n src) (compress_bytes raw) = inr fs2 →
      FS.write_file cwd fs2 (manifest_path n)
        (json_dump (created_manifest script n src raw now)) = inr fs3 →
      backup_steps cwd script n now fs (Return true)
        [MadeDirs (archive_dir n);
         Wrote (blob_path n src) (compress_bytes raw);
         Wrote (manifest_path n) (json_dump (created_manifest script n src raw now));
         Print (MsgBackupSaved n (blob_path n src))].

(** [t] occurs in [x]. *)
Definition substring_of (t x : string) : Prop := ∃ a b, x = a +:+ t +:+ b.

(** The condition for [is_in_use] as the specification words it: some
    live process has an argument whose absolute form is the target's, or
    an executable whose base name is the target's up to case, or an
    argument the target's base name occurs in. *)
Definition in_use_as_specified (e : env) (t : nat) (target : string) : Prop :=
  ∃ p, p ∈ e_procs e t ∧
    ((∃ x, x ∈ default [] (cmdline p)
           ∧ Path.abspath (e_cwd e) target = Path.abspath (e_cwd e) x)
     ∨ (∃ ex, exe p = Some ex
              ∧ lower (Path.basename ex) = lower (Path.basename target))
     ∨ (∃ x, x ∈ default [] (cmdline p) ∧ substring_of (Path.basename target) x)).

(** The condition [is_running] tests: empty arguments and an empty
    executable path are skipped. *)
Definition in_use_as_tested (e : env) (t : nat) (target : string) : Prop :=
  ∃ p, p ∈ e_procs e t ∧
    ((∃ x, x ∈ default [] (cmdline p) ∧ x ≠ ""
           ∧ Path.abspath (e_cwd e) target = Path.abspath (e_cwd e) x)
     ∨ (∃ ex, exe p = Some ex ∧ ex ≠ ""
              ∧ lower (Path.basename ex) = lower (Path.basename target))
     ∨ (∃ x, x ∈ default [] (cmdline p) ∧ substring_of (Path.basename target) x)).

(** The detector says "not in use" for the script at tick [t]. *)
Definition idle_at (e : env) (t : nat) (s : script) : bool :=
  match is_running_at e t (path s) with
  | Return false => true
  | _ => false
  end.

(** A record after a sweep at tick [t] in which backups succeed, and
    after its flag is cleared if it had one. *)
Definition swept (e : env) (t : nat) (s : script) : script :=
  if is_pending s && idle_at e t s then pop_pending s else s.

Definition cleared (s : script) : script :=
  if is_pending s then pop_pending s else s.

(** A record after [j] sweeps, when the detector says "in use" for it
    at its first [k] sweeps and "not in use" at the next one: its flag
    is cleared in sweep [k + 1]. *)
Definition cleared_below (k : script → nat) (j : nat) (s : script) : script :=
  if is_pending s && (k s <? j) then pop_pending s else s.

(** The number of files written among the events [evs]. *)
Definition is_wrote (ev : event) : bool :=
  match ev with Wrote _ _ => true | _ => false end.

Definition writes (evs : list event) : nat := length (List.filter is_wrote evs).

(** What a loop body logs matches what it adds to the count. *)
Definition counts_writes {A} (body : A → nat → M nat) : Prop :=
  ∀ x k w r w', body x k w = (r, w') →
    ∃ evs, w_log w' = w_log w ++ evs ∧
      match r with
      | Return k' => k' = k + writes evs
      | Raise _ => writes evs = 0
      end.

End Layout.
(** ** A small instance of the libraries, to run the program

    A stored (uncompressed) stream behind a one-byte header stands for
    [zlib], the length of the input for the digest, the bits of the
    countable encoding of a manifest for [json], and the lower case of
    the ASCII letters for [str.lower]. *)

Module Stored.

Definition compress (b : list byte) : list byte := x78 :: b.

Definition decompress (b : list byte) : option (list byte) :=
  match b with
  | x78 :: r => Some r
  | _ => None
  end.

Definition digest (b : list byte) : string := pretty (length b).

(** [str.lower()] on the ASCII letters. *)
Definition lower_ascii (c : ascii) : ascii :=
  let n := Ascii.nat_of_ascii c in
  if (65 <=? n)%nat && (n <=? 90)%nat then Ascii.ascii_of_nat (n + 32) else c.

Fixpoint lower_string (s : string) : string :=
  match s with
  | EmptyString => EmptyString
  | String c r => String (lower_ascii c) (lower_string r)
  end.

Fixpoint pos_to_bytes (p : positive) : list byte :=
  match p with
  | xH => []
  | xO q => x30 :: pos_to_bytes q
  | xI q => x31 :: pos_to_bytes q
  end.

Fixpoint bytes_to_pos (l : list byte) : option positive :=
  match l with
  | [] => Some xH
  | x30 :: r => xO <$> bytes_to_pos r
  | x31 :: r => xI <$> bytes_to_pos r
  | _ => None
  end.

Definition info_to_tuple (i : file_info) : option string * option string * option nat :=
  (backup_file i, sha256 i, orig_size i).

Definition info_of_tuple (t : option string * option string * option nat) : file_info :=
  let '(b, s, n) := t in FileInfo b s n.

Definition manifest_to_tuple (m : manifest)
  : option string * option string * string
    * list (string * (option string * option string * option nat)) :=
  (original_path m, m_description m, timestamp m,
   (λ kv : string * file_info, (kv.1, info_to_tuple kv.2)) <$> files m).

Definition manifest_of_tuple
    (t : option string * option string * string
         * list (string * (option string * option string * option nat))) : manifest :=
  let '(p, d, ts, fl) := t in
  Manifest p d ts
    ((λ kv : string * (option string * option string * option nat),
        (kv.1, info_of_tuple kv.2)) <$> fl).

Definition dump (m : manifest) : list byte :=
  pos_to_bytes (encode (manifest_to_tuple m)).

Definition load (b : list byte) : option manifest :=
  p ← bytes_to_pos b; manifest_of_tuple <$> decode p.

Lemma bytes_to_pos_to_bytes p : bytes_to_pos (pos_to_bytes p) = Some p.
Proof. induction p as [q IH|q IH|]; simpl; rewrite ?IH; reflexivity. Qed.

Lemma manifest_of_to_tuple m : manifest_of_tuple (manifest_to_tuple m) = m.
Proof.
  destruct m as [p d ts fl]. unfold manifest_to_tuple, manifest_of_tuple. simpl.
  f_equal. rewrite <- list_fmap_compose.
  rewrite <- (list_fmap_id fl) at 2. apply list_fmap_ext.
  intros _ [k [b s n]] _. reflexivity.
Qed.

Lemma load_dump m : load (dump m) = Some m.
Proof.
  unfold load, dump. rewrite bytes_to_pos_to_bytes. simpl.
  rewrite decode_encode. simpl. f_equal. apply manifest_of_to_tuple.
Qed.

Lemma decompress_compress b : decompress (compress b) = Some b.
Proof. reflexivity. Qed.

#[global] Instance libs : Libs :=
  {| lower := lower_string;
     zlib_compress := compress;
     zlib_decompress := decompress;
     sha256_hexdigest := digest;
     json_dump := dump;
     json_load := load;
     zlib_round_trip := decompress_compress;
     json_round_trip := load_dump |}.

End Stored.

(** ** A catalog entry and a disk to run the program on *)

(** The value of a call that succeeded, and the test that it did. *)
Definition is_inr {A B} (x : A + B) : bool :=
  match x with inr _ => true | inl _ => false end.

Definition from_inr {A B} (d : B) (x : A + B) : B :=
  match x with inr b => b | inl _ => d end.

Module Demo.

Definition content : list byte := [x70; x72; x69; x6e; x74; x28; x31; x29].

Definition the_env : env :=
  {| e_cwd := ["home"; "u"];
     PSUTIL_AVAILABLE := true;
     e_procs := λ _, [];
     e_now := λ _, "2024-01-01T00:00:00";
     e_stop := λ _, false |}.

Definition disk : gmap (list string) node :=
  <[["home"; "u"; "demo.py"] := File content]>
    (<[["home"; "u"] := Dir]> (<[["home"] := Dir]> ∅)).

Definition start : world :=
  {| w_env := the_env; w_fs := disk; w_catalog := []; w_time := 0; w_log := [] |}.

Definition demo : script :=
  {| name := Some "demo"; path := Some "demo.py";
     description := Some (Some "a demo"); pending_backup := None |}.

(** The world a backup of [demo] leaves. *)
Definition backed_up : world :=
  (backup_script_to_folder (L := Stored.libs) demo start).2.

(** The disk once the restore directory of [demo] is there. *)
Definition with_restore_dir : gmap (list string) node :=
  from_inr ∅ (FS.makedirs (w_cwd backed_up) (w_fs backed_up) (restore_dir "demo")).

(** The backed-up world with the restore directory made, and a manifest
    entry that records an empty digest. *)
Definition restoring : world :=
  {| w_env := the_env; w_fs := with_restore_dir; w_catalog := [];
     w_time := 0; w_log := [] |}.

Definition legacy : file_info :=
  {| backup_file := Some "demo.py.gz"; sha256 := Some ""; orig_size := None |}.

(** An entry whose blob is not in the archive, and the same world with
    the blob of [demo.py] replaced by bytes that are no compressed
    stream. *)
Definition lost : file_info :=
  {| backup_file := Some "lost.gz"; sha256 := None; orig_size := None |}.

Definition corrupted : world :=
  {| w_env := the_env;
     w_fs := <[["home"; "u"; "backups"; "demo"; "demo.py.gz"] := File content]>
               with_restore_dir;
     w_catalog := []; w_time := 0; w_log := [] |}.

Definition restored_disk : gmap (list string) node :=
  from_inr ∅ (FS.write_file ["home"; "u"] with_restore_dir "reproduced/demo/demo.py" content).

(** An entry that names no blob, and the disk after an entry keyed by an
    absolute path is restored. *)
Definition nameless : file_info :=
  {| backup_file := None; sha256 := None; orig_size := None |}.

Definition escaped_disk : gmap (list string) node :=
  from_inr ∅ (FS.write_file ["home"; "u"] with_restore_dir "/home/u/evil.py" content).

(** What [metadata.json] of [demo] holds after the backup. *)
Definition manifest_text : list byte :=
  from_inr [] (FS.read_file (w_cwd backed_up) (w_fs backed_up) (manifest_path "demo")).

Definition manifest_of_demo : manifest :=
  created_manifest demo "demo" "demo.py" content "2024-01-01T00:00:00".

(** The disk once the archive directory of [demo] is there. *)
Definition with_demo_archive_dir : gmap (list string) node :=
  from_inr ∅ (FS.makedirs (w_cwd start) (w_fs start) (archive_dir "demo")).

(** A disk on which [backups] is a regular file. *)
Definition blocked : world :=
  {| w_env := the_env;
     w_fs := <[["home"; "u"; "backups"] := File []]> disk;
     w_catalog := []; w_time := 0; w_log := [] |}.

(** A disk on which [backups/demo] is a regular file. *)
Definition file_in_the_way : world :=
  {| w_env := the_env;
     w_fs := <[["home"; "u"; "backups"; "demo"] := File []]>
               (<[["home"; "u"; "backups"] := Dir]> disk);
     w_catalog := []; w_time := 0; w_log := [] |}.

(** A record whose source file is not there. *)
Definition gone : script :=
  {| name := Some "gone"; path := Some "gone.py";
     description := Some (Some "deleted"); pending_backup := Some true |}.

(** The disk once the archive directory of [gone] is there. *)
Definition with_archive_dir : gmap (list string) node :=
  from_inr ∅ (FS.makedirs (w_cwd start) (w_fs start) (archive_dir "gone")).

(** A script whose name is the path of the manifest of [gone] below
    [backups], and the world its backup leaves. *)
Definition squatter : script :=
  {| name := Some "gone/metadata.json"; path := Some "demo.py";
     description := None; pending_backup := None |}.

Definition squatted : world :=
  (backup_script_to_folder (L := Stored.libs) squatter start).2.

(** A disk on which [backups/gone/metadata.json] is a directory. *)
Definition manifest_blocked : world :=
  {| w_env := the_env;
     w_fs := <[["home"; "u"; "backups"; "gone"; "metadata.json"] := Dir]>
               (<[["home"; "u"; "backups"; "gone"] := Dir]>
                  (<[["home"; "u"; "backups"] := Dir]> disk));
     w_catalog := []; w_time := 0; w_log := [] |}.

(** A process started with an empty argument, and one whose executable
    psutil reports as the empty string. *)
Definition empty_argument : env :=
  {| e_cwd := ["home"; "u"];
     PSUTIL_AVAILABLE := true;
     e_procs := λ _, [{| cmdline := Some ["sh"; ""]; exe := None |}];
     e_now := λ _, "2024-01-01T00:00:00";
     e_stop := λ _, false |}.

Definition empty_executable : env :=
  {| e_cwd := ["home"; "u"];
     PSUTIL_AVAILABLE := true;
     e_procs := λ _, [{| cmdline := Some []; exe := Some "" |}];
     e_now := λ _, "2024-01-01T00:00:00";
     e_stop := λ _, false |}.

Definition idle_world (e : env) : world :=
  {| w_env := e; w_fs := disk; w_catalog := []; w_time := 0; w_log := [] |}.

(** [demo.py] is run by a process at tick 0 and by none afterwards; the
    catalog holds [demo], flagged pending. *)
Definition busy_then_idle : env :=
  {| e_cwd := ["home"; "u"];
     PSUTIL_AVAILABLE := true;
     e_procs := λ t, match t with
                     | O => [{| cmdline := Some ["python"; "demo.py"];
                                exe := Some "/usr/bin/python" |}]
                     | S _ => []
                     end;
     e_now := λ _, "2024-01-01T00:00:00";
     e_stop := λ _, false |}.

Definition demo_pending : script :=
  {| name := Some "demo"; path := Some "demo.py";
     description := Some (Some "a demo"); pending_backup := Some true |}.

Definition queued : world :=
  {| w_env := busy_then_idle; w_fs := disk; w_catalog := [demo_pending];
     w_time := 0; w_log := [] |}.

(** The same catalog one tick later, when [demo.py] is free; the catalog
    without a flag; a process that keeps [demo.py] in use; a pending
    record that has no path. *)
Definition queued_idle : world :=
  {| w_env := busy_then_idle; w_fs := disk; w_catalog := [demo_pending];
     w_time := 1; w_log := [] |}.

Definition settled : world :=
  {| w_env := busy_then_idle; w_fs := disk; w_catalog := [demo];
     w_time := 0; w_log := [] |}.

Definition always_busy : env :=
  {| e_cwd := ["home"; "u"];
     PSUTIL_AVAILABLE := true;
     e_procs := λ _, [{| cmdline := Some ["python"; "demo.py"];
                         exe := Some "/usr/bin/python" |}];
     e_now := λ _, "2024-01-01T00:00:00";
     e_stop := λ _, false |}.

Definition stuck : world :=
  {| w_env := always_busy; w_fs := disk; w_catalog := [demo_pending];
     w_time := 0; w_log := [] |}.

Definition pathless : script :=
  {| name := Some "lost"; path := None; description := None;
     pending_backup := Some true |}.

Definition with_pathless : world :=
  {| w_env := the_env; w_fs := disk; w_catalog := [demo; pathless; demo_pending];
     w_time := 0; w_log := [] |}.

(** The disks the worker sees in that run: before and after the backup. *)
Definition seen (fs : gmap (list string) node) : Prop :=
  fs = disk ∨ fs = w_fs backed_up.

End Demo.

(** * Facts about paths *)

Module PathFacts.
Import Path.

Lemma split_slash_nonempty s : split_slash s ≠ [].
Proof.
  destruct s as [|c r]; simpl; [done|].
  destruct (is_slash c); [done|]. by destruct (split_slash r).
Qed.

Lemma split_slash_app a b :
  split_slash (a +:+ String "/"%char b) = (split_slash a ++ split_slash b).
Proof.
  induction a as [|c r IH]; simpl; [done|].
  rewrite IH. destruct (is_slash c); [done|].
  pose proof (split_slash_nonempty r). by destruct (split_slash r).
Qed.

Lemma split_slash_plain x : has_slash x = false → split_slash x = [x].
Proof.
  induction x as [|c r IH]; simpl; [done|].
  intros [Hc Hr]%orb_false_elim. by rewrite Hc, (IH Hr).
Qed.

Lemma split_slash_no_slash s : Forall (λ c, has_slash c = false) (split_slash s).
Proof.
  induction s as [|c r IH]; simpl.
  - by constructor.
  - destruct (is_slash c) eqn:Hc.
    + by constructor.
    + pose proof (split_slash_nonempty r).
      destruct (split_slash r) as [|h t]; [done|].
      inversion IH; subst. constructor; [|done]. simpl. by rewrite Hc.
Qed.

Lemma has_slash_basename s : has_slash (basename s) = false.
Proof.
  unfold basename. pose proof (split_slash_no_slash s) as H.
  induction H as [|x l Hx Hl IH]; [done|].
  destruct l; [done|]. exact IH.
Qed.

Lemma has_slash_app a b : has_slash (a +:+ b) = has_slash a || has_slash b.
Proof.
  induction a as [|c r IH]; [done|].
  change (is_slash c || has_slash (r +:+ b) = is_slash c || has_slash r || has_slash b).
  by rewrite IH, orb_assoc.
Qed.

Lemma startswith_no_slash x : has_slash x = false → startswith_slash x = false.
Proof. destruct x; simpl; [done|]. by intros [? ?]%orb_false_elim. Qed.

Lemma endswith_slash_inv a : endswith_slash a = true → ∃ a', a = a' +:+ "/".
Proof.
  induction a as [|c r IH]; [done|].
  destruct r as [|c' r'].
  - simpl. intros Hc. exists "". simpl. apply Ascii.eqb_eq in Hc. by subst.
  - intros H. destruct (IH H) as [a' Ha']. exists (String c a'). by rewrite Ha'.
Qed.

Lemma app_assoc_string a b c : (a +:+ b) +:+ c = a +:+ (b +:+ c).
Proof.
  induction a as [|x r IH]; [done|].
  change (String x ((r +:+ b) +:+ c) = String x (r +:+ (b +:+ c))).
  by rewrite IH.
Qed.

Lemma startswith_app a b : a ≠ "" → startswith_slash (a +:+ b) = startswith_slash a.
Proof. by destruct a. Qed.

Lemma keeps_plain x : plain x → keeps x = true.
Proof.
  intros (_ & H1 & H2 & _). unfold keeps.
  by rewrite !bool_decide_eq_false_2.
Qed.

(** What [join] does to the list of segments when a plain name is
    appended. *)
Lemma comps_join a x : plain x → comps (join a x) = (comps a ++ [x]).
Proof.
  intros Hx. pose proof (keeps_plain x Hx) as Hk. destruct Hx as (Hs & _).
  unfold join, comps. rewrite (startswith_no_slash x Hs).
  destruct (bool_decide (a = "")) eqn:Ha; cbn [orb].
  - apply bool_decide_eq_true in Ha. subst a. change ("" +:+ x) with x.
    rewrite (split_slash_plain x Hs). simpl. by rewrite Hk.
  - destruct (endswith_slash a) eqn:He.
    + destruct (endswith_slash_inv a He) as [a' ->].
      rewrite app_assoc_string. change ("/" +:+ x) with (String "/"%char x).
      rewrite !split_slash_app, !List.filter_app, (split_slash_plain x Hs).
      simpl. by rewrite Hk, app_nil_r.
    + change ("/" +:+ x) with (String "/"%char x).
      rewrite split_slash_app, List.filter_app, (split_slash_plain x Hs).
      simpl. by rewrite Hk.
Qed.

Lemma startswith_join a x :
  plain x → startswith_slash (join a x) = startswith_slash a.
Proof.
  intros (Hs & _). unfold join. rewrite (startswith_no_slash x Hs).
  destruct (bool_decide (a = "")) eqn:Ha; cbn [orb].
  - apply bool_decide_eq_true in Ha. subst a. by apply startswith_no_slash.
  - apply bool_decide_eq_false in Ha.
    destruct (endswith_slash a); by apply startswith_app.
Qed.

Lemma resolve_join cwd a x :
  plain x → resolve cwd (join a x) = (resolve cwd a ++ [x]).
Proof.
  intros Hx. unfold resolve.
  rewrite (startswith_join a x Hx), (comps_join a x Hx), foldl_app. simpl.
  unfold norm_step at 1. destruct Hx as (_ & _ & _ & Hdd).
  by rewrite bool_decide_eq_false_2.
Qed.

Lemma split_slash_join_last a x :
  has_slash x = false → List.last (split_slash (join a x)) "" = x.
Proof.
  intros Hs. unfold join. rewrite (startswith_no_slash x Hs).
  destruct (bool_decide (a = "")) eqn:Ha; cbn [orb].
  - apply bool_decide_eq_true in Ha. subst a. change ("" +:+ x) with x.
    by rewrite (split_slash_plain x Hs).
  - destruct (endswith_slash a) eqn:He.
    + destruct (endswith_slash_inv a He) as [a' ->].
      rewrite app_assoc_string. change ("/" +:+ x) with (String "/"%char x).
      by rewrite split_slash_app, (split_slash_plain x Hs), List.last_last.
    + change ("/" +:+ x) with (String "/"%char x).
      by rewrite split_slash_app, (split_slash_plain x Hs), List.last_last.
Qed.

Lemma basename_join a x : has_slash x = false → basename (join a x) = x.
Proof. apply split_slash_join_last. Qed.

Lemma names_dir_false s : names_dir s = false ↔ plain (basename s).
Proof.
  unfold names_dir, plain. pose proof (has_slash_basename s) as Hs.
  rewrite !orb_false_iff, !bool_decide_eq_false. tauto.
Qed.

Lemma names_dir_join a x : plain x → names_dir (join a x) = false.
Proof.
  intros Hx. apply names_dir_false.
  rewrite basename_join; [done | apply Hx].
Qed.

Lemma join_nonempty a x : x ≠ "" → join a x ≠ "".
Proof.
  intros Hx. unfold join.
  destruct (startswith_slash x); [done|].
  destruct (bool_decide (a = "") || endswith_slash a).
  - destruct a; simpl; [done|discriminate].
  - destruct a; simpl; discriminate.
Qed.

(** The last character, to tell names with different suffixes apart. *)
Fixpoint last_char (s : string) : option ascii :=
  match s with
  | EmptyString => None
  | String c EmptyString => Some c
  | String _ r => last_char r
  end.

Lemma last_char_app a c r : last_char (a +:+ String c r) = last_char (String c r).
Proof.
  induction a as [|x a' IH]; [done|].
  change (String x a' +:+ String c r) with (String x (a' +:+ String c r)).
  destruct (a' +:+ String c r) eqn:E.
  - destruct a'; discriminate.
  - rewrite <- IH. done.
Qed.

Lemma plain_gz b : has_slash b = false → plain (b +:+ ".gz").
Proof.
  intros Hb. split; [|split; [|split]].
  - by rewrite has_slash_app, Hb.
  - destruct b; discriminate.
  - intros E. apply (f_equal last_char) in E. by rewrite last_char_app in E.
  - intros E. apply (f_equal last_char) in E. by rewrite last_char_app in E.
Qed.

Lemma gz_not_metadata b : b +:+ ".gz" ≠ "metadata.json".
Proof. intros E. apply (f_equal last_char) in E. by rewrite last_char_app in E. Qed.

Lemma plain_metadata : plain "metadata.json".
Proof. by repeat split. Qed.

Lemma endswith_slash_app a b : b ≠ "" → endswith_slash (a +:+ b) = endswith_slash b.
Proof.
  intros Hb. induction a as [|c a' IH]; [done|].
  change (String c a' +:+ b) with (String c (a' +:+ b)).
  destruct (a' +:+ b) eqn:E; [by destruct a', b|].
  by rewrite <- IH.
Qed.

Lemma endswith_slash_has_slash s : endswith_slash s = true → has_slash s = true.
Proof.
  induction s as [|c r IH]; [done|]. simpl. destruct r.
  - intros ->. done.
  - intros H. rewrite (IH H). by rewrite orb_true_r.
Qed.

End PathFacts.

(** * Facts about the file system *)

Lemma is_inr_eq {A B} (x : A + B) (d : B) : is_inr x = true → x = inr (from_inr d x).
Proof. by destruct x. Qed.

Lemma returns_eq {A} (x : result A * world) (a : A) :
  x.1 = Return a → x = (Return a, x.2).
Proof. destruct x as [r w]. simpl. by intros ->. Qed.

Module FSFacts.
Import FS.

Lemma mkdirs_from_spec rest : ∀ pre fs fs',
  mkdirs_from pre rest fs = inr fs' →
  (∀ q, fs' !! q = fs !! q ∨ (fs !! q = None ∧ fs' !! q = Some Dir)) ∧
  (rest ≠ [] → fs' !! (pre ++ rest) = Some Dir).
Proof.
  induction rest as [|c rest' IH]; intros pre fs fs' H; simpl in H.
  - inversion H; subst. split; [by left | done].
  - destruct (fs !! (pre ++ [c])) as [[|b]|] eqn:Hq; [| done |].
    + destruct (IH _ _ _ H) as [IH1 IH2]. split; [done|]. intros _.
      destruct rest' as [|c' rest''].
      * simpl in H. inversion H; subst. done.
      * rewrite <- app_assoc in IH2. by apply IH2.
    + destruct (IH _ _ _ H) as [IH1 IH2]. split.
      * intros q. destruct (decide (q = (pre ++ [c]))) as [->|Hne].
        -- right. split; [done|].
           destruct (IH1 (pre ++ [c])) as [E|[E _]];
             rewrite lookup_insert_eq in E; [done | discriminate].
        -- destruct (IH1 q) as [E|[E1 E2]]; rewrite lookup_insert_ne in * by done;
             [by left | by right].
      * intros _. destruct rest' as [|c' rest''].
        -- simpl in H. inversion H; subst. by rewrite lookup_insert_eq.
        -- rewrite <- app_assoc in IH2. by apply IH2.
Qed.

(** Only the directories on the way are new. *)
Lemma mkdirs_from_changed rest : ∀ pre fs fs' q,
  mkdirs_from pre rest fs = inr fs' →
  fs' !! q ≠ fs !! q → q `prefix_of` (pre ++ rest).
Proof.
  induction rest as [|c rest' IH]; intros pre fs fs' q H Hq; simpl in H.
  - inversion H; subst. done.
  - destruct (fs !! (pre ++ [c])) as [[|b]|] eqn:Hc; [| done |].
    + change (q `prefix_of` pre ++ [c] ++ rest').
      rewrite (app_assoc pre [c] rest'). by eapply IH.
    + change (q `prefix_of` pre ++ [c] ++ rest').
      rewrite (app_assoc pre [c] rest').
      destruct (decide (q = (pre ++ [c]))) as [->|Hne].
      * by apply prefix_app_r.
      * eapply IH; [done|]. by rewrite lookup_insert_ne.
Qed.

Section Makedirs.
Context (cwd : list string) (fs fs' : gmap (list string) node) (s : string).
Hypothesis Hmk : makedirs cwd fs s = inr fs'.

Lemma makedirs_lookup q :
  lookup_node fs' q = lookup_node fs q
  ∨ (lookup_node fs q = None ∧ lookup_node fs' q = Some Dir).
Proof.
  unfold makedirs in Hmk. case_bool_decide; [done|].
  destruct (mkdirs_from_spec _ _ _ _ Hmk) as [H1 _].
  unfold lookup_node. case_bool_decide; [by left|]. apply H1.
Qed.

Lemma makedirs_raw_lookup q :
  fs' !! q = fs !! q ∨ (fs !! q = None ∧ fs' !! q = Some Dir).
Proof.
  unfold makedirs in Hmk. case_bool_decide; [done|].
  destruct (mkdirs_from_spec _ _ _ _ Hmk) as [H1 _]. apply H1.
Qed.

Lemma makedirs_is_dir : lookup_node fs' (Path.resolve cwd s) = Some Dir.
Proof.
  unfold makedirs in Hmk. case_bool_decide; [done|].
  destruct (mkdirs_from_spec _ _ _ _ Hmk) as [_ H2].
  unfold lookup_node. case_bool_decide; [done|]. by apply H2.
Qed.

Lemma makedirs_changed q :
  lookup_node fs' q ≠ lookup_node fs q → q `prefix_of` Path.resolve cwd s.
Proof.
  unfold makedirs in Hmk. case_bool_decide; [done|].
  unfold lookup_node. case_bool_decide; [done|].
  by apply (mkdirs_from_changed _ [] fs fs' q Hmk).
Qed.

Lemma makedirs_file q b :
  lookup_node fs' q = Some (File b) ↔ lookup_node fs q = Some (File b).
Proof.
  destruct (makedirs_lookup q) as [->|[E1 E2]]; [done|].
  rewrite E1, E2. split; discriminate.
Qed.

Lemma makedirs_keeps q n : lookup_node fs q = Some n → lookup_node fs' q = Some n.
Proof.
  intros H. destruct (makedirs_lookup q) as [->|[E1 E2]]; [done|]. congruence.
Qed.

Lemma makedirs_read s' b : read_file cwd fs' s' = inr b ↔ read_file cwd fs s' = inr b.
Proof.
  unfold read_file. case_bool_decide; [done|].
  destruct (makedirs_lookup (Path.resolve cwd s')) as [->|[E1 E2]]; [done|].
  rewrite E1, E2. split; discriminate.
Qed.

End Makedirs.

Lemma read_file_inv cwd fs s b :
  read_file cwd fs s = inr b →
  s ≠ "" ∧ Path.names_dir s = false
  ∧ lookup_node fs (Path.resolve cwd s) = Some (File b).
Proof.
  unfold read_file. case_bool_decide; [done|].
  destruct (lookup_node fs (Path.resolve cwd s)) as [[|b']|]; [done| |done].
  destruct (Path.names_dir s); [done|]. intros [= ->]. done.
Qed.

Lemma read_file_intro cwd fs s b :
  s ≠ "" → Path.names_dir s = false →
  lookup_node fs (Path.resolve cwd s) = Some (File b) →
  read_file cwd fs s = inr b.
Proof.
  intros H1 H2 H3. unfold read_file.
  by rewrite bool_decide_eq_false_2, H3, H2.
Qed.

Lemma stat_file cwd fs s b :
  s ≠ "" → Path.names_dir s = false →
  lookup_node fs (Path.resolve cwd s) = Some (File b) →
  stat cwd fs s = Some (File b).
Proof.
  intros H1 H2 H3. unfold stat. by rewrite bool_decide_eq_false_2, H3, H2.
Qed.

Lemma write_file_intro cwd fs a x data :
  Path.plain x →
  lookup_node fs (Path.resolve cwd a) = Some Dir →
  lookup_node fs (Path.resolve cwd (Path.join a x)) ≠ Some Dir →
  write_file cwd fs (Path.join a x) data
  = inr (<[Path.resolve cwd (Path.join a x) := File data]> fs).
Proof.
  intros Hx Ha Hfree. unfold write_file.
  rewrite bool_decide_eq_false_2
    by (apply PathFacts.join_nonempty; by destruct Hx as (_ & ? & _)).
  rewrite PathFacts.names_dir_join by done.
  destruct (lookup_node fs (Path.resolve cwd (Path.join a x))) as [[|b]|] eqn:E;
    [done| |];
    rewrite (PathFacts.resolve_join _ _ _ Hx), removelast_last, Ha; done.
Qed.

Lemma write_file_inv cwd fs s data fs' :
  write_file cwd fs s data = inr fs' →
  s ≠ "" ∧ Path.names_dir s = false
  ∧ fs' = <[Path.resolve cwd s := File data]> fs.
Proof.
  unfold write_file. case_bool_decide; [done|].
  destruct (Path.names_dir s); [done|].
  destruct (lookup_node fs (Path.resolve cwd s)) as [[|b']|];
    [done| |];
    destruct (lookup_node fs (removelast (Path.resolve cwd s))) as [[|b'']|];
    try done; by intros [= <-].
Qed.

(** A written file is there; the other paths keep what they had. *)
Lemma lookup_node_insert fs p q n :
  p ≠ [] →
  lookup_node (<[p := n]> fs) q = if decide (p = q) then Some n else lookup_node fs q.
Proof.
  intros Hp. unfold lookup_node. destruct (decide (p = q)) as [<-|Hne].
  - by rewrite bool_decide_eq_false_2, lookup_insert_eq.
  - case_bool_decide; [done|]. by rewrite lookup_insert_ne.
Qed.

End FSFacts.

(** * Backups *)

Arguments Path.join : simpl never.
Arguments Path.basename : simpl never.
Arguments Path.resolve : simpl never.
Arguments Path.names_dir : simpl never.

Ltac io_simpl H :=
  cbn [w_cwd w_env w_fs w_time w_log w_catalog add_log set_fs] in H.

Ltac io_unfold H :=
  unfold bind, try_except, makedirs, path_exists, read_file, write_file,
    listdir, now_isoformat, print, log, ret, raise in H;
  io_simpl H.

Ltac io_simpl_goal :=
  cbn [w_cwd w_env w_fs w_time w_log w_catalog add_log set_fs].

Ltac io_unfold_goal :=
  unfold bind, try_except, makedirs, path_exists, read_file, write_file,
    listdir, now_isoformat, print, log, ret, raise;
  io_simpl_goal.

Lemma w_cwd_add_log e w : w_cwd (add_log e w) = w_cwd w.
Proof. reflexivity. Qed.

Lemma w_cwd_set_fs fs w : w_cwd (set_fs fs w) = w_cwd w.
Proof. reflexivity. Qed.

Lemma w_fs_add_log e w : w_fs (add_log e w) = w_fs w.
Proof. reflexivity. Qed.

Lemma w_fs_set_fs fs w : w_fs (set_fs fs w) = fs.
Proof. reflexivity. Qed.

Lemma w_log_add_log e w : w_log (add_log e w) = w_log w ++ [e].
Proof. reflexivity. Qed.

Lemma w_log_set_fs fs w : w_log (set_fs fs w) = w_log w.
Proof. reflexivity. Qed.

Lemma w_env_add_log e w : w_env (add_log e w) = w_env w.
Proof. reflexivity. Qed.

Lemma w_env_set_fs fs w : w_env (set_fs fs w) = w_env w.
Proof. reflexivity. Qed.

Lemma w_time_add_log e w : w_time (add_log e w) = w_time w.
Proof. reflexivity. Qed.

Lemma w_time_set_fs fs w : w_time (set_fs fs w) = w_time w.
Proof. reflexivity. Qed.

Create Rewrite HintDb io.
#[export] Hint Rewrite w_cwd_add_log w_cwd_set_fs w_fs_add_log w_fs_set_fs
  w_log_add_log w_log_set_fs w_env_add_log w_env_set_fs w_time_add_log
  w_time_set_fs : io.

Section BackupFacts.
Context `{L : Libs}.
Import PathFacts FSFacts.

Lemma truthy_Some o s : truthy o = Some s → o = Some s ∧ s ≠ "".
Proof.
  destruct o as [s'|]; simpl; [|done].
  case_bool_decide; [done|]. by intros [= ->].
Qed.

Lemma basename_blob_path n src :
  Path.basename (blob_path n src) = Path.basename src +:+ ".gz".
Proof.
  unfold blob_path. apply basename_join.
  by rewrite has_slash_app, has_slash_basename.
Qed.

Lemma resolve_blob_path cwd n src :
  Path.resolve cwd (blob_path n src)
  = (Path.resolve cwd (archive_dir n) ++ [Path.basename src +:+ ".gz"]).
Proof. apply resolve_join, plain_gz, has_slash_basename. Qed.

Lemma resolve_manifest_path cwd n :
  Path.resolve cwd (manifest_path n)
  = (Path.resolve cwd (archive_dir n) ++ ["metadata.json"]).
Proof. apply resolve_join, plain_metadata. Qed.

Lemma blob_not_manifest cwd n src :
  Path.resolve cwd (blob_path n src) ≠ Path.resolve cwd (manifest_path n).
Proof.
  rewrite resolve_blob_path, resolve_manifest_path.
  intros E%app_inj_tail. destruct E as [_ E]. by apply gz_not_metadata in E.
Qed.

(** A backup that returns [True] created the archive directory, read
    the source, and wrote the blob and then the manifest. *)
Lemma backup_true_inv script w w1 :
  backup_script_to_folder script w = (Return true, w1) →
  ∃ n src raw fs1,
    truthy (name script) = Some n ∧ truthy (path script) = Some src ∧
    FS.makedirs (w_cwd w) (w_fs w) (archive_dir n) = inr fs1 ∧
    FS.read_file (w_cwd w) fs1 src = inr raw ∧
    let meta := created_manifest script n src raw (e_now (w_env w) (w_time w)) in
    w1 = World (w_env w)
           (<[Path.resolve (w_cwd w) (manifest_path n) := File (json_dump meta)]>
              (<[Path.resolve (w_cwd w) (blob_path n src) := File (compress_bytes raw)]> fs1))
           (w_catalog w) (w_time w)
           (w_log w ++ [MadeDirs (archive_dir n);
                        Wrote (blob_path n src) (compress_bytes raw);
                        Wrote (manifest_path n) (json_dump meta);
                        Print (MsgBackupSaved n (blob_path n src))]).
Proof.
  unfold backup_script_to_folder. intros H.
  destruct (truthy (name script)) as [n|] eqn:Hn; io_unfold H; [|discriminate].
  destruct (FS.makedirs _ _ _) as [e|fs1] eqn:Hmk; io_simpl H; [discriminate|].
  destruct (truthy (path script)) as [src|] eqn:Hsrc; io_simpl H.
  2:{ destruct (FS.write_file _ _ _ _); discriminate. }
  case_bool_decide as Hex; io_simpl H.
  2:{ destruct (FS.write_file _ _ _ _); discriminate. }
  destruct (FS.read_file _ _ src) as [e|raw] eqn:Hrd; io_simpl H; [discriminate|].
  destruct (FS.write_file _ _ _ _) as [e|fs2] eqn:Hw1; io_simpl H; [discriminate|].
  destruct (FS.write_file _ _ _ _) as [e|fs3] eqn:Hw2 in H; io_simpl H; [discriminate|].
  io_simpl Hrd. io_simpl Hw1. io_simpl Hw2.
  apply write_file_inv in Hw1 as (_ & _ & ->).
  apply write_file_inv in Hw2 as (_ & _ & ->).
  exists n, src, raw, fs1. repeat split; try done.
  injection H as <-. unfold add_log, set_fs; simpl.
  by rewrite <- !app_assoc.
Qed.

Lemma resolve_snoc_ne (p : list string) x : (p ++ [x]) ≠ p.
Proof.
  intros E. apply (f_equal length) in E. rewrite length_app in E. simpl in E. lia.
Qed.

Lemma snoc_not_nil (p : list string) x : (p ++ [x]) ≠ [].
Proof. by destruct p. Qed.

(** What the archive holds after a backup that returned [True]. *)
Lemma backup_true_archive script w w1 :
  backup_script_to_folder script w = (Return true, w1) →
  ∃ n src raw,
    truthy (name script) = Some n ∧ truthy (path script) = Some src ∧
    FS.read_file (w_cwd w) (w_fs w) src = inr raw ∧
    w_cwd w1 = w_cwd w ∧
    FS.lookup_node (w_fs w1) (Path.resolve (w_cwd w) (archive_dir n)) = Some Dir ∧
    FS.lookup_node (w_fs w1) (Path.resolve (w_cwd w) (blob_path n src))
      = Some (File (compress_bytes raw)) ∧
    FS.lookup_node (w_fs w1) (Path.resolve (w_cwd w) (manifest_path n))
      = Some (File (json_dump
                      (created_manifest script n src raw (e_now (w_env w) (w_time w))))).
Proof.
  intros Hb.
  destruct (backup_true_inv _ _ _ Hb)
    as (n & src & raw & fs1 & Hn & Hs & Hmk & Hrd & ->).
  exists n, src, raw. rewrite <- (makedirs_read _ _ _ _ Hmk). repeat split; try done.
  - cbn [w_fs]. pose proof (makedirs_is_dir _ _ _ _ Hmk) as Hd.
    rewrite !lookup_node_insert.
    + rewrite resolve_manifest_path, resolve_blob_path.
      rewrite !decide_False; [done| apply resolve_snoc_ne | apply resolve_snoc_ne].
    + rewrite resolve_blob_path. apply snoc_not_nil.
    + rewrite resolve_manifest_path. apply snoc_not_nil.
  - cbn [w_fs]. rewrite !lookup_node_insert.
    + rewrite decide_False by (apply not_eq_sym, blob_not_manifest).
      by rewrite decide_True.
    + rewrite resolve_blob_path. apply snoc_not_nil.
    + rewrite resolve_manifest_path. apply snoc_not_nil.
  - cbn [w_fs]. rewrite lookup_node_insert.
    + by rewrite decide_True.
    + rewrite resolve_manifest_path. apply snoc_not_nil.
Qed.

(** The archive directory of a script named [<n>/metadata.json] is where
    the script named [n] keeps its manifest. *)
Lemma archive_dir_is_manifest_path n :
  Path.plain n → archive_dir (n +:+ "/metadata.json") = manifest_path n.
Proof.
  intros (Hs & Hne & _ & _). unfold manifest_path, archive_dir, Path.join, BACKUPS_DIR.
  rewrite startswith_app, (startswith_no_slash n) by done.
  cbn [Path.startswith_slash bool_decide orb].
  change (Path.endswith_slash "backups") with false.
  rewrite (bool_decide_eq_false_2 ("backups" = "")) by done. cbn [orb].
  rewrite (bool_decide_eq_false_2 (_ +:+ _ = "")) by done. cbn [orb].
  assert (He : Path.endswith_slash ("backups" +:+ "/" +:+ n) = false).
  { change ("backups" +:+ "/" +:+ n) with ("backups/" +:+ n).
    rewrite endswith_slash_app by done.
    destruct (Path.endswith_slash n) eqn:E; [|done].
    apply endswith_slash_has_slash in E. congruence. }
  rewrite He. by rewrite !app_assoc_string.
Qed.

(** A directory at the manifest's path makes its [open] fail. *)
Lemma write_manifest_over_dir cwd fs n data :
  FS.lookup_node fs (Path.resolve cwd (manifest_path n)) = Some Dir →
  FS.write_file cwd fs (manifest_path n) data = inl IsADirectoryError.
Proof.
  intros Hd. unfold FS.write_file.
  rewrite bool_decide_eq_false_2 by (by apply join_nonempty).
  unfold manifest_path in *. rewrite names_dir_join by apply plain_metadata.
  by rewrite Hd.
Qed.

(** The run of a backup whose source is missing when the archive
    directory can be made and the manifest written. *)
Lemma backup_no_source_run script w n fs1 :
  truthy (name script) = Some n →
  FS.makedirs (w_cwd w) (w_fs w) (archive_dir n) = inr fs1 →
  source_missing (w_cwd w) fs1 (path script) →
  FS.lookup_node fs1 (Path.resolve (w_cwd w) (manifest_path n)) ≠ Some Dir →
  backup_script_to_folder script w =
    (Return false,
     World (w_env w)
       (<[Path.resolve (w_cwd w) (manifest_path n) :=
            File (json_dump (empty_manifest script (e_now (w_env w) (w_time w))))]> fs1)
       (w_catalog w) (w_time w)
       (w_log w ++ [MadeDirs (archive_dir n);
                    Wrote (manifest_path n)
                      (json_dump (empty_manifest script (e_now (w_env w) (w_time w))));
                    Print (MsgNoSource n)])).
Proof.
  intros Hn Hmk Hmiss Hfree.
  pose proof (write_file_intro (w_cwd w) fs1 (archive_dir n) "metadata.json"
                (json_dump (empty_manifest script (e_now (w_env w) (w_time w))))
                plain_metadata (makedirs_is_dir _ _ _ _ Hmk) Hfree) as Hwr.
  unfold backup_script_to_folder. rewrite Hn. io_unfold_goal.
  fold (archive_dir n). rewrite Hmk. io_simpl_goal.
  unfold source_missing in Hmiss.
  destruct (truthy (path script)) as [src|] eqn:Hsrc; io_simpl_goal.
  - autorewrite with io. rewrite Hmiss.
    rewrite bool_decide_eq_false_2 by (by intros [? ?]).
    unfold manifest_path, empty_manifest in *. io_simpl_goal. autorewrite with io.
    rewrite Hwr. unfold add_log, set_fs. simpl. by rewrite <- !app_assoc.
  - unfold manifest_path, empty_manifest in *. autorewrite with io.
    rewrite Hwr. unfold add_log, set_fs. simpl. by rewrite <- !app_assoc.
Qed.

(** A path that is not at or above the archive directory is missing
    after [os.makedirs] if it was missing before. *)
Lemma source_missing_before cwd fs fs1 n src :
  FS.makedirs cwd fs (archive_dir n) = inr fs1 →
  FS.stat cwd fs src = None →
  ¬ Path.resolve cwd src `prefix_of` Path.resolve cwd (archive_dir n) →
  FS.stat cwd fs1 src = None.
Proof.
  intros Hmk Hst Hnp. unfold FS.stat in *. case_bool_decide; [done|].
  destruct (makedirs_lookup _ _ _ _ Hmk (Path.resolve cwd src)) as [->|[E1 E2]]; [done|].
  exfalso. apply Hnp, (makedirs_changed _ _ _ _ Hmk). congruence.
Qed.

(** X21. Once the archive directory is made and the source is there,
    every failure is caught: whether the read, the write of the blob or
    the write of the manifest fails or not, the call returns. *)
Lemma backup_try_returns script w n src fs1 :
  truthy (name script) = Some n →
  FS.makedirs (w_cwd w) (w_fs w) (archive_dir n) = inr fs1 →
  truthy (path script) = Some src →
  is_Some (FS.stat (w_cwd w) fs1 src) →
  ∃ b w', backup_script_to_folder script w = (Return b, w').
Proof.
  intros Hn Hmk Hsrc Hex.
  unfold backup_script_to_folder. rewrite Hn. io_unfold_goal.
  fold (archive_dir n). rewrite Hmk. io_simpl_goal. rewrite Hsrc. io_simpl_goal.
  autorewrite with io. rewrite bool_decide_eq_true_2 by done.
  destruct (FS.read_file _ _ src) as [e|raw]; io_simpl_goal; [by eauto|].
  destruct (FS.write_file _ _ _ _) as [e|fs2]; io_simpl_goal; [by eauto|].
  destruct (FS.write_file _ _ _ _) as [e|fs3]; io_simpl_goal; by eauto.
Qed.

End BackupFacts.

(** * The order of the writes of a backup *)

Ltac finish_leaf H :=
  autorewrite with io in *;
  unfold manifest_path, blob_path, empty_manifest, created_manifest, blob_path in *;
  injection H as <- <-; eexists; split;
  [ first [ eapply bs_saved; eassumption
          | eapply bs_manifest_fails; eassumption
          | eapply bs_blob_fails; eassumption
          | eapply bs_read_fails; eassumption
          | eapply bs_no_source; eassumption
          | eapply bs_no_source_raises; eassumption ] |];
  unfold world_after, add_log, set_fs, replay,
    manifest_path, blob_path, empty_manifest, created_manifest, blob_path;
  cbn [foldl replay_event w_env w_fs w_catalog w_time w_log];
  repeat match goal with
         | E : ?x = inr _ |- context [?x] => rewrite E
         end;
  rewrite <- ?app_assoc; try rewrite app_nil_r; reflexivity.

Ltac replay_prefix :=
  unfold replay; cbn [take foldl replay_event];
  repeat match goal with
         | E : ?x = inr _ |- context [?x] => rewrite E
         end.

Section OrderFacts.
Context `{L : Libs}.
Import PathFacts FSFacts.

Lemma stat_makedirs_keeps cwd fs fs' s p :
  FS.makedirs cwd fs s = inr fs' →
  is_Some (FS.stat cwd fs p) → is_Some (FS.stat cwd fs' p).
Proof.
  intros Hmk. unfold FS.stat. case_bool_decide; [done|].
  destruct (makedirs_lookup _ _ _ _ Hmk (Path.resolve cwd p)) as [->|[-> _]]; [done|].
  by intros [? ?].
Qed.

Lemma stat_write_keeps cwd fs fs' s data p :
  FS.write_file cwd fs s data = inr fs' →
  is_Some (FS.stat cwd fs p) → is_Some (FS.stat cwd fs' p).
Proof.
  intros Hwr. pose proof Hwr as (_ & _ & ->)%write_file_inv.
  unfold FS.stat. case_bool_decide; [done|].
  unfold FS.lookup_node at 2. case_bool_decide as Hp; [by rewrite Hp|].
  destruct (decide (Path.resolve cwd s = Path.resolve cwd p)) as [E|Hne].
  - rewrite <- E, lookup_insert_eq. unfold FS.write_file in Hwr.
    rewrite bool_decide_eq_false_2 in Hwr by (by apply write_file_inv in Hwr as (? & _)).
    destruct (Path.names_dir s) eqn:Hs; [done|].
    unfold FS.lookup_node in *. rewrite E in *. rewrite bool_decide_eq_false_2 in * by done.
    destruct (fs !! Path.resolve cwd p) as [[|b]|] eqn:Hl; [done| |by intros [? ?]].
    by destruct (Path.names_dir p).
  - rewrite lookup_insert_ne by done.
    unfold FS.lookup_node. by rewrite bool_decide_eq_false_2 by done.
Qed.

Lemma read_write_other cwd fs fs' s data p :
  FS.write_file cwd fs s data = inr fs' →
  Path.resolve cwd s ≠ Path.resolve cwd p →
  FS.read_file cwd fs' p = FS.read_file cwd fs p.
Proof.
  intros (_ & _ & ->)%write_file_inv Hne. unfold FS.read_file.
  case_bool_decide; [done|]. unfold FS.lookup_node.
  case_bool_decide; [done|]. by rewrite lookup_insert_ne.
Qed.

Lemma read_write_same cwd fs fs' s data :
  FS.write_file cwd fs s data = inr fs' →
  FS.read_file cwd fs' s = inr data.
Proof.
  intros Hwr. pose proof Hwr as (Hs & Hnd & ->)%write_file_inv.
  unfold FS.read_file. rewrite bool_decide_eq_false_2 by done.
  unfold FS.write_file in Hwr. rewrite bool_decide_eq_false_2, Hnd in Hwr by done.
  unfold FS.lookup_node in *.
  case_bool_decide as Hp; [by rewrite Hp in Hwr|].
  by rewrite lookup_insert_eq, Hnd.
Qed.

Lemma present_makedirs cwd n fs fs' s :
  FS.makedirs cwd fs s = inr fs' →
  manifest_blobs_present cwd n fs → manifest_blobs_present cwd n fs'.
Proof.
  intros Hmk HP d m k info g Hrd Hm Hin Hg.
  rewrite (makedirs_read _ _ _ _ Hmk) in Hrd.
  eapply stat_makedirs_keeps; [done|]. by eapply HP.
Qed.

Lemma present_write_other cwd n fs fs' s data :
  FS.write_file cwd fs s data = inr fs' →
  Path.resolve cwd s ≠ Path.resolve cwd (manifest_path n) →
  manifest_blobs_present cwd n fs → manifest_blobs_present cwd n fs'.
Proof.
  intros Hwr Hne HP d m k info g Hrd Hm Hin Hg.
  rewrite (read_write_other _ _ _ _ _ _ Hwr Hne) in Hrd.
  eapply stat_write_keeps; [done|]. by eapply HP.
Qed.

(** Writing a manifest whose entries all name blobs that are there. *)
Lemma present_write_manifest cwd n fs fs' m :
  FS.write_file cwd fs (manifest_path n) (json_dump m) = inr fs' →
  (∀ k info g, (k, info) ∈ files m → backup_file info = Some g →
               is_Some (FS.stat cwd fs (Path.join (archive_dir n) g))) →
  manifest_blobs_present cwd n fs'.
Proof.
  intros Hwr Hall d m' k info g Hrd Hm Hin Hg.
  rewrite (read_write_same _ _ _ _ _ Hwr) in Hrd. injection Hrd as <-.
  rewrite json_round_trip in Hm. injection Hm as <-.
  eapply stat_write_keeps; [done|]. by eapply Hall.
Qed.

Lemma replay_event_makedirs cwd fs fs' s :
  FS.makedirs cwd fs s = inr fs' → replay_event cwd fs (MadeDirs s) = fs'.
Proof. intros H. simpl. by rewrite H. Qed.

Lemma replay_event_write cwd fs fs' s data :
  FS.write_file cwd fs s data = inr fs' → replay_event cwd fs (Wrote s data) = fs'.
Proof. intros H. simpl. by rewrite H. Qed.

Lemma replay_cons cwd fs ev evs :
  replay cwd fs (ev :: evs) = replay cwd (replay_event cwd fs ev) evs.
Proof. reflexivity. Qed.

Lemma replay_nil cwd fs : replay cwd fs [] = fs.
Proof. reflexivity. Qed.

(** What the events of a run do to the disk leaves its directories in
    place. *)
Lemma replay_keeps_dirs cwd evs : ∀ fs q,
  fs !! q = Some Dir → replay cwd fs evs !! q = Some Dir.
Proof.
  induction evs as [|ev evs IH]; intros fs q Hq; [done|].
  change (replay cwd fs (ev :: evs)) with (replay cwd (replay_event cwd fs ev) evs).
  apply IH. destruct ev as [m|s|s data|c|]; simpl; try done.
  - destruct (FS.makedirs cwd fs s) as [e|fs'] eqn:Hmk; [done|].
    destruct (makedirs_raw_lookup _ _ _ _ Hmk q) as [->|[E _]]; congruence.
  - destruct (FS.write_file cwd fs s data) as [e|fs'] eqn:Hwr; [done|].
    pose proof Hwr as (_ & Hnd & ->)%write_file_inv.
    destruct (decide (q = Path.resolve cwd s)) as [->|Hne];
      [|by rewrite lookup_insert_ne].
    exfalso. unfold FS.write_file in Hwr.
    destruct (bool_decide (s = "")); [done|]. rewrite Hnd in Hwr.
    unfold FS.lookup_node in Hwr at 1. case_bool_decide; [done|].
    by rewrite Hq in Hwr.
Qed.

(** Every run of [backup_script_to_folder] for a named script is one of
    [backup_steps]. *)
Lemma backup_steps_complete script w r w' n :
  truthy (name script) = Some n →
  backup_script_to_folder script w = (r, w') →
  ∃ evs,
    backup_steps (w_cwd w) script n (e_now (w_env w) (w_time w)) (w_fs w) r evs ∧
    w' = world_after w evs.
Proof.
  intros Hn H. unfold backup_script_to_folder in H. rewrite Hn in H.
  io_unfold H. fold (archive_dir n) in H.
  destruct (FS.makedirs _ _ _) as [e|fs1] eqn:Hmk; io_simpl H.
  { injection H as <- <-. exists []. split; [by constructor|].
    unfold world_after. rewrite app_nil_r. by destruct w. }
  autorewrite with io in H.
  fold (manifest_path n) in H.
  change (meta_of (path script) script (e_now (w_env w) (w_time w)) [])
    with (empty_manifest script (e_now (w_env w) (w_time w))) in H.
  destruct (truthy (path script)) as [src|] eqn:Hsrc; io_simpl H.
  2:{ assert (Hmiss : source_missing (w_cwd w) fs1 (path script))
        by (unfold source_missing; by rewrite Hsrc).
      destruct (FS.write_file _ _ _ _) as [e|fs2] eqn:Hw; io_simpl H.
      - finish_leaf H.
      - finish_leaf H. }
  autorewrite with io in H.
  case_bool_decide as Hex; io_simpl H.
  2:{ assert (Hmiss : source_missing (w_cwd w) fs1 (path script)).
      { unfold source_missing. rewrite Hsrc.
        destruct (FS.stat _ _ _); [by destruct Hex|done]. }
      autorewrite with io in H.
      destruct (FS.write_file _ _ _ _) as [e|fs2] eqn:Hw; io_simpl H.
      - finish_leaf H.
      - finish_leaf H. }
  autorewrite with io in H.
  destruct (FS.read_file _ _ src) as [e|raw] eqn:Hrd; io_simpl H.
  { finish_leaf H. }
  autorewrite with io in H. fold (blob_path n src) in H.
  destruct (FS.write_file _ _ (blob_path n src) _) as [e|fs2] eqn:Hw1; io_simpl H.
  { finish_leaf H. }
  autorewrite with io in H.
  fold (created_manifest script n src raw (e_now (w_env w) (w_time w))) in H.
  destruct (FS.write_file _ _ (manifest_path n) _) as [e|fs3] eqn:Hw2; io_simpl H.
  { finish_leaf H. }
  finish_leaf H.
Qed.

Lemma makedirs_file_raw cwd fs fs' s p b :
  FS.makedirs cwd fs s = inr fs' →
  fs' !! p = Some (File b) ↔ fs !! p = Some (File b).
Proof.
  intros Hmk. destruct (makedirs_raw_lookup _ _ _ _ Hmk p) as [->|[E1 E2]]; [done|].
  rewrite E1, E2. split; discriminate.
Qed.

Lemma write_file_other cwd fs fs' s data p :
  FS.write_file cwd fs s data = inr fs' →
  p ≠ Path.resolve cwd s → fs' !! p = fs !! p.
Proof. intros (_ & _ & ->)%write_file_inv Hne. by rewrite lookup_insert_ne. Qed.

Lemma blob_path_not_manifest_path n src : blob_path n src ≠ manifest_path n.
Proof. intros E. apply (blob_not_manifest [] n src). by rewrite E. Qed.

End OrderFacts.

(** * Restores *)

Section RestoreFacts.
Context `{L : Libs}.
Import PathFacts FSFacts.

Lemma read_file_stat cwd fs s b :
  FS.read_file cwd fs s = inr b → FS.stat cwd fs s = Some (File b).
Proof.
  intros (H1 & H2 & H3)%read_file_inv. by apply stat_file.
Qed.

(** The entry's warning, if any, once its file is written. *)
Definition after_digest_check (orig_name : string) (info : file_info)
    (data : list byte) (w : world) : world :=
  match truthy (sha256 info) with
  | Some sha =>
      if bool_decide (sha ≠ sha256_bytes data)
      then add_log (Print (MsgMismatch orig_name)) w else w
  | None => w
  end.

(** One manifest entry whose blob is there, decompresses and can be
    written. *)
Lemma restore_entry_run folder target orig info gz blob data k w fs' :
  backup_file info = Some gz →
  FS.read_file (w_cwd w) (w_fs w) (Path.join folder gz) = inr blob →
  zlib_decompress blob = Some data →
  FS.write_file (w_cwd w) (w_fs w) (Path.join target orig) data = inr fs' →
  restore_entry folder target (orig, info) k w =
    (Return (S k),
     after_digest_check orig info data
       (add_log (Wrote (Path.join target orig) data) (set_fs fs' w))).
Proof.
  intros Hgz Hrd Hz Hwr. unfold restore_entry. rewrite Hgz.
  unfold decompress_bytes. io_unfold_goal.
  rewrite (read_file_stat _ _ _ _ Hrd), bool_decide_eq_true_2 by done.
  cbn [negb]. rewrite Hrd, Hz, Hwr. io_simpl_goal.
  unfold after_digest_check.
  destruct (truthy (sha256 info)) as [sha|]; [|done].
  by case_bool_decide.
Qed.

Lemma after_digest_check_same orig info data w :
  sha256 info = Some (sha256_bytes data) →
  after_digest_check orig info data w = w.
Proof.
  intros E. unfold after_digest_check. rewrite E. simpl.
  case_bool_decide; [done|]. by rewrite bool_decide_eq_false_2 by auto.
Qed.

(** The restore of an archive that holds what a successful backup of
    [src] with content [C] wrote. *)
Lemma restore_created_run script w2 n src C now fs3 :
  name script = Some n → n ≠ "" → Path.plain (Path.basename src) →
  FS.lookup_node (w_fs w2) (Path.resolve (w_cwd w2) (archive_dir n)) = Some Dir →
  FS.lookup_node (w_fs w2) (Path.resolve (w_cwd w2) (blob_path n src))
      = Some (File (compress_bytes C)) →
  FS.lookup_node (w_fs w2) (Path.resolve (w_cwd w2) (manifest_path n))
      = Some (File (json_dump (created_manifest script n src C now))) →
  FS.makedirs (w_cwd w2) (w_fs w2) (restore_dir n) = inr fs3 →
  FS.lookup_node (w_fs w2) (Path.resolve (w_cwd w2) (restored_path n src)) ≠ Some Dir →
  reproduce_script_to_default script w2 =
    (Return tt,
     World (w_env w2)
       (<[Path.resolve (w_cwd w2) (restored_path n src) := File C]> fs3)
       (w_catalog w2) (w_time w2)
       (w_log w2 ++ [MadeDirs (restore_dir n); Wrote (restored_path n src) C;
                     Print (MsgReproduced 1 (restore_dir n))])).
Proof.
  intros Hname Hne Hplain Hdir Hblob Hmeta Hmk Hfree.
  assert (Hjn : archive_dir n ≠ "") by (by apply join_nonempty).
  assert (Hgz : Path.plain (Path.basename src +:+ ".gz"))
    by apply plain_gz, has_slash_basename.
  (* the archive after the restore directory is made *)
  pose proof (makedirs_keeps _ _ _ _ Hmk _ _ Hblob) as Hblob3.
  pose proof (makedirs_keeps _ _ _ _ Hmk _ _ Hmeta) as Hmeta3.
  assert (Hrdm : FS.read_file (w_cwd w2) fs3 (manifest_path n)
                 = inr (json_dump (created_manifest script n src C now))).
  { apply read_file_intro; [by apply join_nonempty | | done].
    apply names_dir_join, plain_metadata. }
  assert (Hrdb : FS.read_file (w_cwd w2) fs3 (blob_path n src) = inr (compress_bytes C)).
  { apply read_file_intro; [apply join_nonempty; by destruct Hgz as (_ & ? & _) | | done].
    by apply names_dir_join. }
  assert (Hwr : FS.write_file (w_cwd w2) fs3 (restored_path n src) C
                = inr (<[Path.resolve (w_cwd w2) (restored_path n src) := File C]> fs3)).
  { unfold FS.write_file, restored_path.
    rewrite bool_decide_eq_false_2
      by (apply join_nonempty; by destruct Hplain as (_ & ? & _)).
    rewrite names_dir_join by done.
    rewrite (resolve_join _ _ _ Hplain), removelast_last.
    rewrite (makedirs_is_dir _ _ _ _ Hmk).
    destruct (FS.lookup_node fs3 (Path.resolve (w_cwd w2) (restore_dir n)
                                    ++ [Path.basename src])) as [[|b]|] eqn:E; try done.
    exfalso. apply Hfree. unfold restored_path. rewrite (resolve_join _ _ _ Hplain).
    destruct (makedirs_lookup _ _ _ _ Hmk (Path.resolve (w_cwd w2) (restore_dir n)
                                            ++ [Path.basename src])) as [E'|[E1 E2]].
    - by rewrite <- E', E.
    - exfalso. assert (Hch : FS.lookup_node fs3 (Path.resolve (w_cwd w2) (restore_dir n)
                                            ++ [Path.basename src])
                             ≠ FS.lookup_node (w_fs w2) (Path.resolve (w_cwd w2) (restore_dir n)
                                            ++ [Path.basename src])) by congruence.
      apply (makedirs_changed _ _ _ _ Hmk) in Hch.
      apply prefix_length in Hch. rewrite length_app in Hch. simpl in Hch. lia. }
  unfold reproduce_script_to_default. rewrite Hname.
  io_unfold_goal.
  assert (Hst : FS.stat (w_cwd w2) (w_fs w2) (Path.join BACKUPS_DIR n) = Some Dir).
  { unfold FS.stat. rewrite bool_decide_eq_false_2 by done.
    fold (archive_dir n). by rewrite Hdir. }
  rewrite Hst, bool_decide_eq_true_2 by done. cbn [negb].
  fold (restore_dir n). rewrite Hmk. io_simpl_goal. autorewrite with io.
  fold (archive_dir n). fold (manifest_path n).
  rewrite (read_file_stat _ _ _ _ Hrdm), bool_decide_eq_true_2 by done.
  autorewrite with io. rewrite Hrdm, json_round_trip.
  unfold created_manifest at 1, meta_of at 1. cbn [files for_each].
  erewrite restore_entry_run; autorewrite with io.
  2: reflexivity.
  2:{ rewrite basename_blob_path. exact Hrdb. }
  2:{ unfold compress_bytes. apply zlib_round_trip. }
  2:{ exact Hwr. }
  rewrite after_digest_check_same by done.
  unfold ret, add_log, set_fs. simpl. by rewrite <- !app_assoc.
Qed.

(** What one turn of the manifest-driven loop can log: a warning about
    a digest names the entry, and the entry records a non-empty
    digest. *)
Lemma restore_entry_log folder target entry k w r w' :
  restore_entry folder target entry k w = (r, w') →
  ∃ evs, w_log w' = w_log w ++ evs ∧
    ∀ o, Print (MsgMismatch o) ∈ evs →
         o = entry.1 ∧ is_Some (truthy (sha256 entry.2)).
Proof.
  destruct entry as [orig info]. unfold restore_entry, decompress_bytes.
  intros H. io_unfold H.
  destruct (backup_file info) as [gz|]; io_simpl H.
  2:{ injection H as <- <-. exists []. rewrite app_nil_r. split; [done|].
      intros o Ho. by apply elem_of_nil in Ho. }
  case_bool_decide; cbn [negb] in H; io_simpl H.
  2:{ injection H as <- <-. eexists. split; [reflexivity|].
      intros o [=]%list_elem_of_singleton. }
  destruct (FS.read_file _ _ _) as [e|blob]; io_simpl H.
  { injection H as <- <-. exists []. rewrite app_nil_r. split; [done|].
    intros o Ho. by apply elem_of_nil in Ho. }
  destruct (zlib_decompress blob) as [data|]; io_simpl H.
  2:{ injection H as <- <-. eexists. split; [reflexivity|].
      intros o [=]%list_elem_of_singleton. }
  destruct (FS.write_file _ _ _ _) as [e|fs']; io_simpl H.
  { injection H as <- <-. exists []. rewrite app_nil_r. split; [done|].
    intros o Ho. by apply elem_of_nil in Ho. }
  destruct (truthy (sha256 info)) as [sha|] eqn:Hsha; io_simpl H.
  - case_bool_decide; io_simpl H; injection H as <- <-.
    + eexists. split; [cbn [w_log add_log set_fs]; by rewrite <- app_assoc|].
      intros o Ho. simpl in Ho.
      apply elem_of_cons in Ho as [[=]|Ho].
      apply list_elem_of_singleton in Ho as [= ->]. simpl. by rewrite Hsha.
    + eexists. split; [reflexivity|].
      intros o [=]%list_elem_of_singleton.
  - injection H as <- <-. eexists. split; [reflexivity|].
    intros o [=]%list_elem_of_singleton.
Qed.

(** The same for the whole loop. *)
Lemma restore_loop_log folder target entries : ∀ k w r w',
  for_each entries (restore_entry folder target) k w = (r, w') →
  ∃ evs, w_log w' = w_log w ++ evs ∧
    ∀ o, Print (MsgMismatch o) ∈ evs →
         ∃ info, (o, info) ∈ entries ∧ is_Some (truthy (sha256 info)).
Proof.
  induction entries as [|entry rest IH]; intros k w r w' H; simpl in H.
  - injection H as <- <-. exists []. rewrite app_nil_r. split; [done|].
    intros o Ho. by apply elem_of_nil in Ho.
  - destruct (restore_entry folder target entry k w) as [[k'|e] w1] eqn:He.
    + destruct (restore_entry_log _ _ _ _ _ _ _ He) as (evs1 & Hl1 & H1).
      destruct (IH _ _ _ _ H) as (evs2 & Hl2 & H2).
      exists (evs1 ++ evs2). split; [by rewrite Hl2, Hl1, app_assoc|].
      intros o [Ho|Ho]%elem_of_app.
      * destruct (H1 o Ho) as [-> Hs]. exists entry.2. split; [|done].
        destruct entry. simpl. by left.
      * destruct (H2 o Ho) as (info & Hin & Hs). exists info. split; [by right|done].
    + injection H as <- <-.
      destruct (restore_entry_log _ _ _ _ _ _ _ He) as (evs1 & Hl1 & H1).
      exists evs1. split; [done|].
      intros o Ho. destruct (H1 o Ho) as [-> Hs]. exists entry.2. split; [|done].
      destruct entry. simpl. by left.
Qed.

(** A name occurs once among the keys of a manifest. *)
Lemma nodup_keys_unique {A B} (l : list (A * B)) x y1 y2 :
  NoDup l.*1 → (x, y1) ∈ l → (x, y2) ∈ l → y1 = y2.
Proof.
  intros Hnd [i Hi]%list_elem_of_lookup [j Hj]%list_elem_of_lookup.
  assert (i = j) as ->.
  { apply (NoDup_lookup (l.*1) i j x); [done| |];
      by rewrite list_lookup_fmap, ?Hi, ?Hj. }
  congruence.
Qed.

End RestoreFacts.

(** * More on restores *)

Ltac count_leaf H :=
  injection H as <- <-;
  first [ exists []; rewrite app_nil_r; split; [reflexivity | cbn; lia]
        | eexists; split; [cbn [w_log add_log set_fs]; rewrite <- ?app_assoc; reflexivity
                          | cbn; lia] ].

Section RestoreMore.
Context `{L : Libs}.
Import PathFacts FSFacts.

Lemma writes_app evs1 evs2 : writes (evs1 ++ evs2) = writes evs1 + writes evs2.
Proof. unfold writes. by rewrite List.filter_app, length_app. Qed.

Lemma for_each_counts {A} (body : A → nat → M nat) :
  counts_writes body →
  ∀ l k w n err w',
    for_each l body k w = (Return (n, err), w') →
    ∃ evs, w_log w' = w_log w ++ evs ∧ n = k + writes evs.
Proof.
  intros Hb l. induction l as [|x rest IH]; intros k w n err w' H; simpl in H.
  - injection H as <- <- <-. exists []. by rewrite app_nil_r, Nat.add_0_r.
  - destruct (body x k w) as [[k'|e] w1] eqn:Hx.
    + destruct (Hb _ _ _ _ _ Hx) as (evs1 & Hl1 & ->).
      destruct (IH _ _ _ _ _ H) as (evs2 & Hl2 & ->).
      exists (evs1 ++ evs2). rewrite Hl2, Hl1, writes_app, <- app_assoc. split; [done|lia].
    + injection H as <- <- <-.
      destruct (Hb _ _ _ _ _ Hx) as (evs1 & Hl1 & Hz).
      exists evs1. split; [done|lia].
Qed.

Lemma restore_entry_counts folder target : counts_writes (restore_entry folder target).
Proof.
  intros [orig info] k w r w' H. unfold restore_entry, decompress_bytes in H.
  io_unfold H.
  destruct (backup_file info) as [gz|]; io_simpl H; [|count_leaf H].
  case_bool_decide; cbn [negb] in H; io_simpl H; [|count_leaf H].
  destruct (FS.read_file _ _ _) as [e|blob]; io_simpl H; [count_leaf H|].
  destruct (zlib_decompress blob) as [data|]; io_simpl H; [|count_leaf H].
  destruct (FS.write_file _ _ _ _) as [e|fs']; io_simpl H; [count_leaf H|].
  destruct (truthy (sha256 info)) as [sha|]; io_simpl H; [|count_leaf H].
  case_bool_decide; io_simpl H; count_leaf H.
Qed.

Lemma restore_blob_counts folder target : counts_writes (restore_blob folder target).
Proof.
  intros f k w r w' H. unfold restore_blob, decompress_bytes in H.
  destruct (endswith ".gz" f); [|count_leaf H].
  io_unfold H.
  destruct (FS.read_file _ _ _) as [e|blob]; io_simpl H; [count_leaf H|].
  destruct (zlib_decompress blob) as [data|]; io_simpl H; [|count_leaf H].
  destruct (FS.write_file _ _ _ _) as [e|fs']; io_simpl H; count_leaf H.
Qed.

Lemma for_each_never_raises {A S} (body : A → S → M S) l : ∀ k w e w',
  for_each l body k w ≠ (Raise e, w').
Proof.
  induction l as [|x rest IH]; intros k w e w'; simpl; [done|].
  destruct (body x k w) as [[k'|e'] w1]; [apply IH|done].
Qed.

Lemma writes_snoc_print evs m : writes (evs ++ [Print m]) = writes evs.
Proof. rewrite writes_app. cbn. lia. Qed.

Lemma writes_cons_madedirs s evs : writes (MadeDirs s :: evs) = writes evs.
Proof. reflexivity. Qed.

Lemma for_each_app {A S} (body : A → S → M S) l1 l2 : ∀ k w,
  for_each (l1 ++ l2) body k w =
  match for_each l1 body k w with
  | (Return (k1, None), w1) => for_each l2 body k1 w1
  | r => r
  end.
Proof.
  induction l1 as [|x rest IH]; intros k w; simpl; [done|].
  destruct (body x k w) as [[k'|e] w1]; [apply IH|done].
Qed.

Lemma substring_all s : String.substring 0 (String.length s) s = s.
Proof. induction s as [|c r IH]; [done|]. simpl. by rewrite IH. Qed.

Lemma substring_skip a : ∀ m b,
  String.substring (String.length a) m (a +:+ b) = String.substring 0 m b.
Proof. induction a as [|c r IH]; intros m b; [done|]. simpl. apply IH. Qed.

Lemma substring_take a : ∀ b,
  String.substring 0 (String.length a) (a +:+ b) = a.
Proof.
  induction a as [|c r IH]; intros b; simpl.
  - by destruct b.
  - by rewrite IH.
Qed.

Lemma length_app_string a b :
  String.length (a +:+ b) = String.length a + String.length b.
Proof. induction a as [|c r IH]; [done|]. simpl. by rewrite IH. Qed.

Lemma endswith_gz b : endswith ".gz" (b +:+ ".gz") = true.
Proof.
  unfold endswith. rewrite length_app_string. cbn [String.length].
  apply andb_true_iff. split; [apply Nat.leb_le; lia|].
  apply bool_decide_eq_true.
  replace (String.length b + 3 - 3) with (String.length b) by lia.
  by rewrite substring_skip.
Qed.

Lemma drop_last3_gz b : drop_last3 (b +:+ ".gz") = b.
Proof.
  unfold drop_last3. rewrite length_app_string. cbn [String.length].
  replace (String.length b + 3 - 3) with (String.length b) by lia.
  apply substring_take.
Qed.

(** Making directories that are all there changes nothing. *)
Lemma mkdirs_from_again rest : ∀ pre fs fs' fs'',
  FS.mkdirs_from pre rest fs = inr fs' →
  (∀ q, fs' !! q = Some Dir → fs'' !! q = Some Dir) →
  FS.mkdirs_from pre rest fs'' = inr fs''.
Proof.
  induction rest as [|c rest' IH]; intros pre fs fs' fs'' H Hd; [done|].
  simpl in H. simpl.
  assert (Hq : fs' !! (pre ++ [c]) = Some Dir).
  { destruct (fs !! (pre ++ [c])) as [[|b]|] eqn:E; [| done |].
    - destruct (mkdirs_from_spec _ _ _ _ H) as [H1 _].
      destruct (H1 (pre ++ [c])) as [->|[E' _]]; [done|congruence].
    - destruct (mkdirs_from_spec _ _ _ _ H) as [H1 _].
      destruct (H1 (pre ++ [c])) as [E'|[E' _]];
        rewrite lookup_insert_eq in E'; [done|discriminate]. }
  rewrite (Hd _ Hq).
  destruct (fs !! (pre ++ [c])) as [[|b]|]; [by eapply IH | done | by eapply IH].
Qed.

(** So does making a directory on the way to one that was made. *)
Lemma mkdirs_from_prefix_again rest : ∀ more pre fs fs' fs'',
  FS.mkdirs_from pre (rest ++ more) fs = inr fs' →
  (∀ q, fs' !! q = Some Dir → fs'' !! q = Some Dir) →
  FS.mkdirs_from pre rest fs'' = inr fs''.
Proof.
  induction rest as [|c rest' IH]; intros more pre fs fs' fs'' H Hd; [done|].
  simpl in H. simpl.
  assert (Hq : fs' !! (pre ++ [c]) = Some Dir).
  { destruct (fs !! (pre ++ [c])) as [[|b]|] eqn:E; [| done |].
    - destruct (mkdirs_from_spec _ _ _ _ H) as [H1 _].
      destruct (H1 (pre ++ [c])) as [->|[E' _]]; [done|congruence].
    - destruct (mkdirs_from_spec _ _ _ _ H) as [H1 _].
      destruct (H1 (pre ++ [c])) as [E'|[E' _]];
        rewrite lookup_insert_eq in E'; [done|discriminate]. }
  rewrite (Hd _ Hq).
  destruct (fs !! (pre ++ [c])) as [[|b]|]; [by eapply IH | done | by eapply IH].
Qed.

Lemma makedirs_again cwd fs fs' fs'' s :
  FS.makedirs cwd fs s = inr fs' →
  (∀ q, fs' !! q = Some Dir → fs'' !! q = Some Dir) →
  FS.makedirs cwd fs'' s = inr fs''.
Proof.
  unfold FS.makedirs. case_bool_decide; [done|]. apply mkdirs_from_again.
Qed.

(** No directory appears at the path of the restored file when the
    restore directory is made. *)
Lemma restore_out_free cwd fs fs3 dir x :
  FS.makedirs cwd fs dir = inr fs3 →
  FS.lookup_node fs (Path.resolve cwd dir ++ [x]) ≠ Some Dir →
  FS.lookup_node fs3 (Path.resolve cwd dir ++ [x]) ≠ Some Dir.
Proof.
  intros Hmk Hfree E.
  destruct (makedirs_lookup _ _ _ _ Hmk (Path.resolve cwd dir ++ [x])) as [E'|[E1 E2]].
  - apply Hfree. by rewrite <- E'.
  - assert (Hch : FS.lookup_node fs3 (Path.resolve cwd dir ++ [x])
                  ≠ FS.lookup_node fs (Path.resolve cwd dir ++ [x])) by congruence.
    apply (makedirs_changed _ _ _ _ Hmk) in Hch.
    apply prefix_length in Hch. rewrite length_app in Hch. simpl in Hch. lia.
Qed.

End RestoreMore.

(** * The detector *)

Section RunningFacts.
Context `{L : Libs}.

Lemma prefix_spec t : ∀ x, String.prefix t x = true ↔ ∃ b, x = t +:+ b.
Proof.
  induction t as [|c t IH]; intros x.
  - destruct x; simpl; split; eauto.
  - destruct x as [|c' x]; simpl.
    + split; [done|]. by intros [b [=]].
    + destruct (ascii_dec c c') as [->|Hne].
      * rewrite IH. split.
        -- intros [b ->]. by exists b.
        -- intros [b [= ->]]. by exists b.
      * split; [done|]. intros [b [= ? _]]. done.
Qed.

Lemma contains_spec t x : contains t x = true ↔ substring_of t x.
Proof.
  unfold substring_of. split.
  - induction x as [|c r IH].
    + cbn [contains]. rewrite orb_false_r. intros [b ->]%prefix_spec. by exists "", b.
    + cbn [contains]. intros [[b ->]%prefix_spec | Hr]%orb_true_iff.
      * by exists "", b.
      * destruct (IH Hr) as (a & b & ->). by exists (String c a), b.
  - intros (a & b & ->). induction a as [|c a IH].
    + destruct (t +:+ b) eqn:E; cbn [contains]; apply orb_true_iff; left;
        apply prefix_spec; exists b; by rewrite <- E.
    + change (String c a +:+ t +:+ b) with (String c (a +:+ t +:+ b)).
      cbn [contains]. apply orb_true_iff. by right.
Qed.

Lemma proc_matches_spec cwd target p :
  proc_matches cwd target p = true ↔
  (∃ x, x ∈ default [] (cmdline p) ∧ x ≠ ""
        ∧ Path.abspath cwd target = Path.abspath cwd x)
  ∨ (∃ ex, exe p = Some ex ∧ ex ≠ ""
           ∧ lower (Path.basename ex) = lower (Path.basename target))
  ∨ (∃ x, x ∈ default [] (cmdline p) ∧ substring_of (Path.basename target) x).
Proof.
  unfold proc_matches. rewrite !orb_true_iff, andb_true_iff, !existsb_exists.
  rewrite negb_true_iff, bool_decide_eq_false, bool_decide_eq_true.
  split.
  - intros [[(x & Hin & Hx) | [Hne He]] | (x & Hin & Hx)].
    + left. apply filter_In in Hin as [Hin Hx'].
      apply negb_true_iff, bool_decide_eq_false in Hx'.
      apply bool_decide_eq_true in Hx. exists x. by rewrite list_elem_of_In.
    + right; left. destruct (exe p) as [ex|]; [|done]. by exists ex.
    + right; right. exists x. by rewrite list_elem_of_In, <- contains_spec.
  - intros [(x & Hin & Hne & Hx) | [(ex & He & Hne & Hx) | (x & Hin & Hx)]].
    + left; left. exists x. split.
      * apply filter_In. split; [by apply list_elem_of_In|].
        by apply negb_true_iff, bool_decide_eq_false.
      * by apply bool_decide_eq_true.
    + left; right. by rewrite He.
    + right. exists x. by rewrite <- list_elem_of_In, contains_spec.
Qed.

End RunningFacts.

(** * The pending-backup worker *)

Section WorkerFacts.
Context `{L : Libs}.
Import PathFacts FSFacts.

Lemma backup_true_frame script w w1 :
  backup_script_to_folder script w = (Return true, w1) →
  w_env w1 = w_env w ∧ w_catalog w1 = w_catalog w ∧ w_time w1 = w_time w.
Proof.
  intros H. destruct (backup_true_inv _ _ _ H) as (n & src & raw & fs1 & _ & _ & _ & _ & ->).
  done.
Qed.

Section Sweep.
Context (e : env) (t : nat) (Inv : gmap (list string) node → Prop).
Context (known : script → Prop).
Hypothesis Hrun : ∀ s, known s → is_pending s = true →
  ∃ b, is_running_at e t (path s) = Return b.
Hypothesis Hbk : ∀ s w0, known s → is_pending s = true →
  w_env w0 = e → Inv (w_fs w0) →
  ∃ w1, backup_script_to_folder s w0 = (Return true, w1) ∧ Inv (w_fs w1).

Lemma sweep_run scripts : ∀ w,
  Forall (λ s, is_pending s = true → known s) scripts →
  w_env w = e → w_time w = t → Inv (w_fs w) →
  ∃ w1,
    sweep scripts w
    = (Return (swept e t <$> scripts, existsb is_pending scripts,
               existsb (λ s, is_pending s && idle_at e t s) scripts), w1)
    ∧ w_env w1 = e ∧ w_time w1 = t ∧ w_catalog w1 = w_catalog w ∧ Inv (w_fs w1).
Proof.
  induction scripts as [|s rest IH]; intros w Hk He Ht HI.
  - exists w. by repeat split.
  - inversion Hk as [|? ? Hs Hrest]; subst.
    cbn [sweep fmap list_fmap existsb].
    unfold swept, idle_at.
    destruct (is_pending s) eqn:Hp; cbn [andb orb].
    + specialize (Hs eq_refl). destruct (Hrun s Hs Hp) as [b Hb]. rewrite Hb.
      unfold bind, ret, is_running, print, log. rewrite Hb.
      destruct b; cbn [negb andb orb].
      * destruct (IH w Hrest eq_refl eq_refl HI) as (w1 & Hsw & ? & ? & ? & ?).
        rewrite Hsw. exists w1. by repeat split.
      * destruct (Hbk s (add_log (Print (MsgPendingNow (name s))) w) Hs Hp eq_refl HI)
          as (w0 & Hb0 & HI0).
        rewrite Hb0.
        destruct (backup_true_frame _ _ _ Hb0) as (E1 & E2 & E3).
        destruct (IH w0 Hrest E1 E3 HI0) as (w1 & Hsw & ? & ? & Hc & ?).
        rewrite Hsw. exists w1. repeat split; try done. by rewrite Hc, E2.
    + unfold bind, ret.
      destruct (IH w Hrest eq_refl eq_refl HI) as (w1 & Hsw & ? & ? & ? & ?).
      rewrite Hsw. exists w1. by repeat split.
Qed.
End Sweep.

Lemma is_pending_pop s : is_pending (pop_pending s) = false.
Proof. reflexivity. Qed.

Lemma swept_unchanged e t (scripts : list script) :
  existsb (λ s, is_pending s && idle_at e t s) scripts = false →
  swept e t <$> scripts = scripts.
Proof.
  induction scripts as [|s rest IH]; [done|]. cbn [existsb].
  intros [Hs Hr]%orb_false_elim. cbn [fmap list_fmap]. unfold swept at 1.
  rewrite Hs. f_equal. by apply IH.
Qed.

Lemma no_pending_Forall scripts :
  existsb is_pending scripts = false ↔ Forall (λ s, is_pending s = false) scripts.
Proof.
  induction scripts as [|s rest IH]; cbn [existsb].
  - split; [by constructor|done].
  - rewrite orb_false_iff, IH, Forall_cons. done.
Qed.

Lemma cleared_swept e t s : cleared (swept e t s) = cleared s.
Proof.
  unfold swept, cleared. destruct (is_pending s) eqn:Hp; cbn [andb].
  - destruct (idle_at e t s); [done|]. by rewrite Hp.
  - by rewrite Hp.
Qed.

Lemma cleared_not_pending (scripts : list script) :
  Forall (λ s, is_pending s = false) (cleared <$> scripts).
Proof.
  apply Forall_fmap, Forall_true. intros s. unfold cleared. simpl.
  destruct (is_pending s) eqn:Hp; [done|]. exact Hp.
Qed.

Lemma swept_still_pending e t (scripts : list script) s' :
  s' ∈ swept e t <$> scripts → is_pending s' = true →
  s' ∈ scripts ∧ idle_at e t s' = false.
Proof.
  intros (s & -> & Hin)%list_elem_of_fmap. unfold swept.
  destruct (is_pending s) eqn:Hp; cbn [andb].
  - destruct (idle_at e t s) eqn:Hi; [done|]. by intros _.
  - by rewrite Hp.
Qed.

Lemma run_unfold fuel w :
  run (S fuel) w =
  (stopped <- stop_is_set ;;
   if stopped then ret (Some tt)
   else
     scripts <- load_scripts ;;
     r <- sweep scripts ;;
     let '(scripts', pending_any, changed) := r in
     (if changed then save_scripts scripts' else ret tt) ;;;
     if negb pending_any then ret (Some tt)
     else sleep ;;; run fuel) w.
Proof. reflexivity. Qed.

(** More fuel does not change a run that returned. *)
Lemma run_fuel_mono fuel : ∀ w w' k,
  run fuel w = (Return (Some tt), w') →
  run (fuel + k) w = (Return (Some tt), w').
Proof.
  induction fuel as [|fuel IH]; intros w w' k H; [discriminate|].
  change (S fuel + k) with (S (fuel + k)).
  rewrite run_unfold in *. unfold bind in *.
  destruct (stop_is_set w) as [[[]|e] w0]; [done| |done].
  destruct (load_scripts w0) as [[scripts|e] w1]; [|done].
  destruct (sweep scripts w1) as [[[[scripts' pending_any] changed]|e] w2]; [|done].
  destruct ((if changed then save_scripts scripts' else ret tt) w2) as [[[]|e] w3]; [|done].
  destruct (negb pending_any); [done|].
  destruct (sleep w3) as [[[]|e] w4]; [|done].
  by apply IH.
Qed.


End WorkerFacts.

(** * More on the worker *)

Section WorkerMore.
Context `{L : Libs}.
Import PathFacts FSFacts.

(** A backup leaves the environment, the catalog and the clock alone. *)
Lemma backup_frame script w r w' :
  backup_script_to_folder script w = (r, w') →
  w_env w' = w_env w ∧ w_catalog w' = w_catalog w ∧ w_time w' = w_time w.
Proof.
  intros H. destruct (truthy (name script)) as [n|] eqn:Hn.
  - destruct (backup_steps_complete _ _ _ _ _ Hn H) as (evs & _ & ->). done.
  - unfold backup_script_to_folder in H. rewrite Hn in H. by injection H as <- <-.
Qed.

Lemma sweep_unfold s rest w :
  sweep (s :: rest) w =
  (r <- (if is_pending s then
           running <- is_running (path s) ;;
           if negb running then
             print (MsgPendingNow (name s)) ;;;
             ok <- backup_script_to_folder s ;;
             if ok then ret (pop_pending s, true) else ret (s, false)
           else ret (s, false)
         else ret (s, false)) ;;
   r' <- sweep rest ;;
   let '(s', changed_s) := r in
   let '(rest', pending_any, changed) := r' in
   ret (s' :: rest', is_pending s || pending_any, changed_s || changed)) w.
Proof. reflexivity. Qed.

Lemma sweep_nothing_to_do e t (scripts : list script) : ∀ w,
  w_env w = e → w_time w = t →
  Forall (λ s, is_pending s = true → is_running_at e t (path s) = Return true) scripts →
  sweep scripts w = (Return (scripts, existsb is_pending scripts, false), w).
Proof.
  induction scripts as [|s rest IH]; intros w He Ht Hall; [done|].
  inversion Hall as [|? ? Hs Hrest]; subst.
  rewrite sweep_unfold. unfold bind at 1.
  destruct (is_pending s) eqn:Hp.
  - unfold bind at 1. unfold is_running. rewrite (Hs eq_refl). cbn [negb].
    unfold ret at 1. unfold bind at 1. rewrite (IH w eq_refl eq_refl Hrest).
    cbn [existsb]. by rewrite Hp.
  - unfold ret at 1. unfold bind at 1. rewrite (IH w eq_refl eq_refl Hrest).
    cbn [existsb]. by rewrite Hp.
Qed.

Lemma run_nothing_pending fuel w :
  e_stop (w_env w) (w_time w) = false →
  Forall (λ s, is_pending s = false) (w_catalog w) →
  run (S fuel) w = (Return (Some tt), w).
Proof.
  intros Hstop Hall. rewrite run_unfold. unfold bind, stop_is_set, load_scripts.
  rewrite Hstop.
  rewrite (sweep_nothing_to_do (w_env w) (w_time w)); try done.
  - apply no_pending_Forall in Hall. by rewrite Hall.
  - eapply Forall_impl; [exact Hall|]. intros s Hs Hp. congruence.
Qed.

(** The turns of the worker when every backup it attempts succeeds. *)
Section Turn.
Context (e : env) (Inv : gmap (list string) node → Prop) (known : script → Prop).
Hypothesis Hstop : ∀ t, e_stop e t = false.
Hypothesis Hbk : ∀ s w0, known s → is_pending s = true →
  w_env w0 = e → Inv (w_fs w0) →
  ∃ w1, backup_script_to_folder s w0 = (Return true, w1) ∧ Inv (w_fs w1).

(** One turn of the loop with a pending record: the sweep, the save and
    the sleep. *)
Lemma run_turn w :
  w_env w = e →
  (∀ s, s ∈ w_catalog w → is_pending s = true →
        known s ∧ ∃ b, is_running_at e (w_time w) (path s) = Return b) →
  Inv (w_fs w) →
  existsb is_pending (w_catalog w) = true →
  ∃ w1,
    (∀ fuel, run (S fuel) w = run fuel w1) ∧
    w_env w1 = e ∧ w_catalog w1 = swept e (w_time w) <$> w_catalog w ∧
    w_time w1 = S (w_time w) ∧ Inv (w_fs w1).
Proof.
  intros He Hk HI Hpa.
  destruct (sweep_run e (w_time w) Inv (λ s, known s ∧ s ∈ w_catalog w)) with
    (scripts := w_catalog w) (w := w) as (w1 & Hsw & E1 & E2 & E3 & HI1); try done.
  - intros s [_ Hin] Hp. by destruct (Hk s Hin Hp).
  - intros s w0 [Hs _]. by apply Hbk.
  - apply Forall_forall. intros s Hin Hp. split; [|done]. by destruct (Hk s Hin Hp).
  - set (c' := swept e (w_time w) <$> w_catalog w).
    assert (Hsave : ∃ w2,
      (if existsb (λ s, is_pending s && idle_at e (w_time w) s) (w_catalog w)
       then save_scripts c' else ret tt) w1 = (Return tt, w2)
      ∧ w_catalog w2 = c' ∧ w_env w2 = e ∧ w_time w2 = w_time w ∧ w_fs w2 = w_fs w1).
    { destruct (existsb (λ s, is_pending s && idle_at e (w_time w) s) (w_catalog w)) eqn:Hc.
      - eexists. split; [reflexivity|]. by repeat split.
      - exists w1. split; [reflexivity|]. repeat split; try done.
        rewrite E3. symmetry. by apply swept_unchanged. }
    destruct Hsave as (w2 & Hsv & C2 & Ee2 & T2 & F2). subst c'.
    exists (sleep w2).2. split; [|split; [|split; [|split]]].
    + intros fuel. rewrite run_unfold. unfold bind, stop_is_set, load_scripts.
      rewrite He, Hstop, Hsw, Hsv, Hpa. reflexivity.
    + exact Ee2.
    + exact C2.
    + simpl. by rewrite T2.
    + simpl. by rewrite F2.
Qed.

Lemma run_exact m : ∀ (k : script → nat) w,
  w_env w = e →
  (∃ s, s ∈ w_catalog w ∧ is_pending s = true ∧ k s = m) →
  (∀ s, s ∈ w_catalog w → is_pending s = true →
     known s ∧ k s ≤ m ∧
     (∀ j, j < k s → is_running_at e (w_time w + j) (path s) = Return true) ∧
     is_running_at e (w_time w + k s) (path s) = Return false) →
  Inv (w_fs w) →
  (∀ j, j ≤ m → ∃ wj, run j w = (Return None, wj)
                      ∧ w_catalog wj = cleared_below k j <$> w_catalog w)
  ∧ ∃ w', run (S m) w = (Return None, w')
          ∧ run (S (S m)) w = (Return (Some tt), w')
          ∧ w_catalog w' = cleared <$> w_catalog w
          ∧ w_time w' = w_time w + S m.
Proof.
  induction m as [|m IH]; intros k w He (s0 & Hin0 & Hp0 & Hk0) Hall HI.
  - assert (Hpa : existsb is_pending (w_catalog w) = true).
    { apply existsb_exists. exists s0. split; [by apply list_elem_of_In|done]. }
    destruct (run_turn w) as (w1 & Hr & E1 & C1 & T1 & I1); try done.
    { intros s Hin Hp. destruct (Hall s Hin Hp) as (Hkn & Hle & _ & Hi).
      split; [done|]. exists false. replace (k s) with 0 in Hi by lia.
      by rewrite Nat.add_0_r in Hi. }
    assert (Hc : w_catalog w1 = cleared <$> w_catalog w).
    { rewrite C1. apply list_fmap_ext. intros i s Hs.
      apply list_elem_of_lookup_2 in Hs. unfold swept, cleared.
      destruct (is_pending s) eqn:Hp; [|done]. cbn [andb].
      destruct (Hall s Hs Hp) as (_ & Hle & _ & Hi).
      replace (k s) with 0 in Hi by lia. rewrite Nat.add_0_r in Hi.
      unfold idle_at. by rewrite Hi. }
    split.
    + intros j Hj. replace j with 0 by lia. exists w. split; [done|].
      rewrite <- (list_fmap_id (w_catalog w)) at 1. apply list_fmap_ext.
      intros i s _. unfold cleared_below. by rewrite andb_false_r.
    + exists w1. split; [by rewrite Hr|]. split; [|split; [done|lia]].
      rewrite Hr. apply run_nothing_pending.
      * by rewrite E1.
      * rewrite Hc. apply cleared_not_pending.
  - assert (Hpa : existsb is_pending (w_catalog w) = true).
    { apply existsb_exists. exists s0. split; [by apply list_elem_of_In|done]. }
    assert (Hidle : ∀ s, s ∈ w_catalog w → is_pending s = true →
                         idle_at e (w_time w) s = bool_decide (k s = 0)).
    { intros s Hin Hp. destruct (Hall s Hin Hp) as (_ & _ & Hb & Hi).
      unfold idle_at. case_bool_decide as Hz.
      - rewrite Hz, Nat.add_0_r in Hi. by rewrite Hi.
      - specialize (Hb 0 ltac:(lia)). rewrite Nat.add_0_r in Hb. by rewrite Hb. }
    destruct (run_turn w) as (w1 & Hr & E1 & C1 & T1 & I1); try done.
    { intros s Hin Hp. destruct (Hall s Hin Hp) as (Hkn & Hle & Hb & Hi).
      split; [done|]. destruct (k s) as [|n] eqn:Hks.
      - exists false. by rewrite Nat.add_0_r in Hi.
      - exists true. specialize (Hb 0 ltac:(lia)). by rewrite Nat.add_0_r in Hb. }
    destruct (IH (λ s, pred (k s)) w1) as (Hbefore & w' & Hr1 & Hr2 & Hc' & Ht'); try done.
    { exists s0. rewrite C1. split; [|split; [done|lia]].
      apply list_elem_of_fmap. exists s0. split; [|done].
      unfold swept. rewrite Hp0, (Hidle s0 Hin0 Hp0). cbn [andb].
      by rewrite bool_decide_eq_false_2 by lia. }
    { intros s Hin Hp. rewrite C1 in Hin.
      destruct (swept_still_pending _ _ _ _ Hin Hp) as [Hin' Hi'].
      destruct (Hall s Hin' Hp) as (Hkn & Hle & Hb & Hi).
      rewrite (Hidle s Hin' Hp) in Hi'. apply bool_decide_eq_false in Hi'.
      split; [done|]. split; [lia|]. rewrite T1. split.
      - intros j Hj. replace (S (w_time w) + j) with (w_time w + S j) by lia.
        apply Hb. lia.
      - replace (S (w_time w) + pred (k s)) with (w_time w + k s) by lia. done. }
    assert (Hmap : ∀ j, cleared_below (λ s, pred (k s)) j <$> w_catalog w1
                        = cleared_below k (S j) <$> w_catalog w).
    { intros j. rewrite C1, <- list_fmap_compose. apply list_fmap_ext.
      intros i s Hs. apply list_elem_of_lookup_2 in Hs. simpl.
      unfold swept, cleared_below. destruct (is_pending s) eqn:Hp; cbn [andb].
      - rewrite (Hidle s Hs Hp). case_bool_decide as Hz.
        + rewrite is_pending_pop. cbn [andb]. rewrite Hz.
          by replace (0 <? S j) with true by (symmetry; apply Nat.ltb_lt; lia).
        + rewrite Hp. cbn [andb].
          replace (pred (k s) <? j) with (k s <? S j); [done|].
          destruct (Nat.ltb_spec (k s) (S j)), (Nat.ltb_spec (pred (k s)) j); try done; lia.
      - by rewrite Hp. }
    split.
    + intros j Hj. destruct j as [|j].
      * exists w. split; [done|].
        rewrite <- (list_fmap_id (w_catalog w)) at 1. apply list_fmap_ext.
        intros i s _. unfold cleared_below. by rewrite andb_false_r.
      * destruct (Hbefore j ltac:(lia)) as (wj & Hrj & Hcj).
        exists wj. split; [by rewrite Hr|]. by rewrite Hcj, Hmap.
    + exists w'. split; [by rewrite Hr|]. split; [by rewrite Hr|]. split.
      * rewrite Hc', C1, <- list_fmap_compose. apply list_fmap_ext.
        intros i s _. apply cleared_swept.
      * lia.
Qed.
End Turn.

End WorkerMore.

(** * The menu actions *)

Section MenuFacts.
Context `{L : Libs}.
Import PathFacts FSFacts.

Lemma list_scripts_run scripts w :
  scripts ≠ [] →
  list_scripts scripts w = (Return tt, add_log (Print (MsgListing scripts)) w).
Proof. by destruct scripts. Qed.

(** The bounds test of the menu actions. *)
Lemma index_in_range {A} (scripts : list A) i (s : A) :
  scripts !! i = Some s →
  bool_decide (Z.of_nat (S i) - 1 < 0)%Z
  || bool_decide (Z.of_nat (length scripts) ≤ Z.of_nat (S i) - 1)%Z = false
  ∧ Z.to_nat (Z.of_nat (S i) - 1) = i.
Proof.
  intros Hi. apply lookup_lt_Some in Hi. split; [|lia].
  apply orb_false_iff. split; apply bool_decide_eq_false; lia.
Qed.

Lemma selected_in_range {A} (scripts : list A) i (s : A) :
  scripts !! i = Some s → selected scripts (Some (Z.of_nat (S i))) = inr i.
Proof.
  intros Hi. destruct (index_in_range _ _ _ Hi) as [Hb Hz].
  unfold selected. by rewrite Hb, Hz.
Qed.

(** [need_backup] only looks: it gives [False] exactly when the manifest
    can be read and lists a file. *)
Lemma need_backup_run n w :
  ∃ b, need_backup n w = (Return b, w) ∧
       (b = false ↔ ∃ text meta,
          FS.read_file (w_cwd w) (w_fs w) (manifest_path n) = inr text
          ∧ json_load text = Some meta ∧ files meta ≠ []).
Proof.
  unfold need_backup. fold (archive_dir n). fold (manifest_path n).
  unfold bind at 1. unfold path_exists.
  case_bool_decide as Hex.
  - unfold try_except, bind, read_file.
    destruct (FS.read_file _ _ _) as [e|text] eqn:Hrd.
    + exists true. split; [done|]. split; [done|]. by intros (? & ? & [=] & _).
    + destruct (json_load text) as [meta|] eqn:Hj.
      * destruct (files meta) as [|f fl] eqn:Hf.
        -- exists true. split; [done|]. split; [done|].
           intros (? & ? & [= <-] & Hj' & Hne). congruence.
        -- exists false. split; [done|]. split; [|done]. intros _.
           exists text, meta. by rewrite Hf.
      * exists true. split; [done|]. split; [done|].
        intros (? & ? & [= <-] & Hj' & _). congruence.
  - exists true. unfold ret. split; [done|]. split; [done|].
    intros (text & ? & Hrd & _). apply read_file_stat in Hrd. destruct Hex. by eexists.
Qed.

End MenuFacts.

(** * The claims *)

Section Claims.
Context `{L : Libs}.
Import PathFacts FSFacts.

(** C1. Backup, then restore: when the source file of a script holds
    [C] and [backup_script_to_folder] returns [True], a later
    [reproduce_script_to_default] on a disk whose archive directory is
    unchanged (and on which the restore directory can be made and no
    directory stands where the file goes) returns, leaves a file with
    content [C] at [reproduced/<name>/<basename>], and logs exactly the
    creation of the directory, the write and the summary line: no
    ["sha256 mismatch"] warning is printed. *)
Theorem backup_restore_integrity script w w1 w2 n src C fs3 :
  name script = Some n → path script = Some src →
  FS.read_file (w_cwd w) (w_fs w) src = inr C →
  backup_script_to_folder script w = (Return true, w1) →
  archive_unchanged n w1 w2 →
  FS.makedirs (w_cwd w2) (w_fs w2) (restore_dir n) = inr fs3 →
  FS.lookup_node (w_fs w2) (Path.resolve (w_cwd w2) (restored_path n src)) ≠ Some Dir →
  ∃ w3,
    reproduce_script_to_default script w2 = (Return tt, w3) ∧
    FS.read_file (w_cwd w3) (w_fs w3) (restored_path n src) = inr C ∧
    w_log w3 = w_log w2 ++ [MadeDirs (restore_dir n);
                            Wrote (restored_path n src) C;
                            Print (MsgReproduced 1 (restore_dir n))] ∧
    ∀ o, Print (MsgMismatch o) ∉ drop (length (w_log w2)) (w_log w3).
Proof.
  intros Hname Hpath Hsrc Hb [Hcwd Harch] Hmk Hfree.
  destruct (backup_true_archive _ _ _ Hb)
    as (n' & src' & raw & Hn & Hs & Hrd & Hcwd1 & Hdir & Hblob & Hmeta).
  apply truthy_Some in Hn as [Hn Hne]. apply truthy_Some in Hs as [Hs Hsne].
  rewrite Hname in Hn. rewrite Hpath in Hs. injection Hn as <-. injection Hs as <-.
  rewrite Hsrc in Hrd. injection Hrd as <-.
  destruct (read_file_inv _ _ _ _ Hsrc) as (_ & Hnd & _).
  apply names_dir_false in Hnd.
  rewrite <- Hcwd1, <- Hcwd in Hdir, Hblob, Hmeta.
  rewrite <- Hcwd in Harch.
  rewrite <- Harch in Hdir by done.
  rewrite <- Harch in Hblob by (rewrite resolve_blob_path; by apply prefix_app_r).
  rewrite <- Harch in Hmeta by (rewrite resolve_manifest_path; by apply prefix_app_r).
  pose proof (restore_created_run script w2 n src C _ fs3
                Hname Hne Hnd Hdir Hblob Hmeta Hmk Hfree) as Hrun.
  eexists. split; [exact Hrun|]. cbn [w_fs w_log w_cwd w_env]. split; [|split; [done|]].
  - apply read_file_intro.
    + apply join_nonempty. by destruct Hnd as (_ & ? & _).
    + by apply names_dir_join.
    + unfold restored_path at 2. rewrite lookup_node_insert.
      * by rewrite decide_True.
      * unfold restored_path. rewrite (resolve_join _ _ _ Hnd). apply snoc_not_nil.
  - intros o. rewrite drop_app_length.
    rewrite !elem_of_cons, elem_of_nil. intros [?|[?|[?|[]]]]; discriminate.
Qed.

(** C3. The write of the manifest on the path without a source file is
    not guarded: for a named script whose path is absent, empty or
    missing when [os.path.exists] looks for it, on a disk where a
    directory stands at [backups/<name>/metadata.json],
    [backup_script_to_folder] raises [IsADirectoryError] to its caller.
    It has made the archive directory by then; it writes no manifest
    and does not print that the source file was not found. *)
Theorem missing_source_backup_raises script w n fs1 :
  truthy (name script) = Some n →
  FS.makedirs (w_cwd w) (w_fs w) (archive_dir n) = inr fs1 →
  source_missing (w_cwd w) fs1 (path script) →
  FS.lookup_node fs1 (Path.resolve (w_cwd w) (manifest_path n)) = Some Dir →
  backup_script_to_folder script w
  = (Raise IsADirectoryError, add_log (MadeDirs (archive_dir n)) (set_fs fs1 w)).
Proof.
  intros Hn Hmk Hmiss Hdir.
  pose proof (write_manifest_over_dir (w_cwd w) fs1 n
                (json_dump (empty_manifest script (e_now (w_env w) (w_time w)))) Hdir) as Hwr.
  unfold backup_script_to_folder. rewrite Hn. io_unfold_goal.
  fold (archive_dir n). rewrite Hmk. io_simpl_goal.
  unfold source_missing in Hmiss.
  destruct (truthy (path script)) as [src|] eqn:Hsrc; io_simpl_goal.
  - autorewrite with io. rewrite Hmiss.
    rewrite bool_decide_eq_false_2 by (by intros [? ?]).
    unfold manifest_path, empty_manifest in *. io_simpl_goal. autorewrite with io.
    by rewrite Hwr.
  - unfold manifest_path, empty_manifest in *. autorewrite with io.
    by rewrite Hwr.
Qed.

(** C10. An entry without a digest is never checked: when the
    ["sha256"] field of a manifest entry is absent or empty, the turn of
    the loop of [reproduce_script_to_default] for that entry, once its
    blob is read and decompressed, writes the bytes and logs nothing but
    that write; and whatever the loop over a manifest with that entry
    does, it prints no ["sha256 mismatch"] warning for the entry's
    name. *)
Theorem no_digest_no_warning folder target orig info :
  truthy (sha256 info) = None →
  (∀ k w gz blob data fs',
     backup_file info = Some gz →
     FS.read_file (w_cwd w) (w_fs w) (Path.join folder gz) = inr blob →
     zlib_decompress blob = Some data →
     FS.write_file (w_cwd w) (w_fs w) (Path.join target orig) data = inr fs' →
     restore_entry folder target (orig, info) k w
     = (Return (S k), add_log (Wrote (Path.join target orig) data) (set_fs fs' w)))
  ∧ (∀ entries k w r w',
     NoDup entries.*1 → (orig, info) ∈ entries →
     for_each entries (restore_entry folder target) k w = (r, w') →
     Print (MsgMismatch orig) ∉ drop (length (w_log w)) (w_log w')).
Proof.
  intros Hsha. split.
  - intros k w gz blob data fs' Hgz Hrd Hz Hwr.
    rewrite (restore_entry_run _ _ _ _ _ _ _ _ _ _ Hgz Hrd Hz Hwr).
    unfold after_digest_check. by rewrite Hsha.
  - intros entries k w r w' Hnd Hin Hrun.
    destruct (restore_loop_log _ _ _ _ _ _ _ Hrun) as (evs & Hlog & Hev).
    rewrite Hlog, drop_app_length. intros Ho.
    destruct (Hev _ Ho) as (info' & Hin' & Hs).
    assert (info' = info) as ->.
    { by eapply nodup_keys_unique. }
    rewrite Hsha in Hs. by destruct Hs.
Qed.

(** C7. The blob is written before the manifest that names it: in every
    run of [backup_script_to_folder] for a named script, the world left
    is the starting one with the logged events applied in order; a write
    of [metadata.json] whose manifest has an entry is preceded in the
    log by the write of that entry's blob; and if, before the call,
    every entry of the manifest on disk names a blob that exists, the
    same holds on the disk after each event of the run, so at every
    point between two writes. *)
Theorem blob_before_manifest script w r w' n :
  truthy (name script) = Some n →
  backup_script_to_folder script w = (r, w') →
  ∃ evs,
    w' = world_after w evs ∧
    (∀ i d m k info g,
       evs !! i = Some (Wrote (manifest_path n) d) →
       json_load d = Some m → (k, info) ∈ files m → backup_file info = Some g →
       ∃ j blob, j < i ∧ evs !! j = Some (Wrote (Path.join (archive_dir n) g) blob)) ∧
    (manifest_blobs_present (w_cwd w) n (w_fs w) →
     ∀ i, manifest_blobs_present (w_cwd w) n (replay (w_cwd w) (w_fs w) (take i evs))).
Proof.
  intros Hn H.
  destruct (backup_steps_complete _ _ _ _ _ Hn H) as (evs & Hsteps & ->).
  exists evs. split; [done|].
  set (cwd := w_cwd w) in *. set (now := e_now (w_env w) (w_time w)) in *.
  inversion Hsteps as
    [ e Hmk
    | fs1 e Hmk Hmiss Hw
    | fs1 fs2 Hmk Hmiss Hw
    | fs1 src e Hmk Hsrc Hex Hrd
    | fs1 src raw e Hmk Hsrc Hex Hrd Hw1
    | fs1 src raw fs2 e Hmk Hsrc Hex Hrd Hw1 Hw2
    | fs1 src raw fs2 fs3 Hmk Hsrc Hex Hrd Hw1 Hw2 ]; subst r evs.
  - split.
    + intros [|i] ? ? ? ? ? [=].
    + intros HP i. by rewrite take_nil.
  - split.
    + intros [|[|i]] ? ? ? ? ? [=].
    + intros HP [|[|i]]; replay_prefix; eauto using present_makedirs.
  - pose proof (present_makedirs _ n _ _ _ Hmk) as P1.
    split.
    + intros [|[|[|[|i]]]] d m k info g [=] Hm Hin. subst d.
      rewrite json_round_trip in Hm. injection Hm as <-. by apply elem_of_nil in Hin.
    + intros HP.
      assert (P2 : manifest_blobs_present cwd n fs2).
      { eapply present_write_manifest; [done|]. intros k info g Hin.
        by apply elem_of_nil in Hin. }
      intros [|[|[|[|i]]]]; replay_prefix; eauto.
  - split.
    + intros [|[|[|i]]] ? ? ? ? ? [=].
    + intros HP [|[|[|i]]]; replay_prefix; eauto using present_makedirs.
  - split.
    + intros [|[|[|i]]] ? ? ? ? ? [=].
    + intros HP [|[|[|i]]]; replay_prefix; eauto using present_makedirs.
  - split.
    + intros [|[|[|[|i]]]] d m k info g [=]. by destruct (blob_path_not_manifest_path n src).
    + intros HP.
      pose proof (present_makedirs _ n _ _ _ Hmk HP) as P1.
      assert (P2 : manifest_blobs_present cwd n fs2).
      { eapply present_write_other; [done|apply blob_not_manifest|done]. }
      intros [|[|[|[|i]]]]; replay_prefix; eauto.
  - split.
    + intros [|[|[|[|[|i]]]]] d m k info g [=] Hm Hin Hg.
      * by destruct (blob_path_not_manifest_path n src).
      * subst d. rewrite json_round_trip in Hm. injection Hm as <-.
        apply list_elem_of_singleton in Hin as [= -> ->]. simpl in Hg.
        injection Hg as <-. exists 1, (compress_bytes raw). split; [lia|].
        simpl. by rewrite basename_blob_path.
    + intros HP.
      pose proof (present_makedirs _ n _ _ _ Hmk HP) as P1.
      assert (P2 : manifest_blobs_present cwd n fs2).
      { eapply present_write_other; [done|apply blob_not_manifest|done]. }
      assert (P3 : manifest_blobs_present cwd n fs3).
      { eapply present_write_manifest; [done|]. intros k info g Hin Hg.
        apply list_elem_of_singleton in Hin as [= -> ->]. simpl in Hg.
        injection Hg as <-. rewrite basename_blob_path.
        fold (blob_path n src).
        rewrite (read_file_stat _ _ _ _ (read_write_same _ _ _ _ _ Hw1)). by eexists. }
      intros [|[|[|[|[|i]]]]]; replay_prefix; eauto.
Qed.

(** C8, as amended. What [is_running] tests: with psutil it returns
    [True] exactly when some process of the table has a non-empty
    argument whose absolute form is the target's, or a non-empty
    executable path whose base name is the target's up to case, or an
    argument in which the target's base name occurs; without psutil it
    returns [False] for every path. *)
Theorem is_running_tests w target :
  (PSUTIL_AVAILABLE (w_env w) = true →
   ∃ b, is_running (Some target) w = (Return b, w) ∧
        (b = true ↔ in_use_as_tested (w_env w) (w_time w) target))
  ∧ (PSUTIL_AVAILABLE (w_env w) = false →
     ∀ path, is_running path w = (Return false, w)).
Proof.
  unfold is_running, is_running_at. split.
  - intros ->. eexists. split; [reflexivity|].
    rewrite existsb_exists. unfold in_use_as_tested. split.
    + intros (p & Hin & Hp). exists p. split; [by apply list_elem_of_In|].
      by apply proc_matches_spec.
    + intros (p & Hin & Hp). exists p. split; [by apply list_elem_of_In|].
      by apply proc_matches_spec.
  - by intros -> path.
Qed.

(** C5, as amended. The worker converges, and stops one sweep after
    the last flag is cleared.  The stop event is never set; some record
    of the catalog is pending; the detector says "in use" for each
    pending record [s] at its first [k s] sweeps and "not in use" at
    the next one; [m] is the largest [k s]; and every backup the worker
    attempts succeeds.  Then after [j] turns of the loop, for [j] up to
    [m], the worker is polling, the flags cleared are those of the
    records with [k s < j], and a record is still pending.  After
    [m + 1] turns every flag is cleared, and the worker is still
    polling: it has slept [m + 1] times (the clock [w_time] advances
    with each sleep, and only then), once after the sweep that left
    nothing pending, because [pending_any] records that a flag was set
    when the sweep met it.  Turn [m + 2] finds nothing pending and
    returns, leaving the world as it was; however much longer the
    thread is given, nothing more happens. *)
Theorem scheduler_converges (Inv : gmap (list string) node → Prop)
    (k : script → nat) m w :
  (∀ t, e_stop (w_env w) t = false) →
  (∃ s, s ∈ w_catalog w ∧ is_pending s = true ∧ k s = m) →
  (∀ s, s ∈ w_catalog w → is_pending s = true →
     k s ≤ m ∧
     (∀ j, j < k s → is_running_at (w_env w) (w_time w + j) (path s) = Return true) ∧
     is_running_at (w_env w) (w_time w + k s) (path s) = Return false) →
  Inv (w_fs w) →
  (∀ s w0, s ∈ w_catalog w → is_pending s = true →
     w_env w0 = w_env w → Inv (w_fs w0) →
     ∃ w1, backup_script_to_folder s w0 = (Return true, w1) ∧ Inv (w_fs w1)) →
  (∀ j, j ≤ m → ∃ wj,
      run j w = (Return None, wj) ∧
      w_catalog wj = cleared_below k j <$> w_catalog w ∧
      ∃ s, s ∈ w_catalog wj ∧ is_pending s = true)
  ∧ ∃ w',
      run (S m) w = (Return None, w') ∧
      (∀ fuel, S m < fuel → run fuel w = (Return (Some tt), w')) ∧
      w_catalog w' = cleared <$> w_catalog w ∧
      Forall (λ s, is_pending s = false) (w_catalog w') ∧
      w_time w' = w_time w + S m.
Proof.
  intros Hstop (s0 & Hin0 & Hp0 & Hk0) Hall HI Hbk.
  destruct (run_exact (w_env w) Inv (λ s, s ∈ w_catalog w) Hstop Hbk m k w)
    as (Hbefore & w' & Hr1 & Hr2 & Hc & Ht); try done.
  { by exists s0. }
  { intros s Hin Hp. split; [done|]. by apply Hall. }
  split.
  - intros j Hj. destruct (Hbefore j Hj) as (wj & Hrj & Hcj).
    exists wj. split; [done|]. split; [done|]. exists s0. split; [|done].
    rewrite Hcj. apply list_elem_of_fmap. exists s0. split; [|done].
    unfold cleared_below. rewrite Hp0. cbn [andb].
    by replace (k s0 <? j) with false by (symmetry; apply Nat.ltb_ge; lia).
  - exists w'. split; [done|]. split; [|split; [done|split; [|done]]].
    + intros fuel Hf. replace fuel with (S (S m) + (fuel - S (S m))) by lia.
      by apply run_fuel_mono.
    + rewrite Hc. apply cleared_not_pending.
Qed.

End Claims.

(** C6. A failure of [os.makedirs], which [backup_script_to_folder]
    calls before its [try], is not caught: with a regular file at
    [backups] the call raises [NotADirectoryError] to its caller.  So
    does the write of the manifest on the path without a source file,
    which is outside the [try] too: with a directory at
    [backups/gone/metadata.json] the call raises [IsADirectoryError]. *)
Theorem backup_failure_escapes :
  backup_script_to_folder (L := Stored.libs) Demo.demo Demo.blocked
    = (Raise NotADirectoryError, Demo.blocked)
  ∧ (backup_script_to_folder (L := Stored.libs) Demo.gone Demo.manifest_blocked).1
    = Raise IsADirectoryError.
Proof. split; vm_compute; reflexivity. Qed.

(** C9. A regular file where the archive directory would be: no archive
    directory exists for [demo], since [backups/demo] is a regular
    file, and there is no [reproduced/demo].  [os.path.exists] is true
    of the file, so [reproduce_script_to_default] does not report that
    no backup folder was found: it makes [reproduced/demo], and
    [os.listdir], which no [try] guards, raises [NotADirectoryError] to
    the caller.  The restore directory stays behind. *)
Theorem restore_over_a_file_raises :
  FS.stat (w_cwd Demo.file_in_the_way) (w_fs Demo.file_in_the_way) (archive_dir "demo")
    = Some (File [])
  ∧ FS.stat (w_cwd Demo.file_in_the_way) (w_fs Demo.file_in_the_way) (restore_dir "demo")
    = None
  ∧ (reproduce_script_to_default (L := Stored.libs) Demo.demo Demo.file_in_the_way).1
    = Raise NotADirectoryError
  ∧ FS.stat (w_cwd Demo.file_in_the_way)
      (w_fs (reproduce_script_to_default (L := Stored.libs) Demo.demo
               Demo.file_in_the_way).2) (restore_dir "demo")
    = Some Dir
  ∧ w_log (reproduce_script_to_default (L := Stored.libs) Demo.demo
             Demo.file_in_the_way).2
    = [MadeDirs (restore_dir "demo")].
Proof. repeat split; vm_compute; reflexivity. Qed.

Lemma missing_source_backup_raises_witness :
  backup_script_to_folder (L := Stored.libs) Demo.gone Demo.manifest_blocked
  = (Raise IsADirectoryError,
     add_log (MadeDirs (archive_dir "gone")) (set_fs (w_fs Demo.manifest_blocked) Demo.manifest_blocked)).
Proof.
  apply (missing_source_backup_raises (L := Stored.libs) Demo.gone Demo.manifest_blocked "gone").
  - reflexivity.
  - etrans; [apply (is_inr_eq _ ∅); vm_compute; reflexivity|].
    apply (f_equal inr). refine (bool_decide_eq_true_1 _ _). vm_compute. reflexivity.
  - vm_compute. reflexivity.
  - vm_compute. reflexivity.
Defined.

Lemma backup_restore_integrity_witness :
  ∃ w3,
    reproduce_script_to_default (L := Stored.libs) Demo.demo Demo.backed_up
      = (Return tt, w3) ∧
    FS.read_file (w_cwd w3) (w_fs w3) (restored_path "demo" "demo.py")
      = inr Demo.content ∧
    w_log w3 = w_log Demo.backed_up
               ++ [MadeDirs (restore_dir "demo");
                   Wrote (restored_path "demo" "demo.py") Demo.content;
                   Print (MsgReproduced 1 (restore_dir "demo"))] ∧
    ∀ o, Print (MsgMismatch o) ∉ drop (length (w_log Demo.backed_up)) (w_log w3).
Proof.
  apply (backup_restore_integrity (L := Stored.libs) Demo.demo Demo.start Demo.backed_up Demo.backed_up
           "demo" "demo.py" Demo.content Demo.with_restore_dir).
  - reflexivity.
  - reflexivity.
  - vm_compute. reflexivity.
  - unfold Demo.backed_up. apply returns_eq. vm_compute. reflexivity.
  - split; [reflexivity | intros; reflexivity].
  - apply is_inr_eq. vm_compute. reflexivity.
  - vm_compute. discriminate.
Defined.

Lemma no_digest_no_warning_witness :
  restore_entry "backups/demo" "reproduced/demo" ("demo.py", Demo.legacy) 0 Demo.restoring
  = (Return 1,
     add_log (Wrote "reproduced/demo/demo.py" Demo.content)
       (set_fs Demo.restored_disk Demo.restoring))
  ∧ Print (MsgMismatch "demo.py")
    ∉ drop 0 (w_log (for_each [("demo.py", Demo.legacy)]
                       (restore_entry "backups/demo" "reproduced/demo") 0
                       Demo.restoring).2).
Proof.
  destruct (no_digest_no_warning (L := Stored.libs) "backups/demo" "reproduced/demo"
              "demo.py" Demo.legacy eq_refl) as [Hone Hall].
  split.
  - apply (Hone 0 Demo.restoring "demo.py.gz" (x78 :: Demo.content) Demo.content
             Demo.restored_disk).
    + reflexivity.
    + vm_compute. reflexivity.
    + reflexivity.
    + apply is_inr_eq. vm_compute. reflexivity.
  - apply (Hall [("demo.py", Demo.legacy)] 0 Demo.restoring
             (for_each [("demo.py", Demo.legacy)]
                (restore_entry "backups/demo" "reproduced/demo") 0 Demo.restoring).1).
    + vm_compute. repeat constructor. intros H. inversion H.
    + left.
    + by destruct (for_each _ _ _ _).
Defined.

Lemma blob_before_manifest_witness :
  ∃ evs,
    Demo.backed_up = world_after Demo.start evs ∧
    (∀ i d m k info g,
       evs !! i = Some (Wrote (manifest_path "demo") d) →
       json_load d = Some m → (k, info) ∈ files m → backup_file info = Some g →
       ∃ j blob, j < i ∧ evs !! j = Some (Wrote (Path.join (archive_dir "demo") g) blob)) ∧
    (manifest_blobs_present (w_cwd Demo.start) "demo" (w_fs Demo.start) →
     ∀ i, manifest_blobs_present (w_cwd Demo.start) "demo"
            (replay (w_cwd Demo.start) (w_fs Demo.start) (take i evs))).
Proof.
  apply (blob_before_manifest (L := Stored.libs) Demo.demo Demo.start (Return true)
           Demo.backed_up "demo").
  - reflexivity.
  - unfold Demo.backed_up. apply returns_eq. vm_compute. reflexivity.
Defined.

(** C8, as stated, fails where the code skips an empty string: with a
    process started with an empty argument, the target [.] has the
    absolute form of that argument, and with a process whose executable
    path is the empty string, the target [scripts/] has its base name;
    [is_running] returns [False] for both. *)
Lemma is_running_skips_empty_strings :
  (is_running (Some ".") (Demo.idle_world Demo.empty_argument)
   = (Return false, Demo.idle_world Demo.empty_argument)
   ∧ in_use_as_specified Demo.empty_argument 0 ".")
  ∧ (is_running (Some "scripts/") (Demo.idle_world Demo.empty_executable)
     = (Return false, Demo.idle_world Demo.empty_executable)
     ∧ in_use_as_specified Demo.empty_executable 0 "scripts/").
Proof.
  split; (split; [vm_compute; reflexivity|]).
  - eexists. split; [by left|]. left. exists "". split; [|vm_compute; reflexivity].
    simpl. right. by left.
  - eexists. split; [by left|]. right; left. exists "". split; reflexivity.
Qed.

(** C4. [backup_now_interactive] clears the flag after a backup that
    failed: the record [gone] is flagged pending and its source file is
    missing, so [backup_script_to_folder] returns [False]; the call
    still pops ["pending_backup"] and saves the catalog without the
    flag. *)
Theorem backup_now_clears_after_failed_backup :
  is_pending Demo.gone = true
  ∧ (backup_script_to_folder Demo.gone
       (add_log (Print (MsgListing [Demo.gone])) Demo.start)).1 = Return false
  ∧ (backup_now_interactive [Demo.gone] (Some 1%Z) Demo.start).1
    = Return [pop_pending Demo.gone]
  ∧ w_catalog (backup_now_interactive [Demo.gone] (Some 1%Z) Demo.start).2
    = [pop_pending Demo.gone]
  ∧ is_pending (pop_pending Demo.gone) = false.
Proof. repeat split; vm_compute; reflexivity. Qed.

(** C5, as stated, fails on the sweep count and on the stop: [demo.py]
    is in use at the first sweep and free afterwards, and its backup
    succeeds.  After one turn the flag is still set.  After two turns
    no record is pending, and the worker has not stopped: it has slept
    a second time (the last event of its log) and is still polling.  It
    returns in the third turn. *)
Lemma scheduler_polls_after_the_last_flag :
  is_running_at Demo.busy_then_idle 0 (path Demo.demo_pending) = Return true
  ∧ is_running_at Demo.busy_then_idle 1 (path Demo.demo_pending) = Return false
  ∧ (run 1 Demo.queued).1 = Return None
  ∧ w_catalog (run 1 Demo.queued).2 = [Demo.demo_pending]
  ∧ (run 2 Demo.queued).1 = Return None
  ∧ w_catalog (run 2 Demo.queued).2 = [Demo.demo]
  ∧ is_pending Demo.demo = false
  ∧ w_time (run 2 Demo.queued).2 = 2
  ∧ last (w_log (run 2 Demo.queued).2) = Some Slept
  ∧ (run 3 Demo.queued).1 = Return (Some tt).
Proof. repeat split; vm_compute; reflexivity. Qed.

Lemma scheduler_converges_witness :
  (∃ w1,
     run 1 Demo.queued = (Return None, w1) ∧
     w_catalog w1 = cleared_below (λ _, 1) 1 <$> [Demo.demo_pending] ∧
     ∃ s, s ∈ w_catalog w1 ∧ is_pending s = true)
  ∧ ∃ w',
      run 2 Demo.queued = (Return None, w') ∧
      (∀ fuel, 2 < fuel → run fuel Demo.queued = (Return (Some tt), w')) ∧
      w_catalog w' = cleared <$> [Demo.demo_pending] ∧
      Forall (λ s, is_pending s = false) (w_catalog w') ∧
      w_time w' = 0 + 2.
Proof.
  destruct (scheduler_converges (L := Stored.libs) Demo.seen (λ _, 1) 1 Demo.queued)
    as [H1 H2].
  - reflexivity.
  - exists Demo.demo_pending. split; [by left|]. split; reflexivity.
  - intros s ->%list_elem_of_singleton _. split; [lia|]. split.
    + intros j Hj. replace j with 0 by lia. reflexivity.
    + reflexivity.
  - left. reflexivity.
  - intros s [e fs c t l] ->%list_elem_of_singleton _ He Hfs.
    simpl in He, Hfs. subst e.
    destruct Hfs as [-> | ->].
    + exists (backup_script_to_folder Demo.demo_pending
                (World Demo.busy_then_idle Demo.disk c t l)).2.
      split; [apply returns_eq; vm_compute; reflexivity|].
      right. refine (bool_decide_eq_true_1 _ _). vm_compute. reflexivity.
    + exists (backup_script_to_folder Demo.demo_pending
                (World Demo.busy_then_idle (w_fs Demo.backed_up) c t l)).2.
      split; [apply returns_eq; vm_compute; reflexivity|].
      right. refine (bool_decide_eq_true_1 _ _). vm_compute. reflexivity.
  - split; [apply (H1 1); lia | exact H2].
Defined.

(** * Further properties of the code *)

Section Extras.
Context `{L : Libs}.
Import PathFacts FSFacts.

(** X1. A sweep of the worker keeps the records: the list it hands back
    has the records of the list it got, in order, each either as it was
    or, if it was pending, with its flag popped; [pending_any] says
    whether a record was pending before the sweep; when [changed] is
    [False] the list is the same; and the catalog file is not written by
    the sweep itself. *)
Theorem sweep_keeps_records scripts : ∀ w scripts' pending_any changed w',
  sweep scripts w = (Return (scripts', pending_any, changed), w') →
  Forall2 (λ s s', s' = s ∨ (is_pending s = true ∧ s' = pop_pending s)) scripts scripts'
  ∧ pending_any = existsb is_pending scripts
  ∧ (changed = false → scripts' = scripts)
  ∧ w_env w' = w_env w ∧ w_catalog w' = w_catalog w ∧ w_time w' = w_time w.
Proof.
  induction scripts as [|s rest IH]; intros w scripts' pa ch w' H.
  - injection H as <- <- <- <-. split; [constructor|]. by repeat split.
  - rewrite sweep_unfold in H. unfold bind at 1 in H.
    destruct (is_pending s) eqn:Hp.
    + unfold bind at 1 in H. unfold is_running in H.
      destruct (is_running_at _ _ _) as [[|]|e]; cbn [negb] in H; [| |done].
      * unfold ret at 1 in H. unfold bind at 1 in H.
        destruct (sweep rest w) as [[[[rest' pa'] ch']|e] w1] eqn:Hs; [|done].
        injection H as <- <- <- <-.
        destruct (IH _ _ _ _ _ Hs) as (F & -> & Hc & ? & ? & ?).
        split; [constructor; [by left|done]|].
        split; [cbn [existsb]; by rewrite Hp|]. split; [|done].
        cbn [orb]. intros Hch. by rewrite Hc.
      * unfold bind at 1 in H. unfold print, log in H. unfold bind at 1 in H.
        destruct (backup_script_to_folder s _) as [[ok|e] w0] eqn:Hb; [|done].
        destruct (backup_frame _ _ _ _ Hb) as (E1 & E2 & E3).
        destruct ok.
        -- unfold ret at 1 in H. unfold bind at 1 in H.
           destruct (sweep rest w0) as [[[[rest' pa'] ch']|e] w1] eqn:Hs; [|done].
           injection H as <- <- <- <-.
           destruct (IH _ _ _ _ _ Hs) as (F & -> & Hc & Ee & Ec & Et).
           split; [constructor; [by right|done]|].
           split; [cbn [existsb]; by rewrite Hp|]. split; [done|].
           by rewrite Ee, E1, Ec, E2, Et, E3.
        -- unfold ret at 1 in H. unfold bind at 1 in H.
           destruct (sweep rest w0) as [[[[rest' pa'] ch']|e] w1] eqn:Hs; [|done].
           injection H as <- <- <- <-.
           destruct (IH _ _ _ _ _ Hs) as (F & -> & Hc & Ee & Ec & Et).
           split; [constructor; [by left|done]|].
           split; [cbn [existsb]; by rewrite Hp|]. split; [cbn [orb]; intros Hch; by rewrite Hc|].
           by rewrite Ee, E1, Ec, E2, Et, E3.
    + unfold ret at 1 in H. unfold bind at 1 in H.
      destruct (sweep rest w) as [[[[rest' pa'] ch']|e] w1] eqn:Hs; [|done].
      injection H as <- <- <- <-.
      destruct (IH _ _ _ _ _ Hs) as (F & -> & Hc & ? & ? & ?).
      split; [constructor; [by left|done]|].
      split; [cbn [existsb]; by rewrite Hp|]. split; [|done].
      cbn [orb]. intros Hch. by rewrite Hc.
Qed.

(** X2. With nothing pending the worker returns on its first turn and
    changes nothing: no backup, no write of the catalog, no sleep, no
    output. *)
Theorem run_returns_at_once fuel w :
  Forall (λ s, is_pending s = false) (w_catalog w) →
  run (S fuel) w = (Return (Some tt), w).
Proof.
  intros Hall. rewrite run_unfold. unfold bind, stop_is_set, load_scripts.
  destruct (e_stop _ _); [done|].
  rewrite (sweep_nothing_to_do (w_env w) (w_time w)); try done.
  - apply no_pending_Forall in Hall. by rewrite Hall.
  - eapply Forall_impl; [exact Hall|]. intros s Hs Hp. congruence.
Qed.

(** X3. While every pending record is judged in use, the worker never
    returns and never backs up: after any number of turns it is still
    polling, the catalog and the disk are as they were, and all it did
    was sleep once per turn. *)
Theorem run_keeps_polling w :
  (∀ t, e_stop (w_env w) t = false) →
  (∃ s, s ∈ w_catalog w ∧ is_pending s = true) →
  (∀ s t, s ∈ w_catalog w → is_pending s = true →
          is_running_at (w_env w) t (path s) = Return true) →
  ∀ fuel, ∃ w',
    run fuel w = (Return None, w') ∧
    w_catalog w' = w_catalog w ∧ w_fs w' = w_fs w ∧
    w_time w' = w_time w + fuel ∧
    w_log w' = w_log w ++ replicate fuel Slept.
Proof.
  intros Hstop (s0 & Hin0 & Hp0) Hbusy fuel.
  remember (w_env w) as e eqn:He. remember (w_catalog w) as c eqn:Hc.
  revert w He Hc. induction fuel as [|fuel IH]; intros w He Hc.
  - exists w. split; [done|]. split; [done|]. split; [done|].
    split; [lia | by rewrite app_nil_r].
  - rewrite run_unfold. unfold bind, stop_is_set, load_scripts.
    rewrite <- He, Hstop, <- Hc.
    rewrite (sweep_nothing_to_do e (w_time w)); try done.
    2:{ apply Forall_forall. intros s Hin Hp. by apply Hbusy. }
    assert (Hany : existsb is_pending c = true).
    { apply existsb_exists. exists s0. split; [by apply list_elem_of_In|done]. }
    rewrite Hany. cbn [negb]. unfold ret at 1. unfold sleep at 1.
    set (w1 := add_log Slept _).
    destruct (IH w1) as (w' & Hr & H1 & H2 & H3 & H4); [done|done|].
    exists w'. rewrite Hr. split; [done|]. split; [done|]. split; [done|]. split.
    + rewrite H3. subst w1. simpl. lia.
    + rewrite H4. subst w1. simpl. by rewrite <- app_assoc.
Qed.

(** X4. A pending record without a path ends the worker when psutil is
    available: [is_running(None)] raises [TypeError] in
    [os.path.basename], nothing in [run] catches it, and the records
    after it are not looked at. *)
Theorem run_dies_on_pending_record_without_path fuel w pre s rest :
  PSUTIL_AVAILABLE (w_env w) = true →
  e_stop (w_env w) (w_time w) = false →
  w_catalog w = pre ++ s :: rest →
  Forall (λ s, is_pending s = false) pre →
  is_pending s = true → path s = None →
  run (S fuel) w = (Raise TypeError, w).
Proof.
  intros Hps Hstop Hc Hpre Hp Hpath.
  rewrite run_unfold. unfold bind at 1. unfold stop_is_set. rewrite Hstop.
  unfold bind at 1. unfold load_scripts. rewrite Hc. unfold bind at 1.
  assert (Hsw : sweep (pre ++ s :: rest) w = (Raise TypeError, w)).
  { clear Hc. induction Hpre as [|x pre Hx _ IH].
    - cbn [app]. rewrite sweep_unfold. unfold bind at 1. rewrite Hp.
      unfold bind at 1. unfold is_running, is_running_at. by rewrite Hps, Hpath.
    - cbn [app]. rewrite sweep_unfold. unfold bind at 1. rewrite Hx.
      unfold ret at 1. unfold bind at 1. by rewrite IH. }
  by rewrite Hsw.
Qed.

(** X5. A backup touches only its own two files: whatever the run of
    [backup_script_to_folder] for a named script gives, a path other
    than the manifest's and the blob's holds a regular file with some
    content afterwards exactly when it did before.  No other file is
    created, changed or removed. *)
Theorem backup_touches_only_its_files script w r w' n p :
  truthy (name script) = Some n →
  backup_script_to_folder script w = (r, w') →
  p ≠ Path.resolve (w_cwd w) (manifest_path n) →
  (∀ src, truthy (path script) = Some src →
          p ≠ Path.resolve (w_cwd w) (blob_path n src)) →
  ∀ b, w_fs w' !! p = Some (File b) ↔ w_fs w !! p = Some (File b).
Proof.
  intros Hn H Hpm Hpb b.
  destruct (backup_steps_complete _ _ _ _ _ Hn H) as (evs & Hsteps & ->).
  cbn [w_fs world_after].
  inversion Hsteps as
    [ e Hmk
    | fs1 e Hmk Hmiss Hw
    | fs1 fs2 Hmk Hmiss Hw
    | fs1 src e Hmk Hsrc Hex Hrd
    | fs1 src raw e Hmk Hsrc Hex Hrd Hw1
    | fs1 src raw fs2 e Hmk Hsrc Hex Hrd Hw1 Hw2
    | fs1 src raw fs2 fs3 Hmk Hsrc Hex Hrd Hw1 Hw2 ]; subst r evs;
    replay_prefix; try done;
    try (by apply (makedirs_file_raw _ _ _ _ _ _ Hmk)).
  - rewrite (write_file_other _ _ _ _ _ _ Hw Hpm).
    by apply (makedirs_file_raw _ _ _ _ _ _ Hmk).
  - rewrite (write_file_other _ _ _ _ _ _ Hw1 (Hpb _ Hsrc)).
    by apply (makedirs_file_raw _ _ _ _ _ _ Hmk).
  - rewrite (write_file_other _ _ _ _ _ _ Hw2 Hpm).
    rewrite (write_file_other _ _ _ _ _ _ Hw1 (Hpb _ Hsrc)).
    by apply (makedirs_file_raw _ _ _ _ _ _ Hmk).
Qed.

(** X6. What a successful backup leaves: when the call returns [True],
    the blob [<basename>.gz] in the archive directory decompresses to
    the bytes the source file held, and [metadata.json] loads to a
    manifest with the original path and one entry, keyed by the base
    name, that names the blob and records the digest and the length of
    those uncompressed bytes. *)
Theorem backup_records_the_source script w w' :
  backup_script_to_folder script w = (Return true, w') →
  ∃ n src raw blob text m,
    truthy (name script) = Some n ∧ truthy (path script) = Some src ∧
    FS.read_file (w_cwd w) (w_fs w) src = inr raw ∧
    FS.read_file (w_cwd w') (w_fs w') (blob_path n src) = inr blob ∧
    zlib_decompress blob = Some raw ∧
    FS.read_file (w_cwd w') (w_fs w') (manifest_path n) = inr text ∧
    json_load text = Some m ∧
    original_path m = Some src ∧
    files m = [(Path.basename src,
                {| backup_file := Some (Path.basename src +:+ ".gz");
                   sha256 := Some (sha256_bytes raw);
                   orig_size := Some (length raw) |})].
Proof.
  intros H.
  destruct (backup_true_archive _ _ _ H)
    as (n & src & raw & Hn & Hs & Hrd & Hcwd & Hdir & Hblob & Hmeta).
  exists n, src, raw, (compress_bytes raw).
  exists (json_dump (created_manifest script n src raw (e_now (w_env w) (w_time w)))).
  exists (created_manifest script n src raw (e_now (w_env w) (w_time w))).
  rewrite Hcwd.
  split; [done|]. split; [done|]. split; [done|].
  split.
  { apply read_file_intro; [| |done].
    - apply join_nonempty. by destruct (plain_gz (Path.basename src) (has_slash_basename src)) as (_ & ? & _).
    - apply names_dir_join, plain_gz, has_slash_basename. }
  split; [apply zlib_round_trip|].
  split.
  { apply read_file_intro; [| |exact Hmeta].
    - by apply join_nonempty.
    - apply names_dir_join, plain_metadata. }
  split; [apply json_round_trip|].
  apply truthy_Some in Hs as [Hs _].
  split; [done|]. cbn [files created_manifest meta_of]. by rewrite basename_blob_path.
Qed.

(** X7. The summary of a restore counts the files it wrote: when
    [reproduce_script_to_default] returns, either it only reported that
    there is no backup folder, or its last line is ["No files
    reproduced."] and it wrote no file, or its last line is
    ["Reproduced n file(s)"] and it wrote exactly [n] files, in the
    manifest-driven mode as in the fallback. *)
Theorem restore_reports_its_writes script w w' :
  reproduce_script_to_default script w = (Return tt, w') →
  ∃ evs, w_log w' = w_log w ++ evs ∧
    ((∃ n, evs = [Print (MsgNoBackupFolder n)])
     ∨ (writes evs = 0 ∧ last evs = Some (Print MsgNoFilesReproduced))
     ∨ (∃ k dir, writes evs = S k ∧ last evs = Some (Print (MsgReproduced (S k) dir)))).
Proof.
  unfold reproduce_script_to_default. intros H.
  destruct (name script) as [n|]; [|discriminate].
  set (folder := Path.join BACKUPS_DIR n) in *.
  set (target := Path.join REPRODUCED_DIR n) in *.
  unfold bind at 1 in H. unfold path_exists at 1 in H.
  case_bool_decide as Hex; cbn [negb] in H.
  2:{ injection H as <-. eexists. split; [reflexivity|]. left. by eexists. }
  unfold bind at 1 in H. unfold makedirs at 1 in H.
  destruct (FS.makedirs _ _ _) as [e|fs3]; [discriminate|].
  set (w3 := add_log (MadeDirs target) (set_fs fs3 w)) in *.
  unfold bind at 1 in H. unfold path_exists at 1 in H.
  assert (Hsum : ∀ n0 evs1 w1,
    w_log w1 = w_log w3 ++ evs1 → n0 = writes evs1 →
    match n0 with
    | 0 => print MsgNoFilesReproduced
    | S _ => print (MsgReproduced n0 target)
    end w1 = (Return tt, w') →
    ∃ evs, w_log w' = w_log w ++ evs ∧
      ((∃ n, evs = [Print (MsgNoBackupFolder n)])
       ∨ (writes evs = 0 ∧ last evs = Some (Print MsgNoFilesReproduced))
       ∨ (∃ k dir, writes evs = S k ∧ last evs = Some (Print (MsgReproduced (S k) dir))))).
  { intros n0 evs1 w1 Hl Hn0 Hp. subst w3. cbn [w_log add_log set_fs] in Hl.
    destruct n0 as [|k]; injection Hp as <-; cbn [w_log add_log]; rewrite Hl.
    - exists ((MadeDirs target :: evs1) ++ [Print MsgNoFilesReproduced]).
      split; [by rewrite <- !app_assoc|]. right; left.
      by rewrite writes_snoc_print, writes_cons_madedirs, last_snoc.
    - exists ((MadeDirs target :: evs1) ++ [Print (MsgReproduced (S k) target)]).
      split; [by rewrite <- !app_assoc|]. right; right. exists k, target.
      by rewrite writes_snoc_print, writes_cons_madedirs, last_snoc. }
  case_bool_decide as Hm.
  - (* the manifest is there *)
    unfold bind at 1 2 in H. unfold try_except at 1 in H. unfold bind at 1 in H.
    unfold read_file at 1 in H.
    destruct (FS.read_file _ _ _) as [e|text].
    { unfold ret at 1 in H. unfold bind at 1 in H. unfold print at 1, log at 1 in H.
      unfold ret at 1 in H.
      refine (Hsum 0 [Print (MsgFailedReadingMetadata e)] _ _ _ H); reflexivity. }
    destruct (json_load text) as [meta|].
    2:{ unfold raise at 1 in H. unfold ret at 1 in H. unfold bind at 1 in H.
        unfold print at 1, log at 1 in H. unfold ret at 1 in H.
        refine (Hsum 0 [Print (MsgFailedReadingMetadata JSONDecodeError)] _ _ _ H); reflexivity. }
    destruct (for_each (files meta) (restore_entry folder target) 0 w3)
      as [[[n0 err]|e] w1] eqn:Hfe; [|by apply for_each_never_raises in Hfe].
    destruct (for_each_counts _ (restore_entry_counts folder target) _ _ _ _ _ _ Hfe)
      as (evs1 & Hl1 & Hn0).
    destruct err as [e|].
    + unfold bind at 1 in H. unfold print at 1, log at 1 in H. unfold ret at 1 in H.
      eapply (Hsum n0 (evs1 ++ [Print (MsgFailedReadingMetadata e)])); [| |exact H].
      * cbn [w_log add_log]. by rewrite Hl1, <- app_assoc.
      * by rewrite writes_snoc_print.
    + unfold ret at 1 in H. by apply (Hsum n0 evs1 w1).
  - (* the fallback *)
    unfold bind at 1 2 in H. unfold listdir at 1 in H.
    destruct (FS.listdir _ _ _) as [e|names]; [discriminate|].
    unfold bind at 1 in H.
    destruct (for_each names (restore_blob folder target) 0 w3)
      as [[[n0 err]|e] w1] eqn:Hfe; [|by apply for_each_never_raises in Hfe].
    destruct (for_each_counts _ (restore_blob_counts folder target) _ _ _ _ _ _ Hfe)
      as (evs1 & Hl1 & Hn0).
    destruct err as [e|]; [discriminate|].
    unfold ret at 1 in H. by apply (Hsum n0 evs1 w1).
Qed.

(** X8. A manifest entry without ["backup_file"] ends the restore: the
    [TypeError] of [os.path.join(folder, None)] leaves the loop, so the
    entries after it are never looked at, whatever they are; the count
    and the world are those reached before that entry. *)
Theorem entry_without_blob_name_ends_restore
    folder target pre orig info post k w n err w1 :
  backup_file info = None →
  for_each pre (restore_entry folder target) k w = (Return (n, err), w1) →
  for_each (pre ++ (orig, info) :: post) (restore_entry folder target) k w
  = (Return (n, Some (default TypeError err)), w1).
Proof.
  intros Hnone Hpre. rewrite for_each_app, Hpre.
  destruct err as [e|]; [done|]. cbn [default for_each].
  unfold restore_entry. by rewrite Hnone.
Qed.

(** X9. A blob that is missing, or that does not decompress, is
    reported and skipped: the loop goes on with the next entries, the
    count unchanged and nothing written for that entry. *)
Theorem unreadable_blob_is_skipped folder target orig info gz rest k w :
  backup_file info = Some gz →
  (FS.stat (w_cwd w) (w_fs w) (Path.join folder gz) = None →
   for_each ((orig, info) :: rest) (restore_entry folder target) k w
   = for_each rest (restore_entry folder target) k
       (add_log (Print (MsgDataMissing orig)) w))
  ∧ (∀ blob,
       FS.read_file (w_cwd w) (w_fs w) (Path.join folder gz) = inr blob →
       zlib_decompress blob = None →
       for_each ((orig, info) :: rest) (restore_entry folder target) k w
       = for_each rest (restore_entry folder target) k
           (add_log (Print (MsgFailedDecompressing (Path.join folder gz))) w)).
Proof.
  intros Hgz. split.
  - intros Hst. cbn [for_each]. unfold restore_entry. rewrite Hgz.
    io_unfold_goal. rewrite Hst.
    by rewrite bool_decide_eq_false_2 by (by intros [? ?]).
  - intros blob Hrd Hz. cbn [for_each]. unfold restore_entry, decompress_bytes.
    rewrite Hgz. io_unfold_goal.
    rewrite (read_file_stat _ _ _ _ Hrd), bool_decide_eq_true_2 by done.
    cbn [negb]. by rewrite Hrd, Hz.
Qed.

(** X10. The fallback gives a blob its original name back: for a file
    named [<base>.gz], as [backup_script_to_folder] names its blobs, the
    fallback loop writes the decompressed bytes to [<target>/<base>] and
    counts the file. *)
Theorem fallback_restores_under_original_name folder target base blob data k w fs' :
  FS.read_file (w_cwd w) (w_fs w) (Path.join folder (base +:+ ".gz")) = inr blob →
  zlib_decompress blob = Some data →
  FS.write_file (w_cwd w) (w_fs w) (Path.join target base) data = inr fs' →
  restore_blob folder target (base +:+ ".gz") k w
  = (Return (S k), add_log (Wrote (Path.join target base) data) (set_fs fs' w)).
Proof.
  intros Hrd Hz Hwr. unfold restore_blob, decompress_bytes.
  rewrite endswith_gz, drop_last3_gz. io_unfold_goal. by rewrite Hrd, Hz, Hwr.
Qed.

(** X11. With a manifest in the archive, a restore does not raise once
    its directory is made: whatever goes wrong while reading the
    manifest or restoring an entry is caught, and the call returns. *)
Theorem restore_with_manifest_returns script w n fs3 :
  name script = Some n →
  is_Some (FS.stat (w_cwd w) (w_fs w) (archive_dir n)) →
  FS.makedirs (w_cwd w) (w_fs w) (restore_dir n) = inr fs3 →
  is_Some (FS.stat (w_cwd w) fs3 (manifest_path n)) →
  ∃ w', reproduce_script_to_default script w = (Return tt, w').
Proof.
  intros Hname Hdir Hmk Hm. unfold reproduce_script_to_default. rewrite Hname.
  fold (archive_dir n). fold (restore_dir n). fold (manifest_path n).
  unfold bind at 1. unfold path_exists at 1.
  rewrite bool_decide_eq_true_2 by done. cbn [negb].
  unfold bind at 1. unfold makedirs at 1. rewrite Hmk.
  unfold bind at 1. unfold path_exists at 1. autorewrite with io.
  rewrite bool_decide_eq_true_2 by done.
  unfold bind at 1 2. unfold try_except at 1. unfold bind at 1. unfold read_file at 1.
  destruct (FS.read_file _ _ _) as [e|text];
    [unfold ret, bind, print, log; by eexists|].
  destruct (json_load text) as [meta|];
    [|unfold raise, ret, bind, print, log; by eexists].
  destruct (for_each _ _ _ _) as [[[n0 [e|]]|e] w1] eqn:Hfe;
    [| |by apply for_each_never_raises in Hfe];
    unfold ret, bind, print, log; destruct n0; by eexists.
Qed.

(** X12. A manifest key that is an absolute path is restored at that
    path: [os.path.join(target_dir, orig_name)] is then [orig_name]
    itself, so the file is written there, whatever the restore
    directory and the working directory are. *)
Theorem absolute_key_leaves_restore_dir folder target orig info gz blob data k w fs' :
  Path.startswith_slash orig = true →
  backup_file info = Some gz →
  FS.read_file (w_cwd w) (w_fs w) (Path.join folder gz) = inr blob →
  zlib_decompress blob = Some data →
  FS.write_file (w_cwd w) (w_fs w) orig data = inr fs' →
  restore_entry folder target (orig, info) k w
  = (Return (S k),
     after_digest_check orig info data (add_log (Wrote orig data) (set_fs fs' w)))
  ∧ Path.resolve (w_cwd w) orig = Path.resolve [] orig.
Proof.
  intros Habs Hgz Hrd Hz Hwr.
  assert (Hj : Path.join target orig = orig) by (unfold Path.join; by rewrite Habs).
  split.
  - rewrite <- Hj in Hwr.
    rewrite (restore_entry_run _ _ _ _ _ _ _ _ _ _ Hgz Hrd Hz Hwr). by rewrite Hj.
  - unfold Path.resolve. by rewrite Habs.
Qed.

(** X13. "Backup now" on a script judged in use only schedules: the
    record gets ["pending_backup": true], the catalog is saved with it,
    no backup is attempted and the disk is untouched. *)
Theorem backup_now_defers_when_in_use scripts i s w :
  scripts !! i = Some s →
  is_running_at (w_env w) (w_time w) (path s) = Return true →
  ∃ w',
    backup_now_interactive scripts (Some (Z.of_nat (S i))) w
    = (Return (<[i := set_pending s]> scripts), w') ∧
    w_catalog w' = <[i := set_pending s]> scripts ∧
    w_fs w' = w_fs w ∧
    w_log w' = w_log w ++ [Print (MsgListing scripts); Print MsgScheduling;
                           Saved (<[i := set_pending s]> scripts)].
Proof.
  intros Hi Hrun. destruct (index_in_range _ _ _ Hi) as [Hb Hz].
  assert (Hne : scripts ≠ []) by (intros ->; by destruct i).
  unfold backup_now_interactive. unfold bind at 1. rewrite (list_scripts_run _ _ Hne).
  destruct scripts as [|s0 rest] eqn:Hs; [done|]. rewrite <- Hs in *.
  rewrite Hb, Hz, Hi. unfold bind at 1. unfold is_running. cbn [w_env w_time add_log].
  rewrite Hrun. unfold bind, print, log, ret, save_scripts.
  eexists. split; [reflexivity|]. cbn. by rewrite <- !app_assoc.
Qed.

(** X14. "Backup now" on a script not judged in use pops the flag
    whatever the backup returned: the record is saved without
    ["pending_backup"] after a backup that returned [True] and after one
    that returned [False] alike. *)
Theorem backup_now_pops_whatever_backup_returns scripts i s w b w2 :
  scripts !! i = Some s →
  is_running_at (w_env w) (w_time w) (path s) = Return false →
  backup_script_to_folder s (add_log (Print (MsgListing scripts)) w) = (Return b, w2) →
  ∃ w',
    backup_now_interactive scripts (Some (Z.of_nat (S i))) w
    = (Return (<[i := pop_pending s]> scripts), w') ∧
    w_catalog w' = <[i := pop_pending s]> scripts ∧
    w_fs w' = w_fs w2 ∧
    w_log w' = w_log w2 ++ [Saved (<[i := pop_pending s]> scripts)].
Proof.
  intros Hi Hrun Hbk. destruct (index_in_range _ _ _ Hi) as [Hb Hz].
  assert (Hne : scripts ≠ []) by (intros ->; by destruct i).
  unfold backup_now_interactive. unfold bind at 1. rewrite (list_scripts_run _ _ Hne).
  destruct scripts as [|s0 rest] eqn:Hs; [done|]. rewrite <- Hs in *.
  rewrite Hb, Hz, Hi. unfold bind at 1. unfold is_running. cbn [w_env w_time add_log].
  rewrite Hrun. unfold bind at 1 2. rewrite Hbk.
  unfold bind, ret, save_scripts.
  eexists. split; [reflexivity|]. by cbn.
Qed.

(** X15. "Backup now" with a selection that is not a number, or a number
    below 1 or above the length of the list, does nothing but print: the
    list, the catalog and the disk are as they were. *)
Theorem backup_now_rejects_bad_index scripts choice w :
  scripts ≠ [] →
  (choice = None
   ∨ ∃ n, choice = Some n ∧ (n < 1 ∨ Z.of_nat (length scripts) < n)%Z) →
  ∃ w',
    backup_now_interactive scripts choice w = (Return scripts, w') ∧
    w_catalog w' = w_catalog w ∧ w_fs w' = w_fs w ∧
    (w_log w' = w_log w ++ [Print (MsgListing scripts); Print MsgInvalidSelection]
     ∨ w_log w' = w_log w ++ [Print (MsgListing scripts); Print MsgInvalidIndex]).
Proof.
  intros Hne Hc.
  unfold backup_now_interactive. unfold bind at 1. rewrite (list_scripts_run _ _ Hne).
  destruct scripts as [|s0 rest] eqn:Hs; [done|]. rewrite <- Hs in *.
  destruct Hc as [->|(n & -> & Hn)].
  - eexists. split; [reflexivity|]. cbn. rewrite <- app_assoc. by repeat split; [left].
  - assert (Hb : bool_decide (n - 1 < 0)%Z
                 || bool_decide (Z.of_nat (length scripts) ≤ n - 1)%Z = true).
    { apply orb_true_iff. destruct Hn; [left|right]; apply bool_decide_eq_true; lia. }
    rewrite Hb. eexists. split; [reflexivity|]. cbn. rewrite <- app_assoc.
    by repeat split; [right].
Qed.

(** X16. "Modify" does not back up a script whose archive already lists
    a file: when [metadata.json] under the (new) name loads to a
    manifest with a non-empty ["files"] map and the (new) path is not
    judged in use, the record is updated and saved, its pending flag
    left as it was, and the disk is untouched, also when the path was
    changed. *)
Theorem modify_skips_backup_when_archive_lists_a_file
    scripts i s w name_in path_in desc_in n text meta :
  scripts !! i = Some s →
  (if bool_decide (name_in = "") then name s else Some name_in) = Some n →
  FS.read_file (w_cwd w) (w_fs w) (manifest_path n) = inr text →
  json_load text = Some meta → files meta ≠ [] →
  is_running_at (w_env w) (w_time w)
    (if bool_decide (path_in = "") then path s else Some path_in) = Return false →
  let s1 :=
    Script (Some n)
      (if bool_decide (path_in = "") then path s else Some path_in)
      (Some (if bool_decide (desc_in = "") then mjoin (description s) else Some desc_in))
      (pending_backup s) in
  ∃ w',
    modify_script_interactive scripts (Some (Z.of_nat (S i))) name_in path_in desc_in w
    = (Return (<[i := s1]> scripts, [Modifying (name s); Modified]), w') ∧
    w_catalog w' = <[i := s1]> scripts ∧
    w_fs w' = w_fs w ∧
    w_log w' = w_log w ++ [Print (MsgListing scripts); Saved (<[i := s1]> scripts)].
Proof.
  intros Hi Hn Hrd Hj Hf Hrun s1.
  assert (Hne : scripts ≠ []) by (intros ->; by destruct i).
  unfold modify_script_interactive. unfold bind at 1.
  rewrite (list_scripts_run _ _ Hne).
  destruct scripts as [|s0 rest] eqn:Hs; [done|]. rewrite <- Hs in *.
  rewrite (selected_in_range _ _ _ Hi), Hi, Hn.
  unfold bind at 1.
  destruct (need_backup_run n (add_log (Print (MsgListing scripts)) w))
    as (b & -> & Hb).
  assert (b = false) as -> by (apply Hb; by exists text, meta).
  unfold bind at 1. unfold is_running. cbn [w_env w_time add_log]. rewrite Hrun.
  cbn [negb]. unfold bind, ret, save_scripts.
  eexists. split; [reflexivity|]. cbn. by rewrite <- !app_assoc.
Qed.

(** X17. "Add" appends one record and keeps the others: when the call
    returns, the list and the saved catalog are the old list followed by
    the new record, which is flagged pending, with the disk untouched,
    exactly when its path was judged in use; the call raises only out of
    a backup it attempted, and then leaves the catalog as it was. *)
Theorem add_appends_one_record scripts name_in path_in desc_in w r w' :
  name_in ≠ "" → path_in ≠ "" →
  add_script_interactive scripts name_in path_in desc_in w = (r, w') →
  match r with
  | Return (scripts', _) =>
      ∃ flag,
        scripts' = scripts ++ [Script (Some name_in) (Some path_in) (Some (Some desc_in)) flag]
        ∧ w_catalog w' = scripts'
        ∧ (flag = Some true ∧ w_fs w' = w_fs w
           ∧ is_running_at (w_env w) (w_time w) (Some path_in) = Return true
           ∨ flag = None
             ∧ is_running_at (w_env w) (w_time w) (Some path_in) = Return false)
  | Raise _ =>
      w_catalog w' = w_catalog w
      ∧ is_running_at (w_env w) (w_time w) (Some path_in) = Return false
  end.
Proof.
  intros Hn Hp H. unfold add_script_interactive in H.
  rewrite !bool_decide_eq_false_2 in H by done.
  unfold bind at 1 in H. unfold is_running in H.
  destruct (is_running_at _ _ _) as [[|]|e] eqn:Hrun.
  - unfold bind, print, log, ret, save_scripts in H. injection H as <- <-.
    exists (Some true). split; [done|]. split; [done|]. by left.
  - unfold bind at 1 2 in H.
    destruct (backup_script_to_folder _ w) as [[b|e] w1] eqn:Hb.
    + unfold bind, ret, save_scripts in H. injection H as <- <-.
      exists None. split; [done|]. split; [done|]. by right.
    + injection H as <- <-. split; [|done].
      by destruct (backup_frame _ _ _ _ Hb) as (_ & ? & _).
  - unfold is_running_at in Hrun. by destruct (negb _).
Qed.

(** X18. "Delete" removes the selected record and nothing else: the list
    and the saved catalog lose that one record, and the disk, so the
    backups of the script, is untouched. *)
Theorem delete_removes_one_record scripts i s w :
  scripts !! i = Some s →
  ∃ w',
    delete_script_interactive scripts (Some (Z.of_nat (S i))) w
    = (Return (delete i scripts, [Deleted (name s)]), w') ∧
    w_catalog w' = delete i scripts ∧
    S (length (delete i scripts)) = length scripts ∧
    w_fs w' = w_fs w.
Proof.
  intros Hi. assert (Hne : scripts ≠ []) by (intros ->; by destruct i).
  unfold delete_script_interactive. unfold bind at 1.
  rewrite (list_scripts_run _ _ Hne).
  destruct scripts as [|s0 rest] eqn:Hs; [done|]. rewrite <- Hs in *.
  rewrite (selected_in_range _ _ _ Hi), Hi.
  unfold bind, ret, save_scripts. eexists. split; [reflexivity|].
  split; [done|]. split; [|done].
  rewrite length_delete by (by eexists). apply lookup_lt_Some in Hi. lia.
Qed.

(** X19. Restoring twice gives the same disk: for an archive that holds
    what a backup of [src] with content [C] wrote, when the restored
    file's path is not one of the archive's own paths, a second
    [reproduce_script_to_default] right after the first returns as well
    and leaves the disk exactly as the first did, the restored file
    holding [C]. *)
Theorem restore_twice_gives_the_same_disk script w2 n src C now fs3 :
  name script = Some n → n ≠ "" → Path.plain (Path.basename src) →
  FS.lookup_node (w_fs w2) (Path.resolve (w_cwd w2) (archive_dir n)) = Some Dir →
  FS.lookup_node (w_fs w2) (Path.resolve (w_cwd w2) (blob_path n src))
    = Some (File (compress_bytes C)) →
  FS.lookup_node (w_fs w2) (Path.resolve (w_cwd w2) (manifest_path n))
    = Some (File (json_dump (created_manifest script n src C now))) →
  FS.makedirs (w_cwd w2) (w_fs w2) (restore_dir n) = inr fs3 →
  FS.lookup_node (w_fs w2) (Path.resolve (w_cwd w2) (restored_path n src)) ≠ Some Dir →
  Path.resolve (w_cwd w2) (restored_path n src)
    ≠ Path.resolve (w_cwd w2) (archive_dir n) →
  Path.resolve (w_cwd w2) (restored_path n src)
    ≠ Path.resolve (w_cwd w2) (blob_path n src) →
  Path.resolve (w_cwd w2) (restored_path n src)
    ≠ Path.resolve (w_cwd w2) (manifest_path n) →
  ∃ w3 w4,
    reproduce_script_to_default script w2 = (Return tt, w3) ∧
    reproduce_script_to_default script w3 = (Return tt, w4) ∧
    w_fs w4 = w_fs w3 ∧
    FS.read_file (w_cwd w4) (w_fs w4) (restored_path n src) = inr C.
Proof.
  intros Hname Hne Hplain Hdir Hblob Hmeta Hmk Hfree Ha Hb Hm.
  pose proof (restore_created_run script w2 n src C now fs3
                Hname Hne Hplain Hdir Hblob Hmeta Hmk Hfree) as Hrun1.
  set (out := Path.resolve (w_cwd w2) (restored_path n src)) in *.
  assert (Hout : out ≠ []).
  { unfold out, restored_path. rewrite (resolve_join _ _ _ Hplain). apply snoc_not_nil. }
  set (w3 := World (w_env w2) (<[out := File C]> fs3) (w_catalog w2) (w_time w2)
               (w_log w2 ++ [MadeDirs (restore_dir n); Wrote (restored_path n src) C;
                             Print (MsgReproduced 1 (restore_dir n))])) in *.
  assert (Hfree3 : FS.lookup_node fs3 out ≠ Some Dir).
  { unfold out, restored_path. rewrite (resolve_join _ _ _ Hplain).
    apply (restore_out_free _ _ _ _ _ Hmk).
    by rewrite <- (resolve_join _ _ _ Hplain). }
  assert (Hmk3 : FS.makedirs (w_cwd w3) (w_fs w3) (restore_dir n) = inr (w_fs w3)).
  { apply (makedirs_again _ _ _ _ _ Hmk). intros q Hq. cbn [w_fs w3].
    destruct (decide (out = q)) as [<-|Hneq]; [|by rewrite lookup_insert_ne].
    exfalso. apply Hfree3. unfold FS.lookup_node. by rewrite bool_decide_eq_false_2. }
  pose proof (restore_created_run script w3 n src C now (w_fs w3) Hname Hne Hplain)
    as Hrun2.
  change (w_cwd w3) with (w_cwd w2) in *. cbn [w_fs w3] in Hrun2.
  rewrite !lookup_node_insert in Hrun2 by done.
  rewrite !decide_False in Hrun2 by done. rewrite decide_True in Hrun2 by done.
  specialize (Hrun2 (makedirs_keeps _ _ _ _ Hmk _ _ Hdir)
                    (makedirs_keeps _ _ _ _ Hmk _ _ Hblob)
                    (makedirs_keeps _ _ _ _ Hmk _ _ Hmeta) Hmk3).
  rewrite insert_insert_eq in Hrun2.
  eexists w3, _. split; [exact Hrun1|]. split; [apply Hrun2; discriminate|].
  split; [reflexivity|]. cbn [w_fs w_cwd w_env].
  apply read_file_intro.
  - apply join_nonempty. by destruct Hplain as (_ & ? & _).
  - by apply names_dir_join.
  - fold out. rewrite lookup_node_insert by done. by rewrite decide_True.
Qed.

(** X20. [ensure_dirs] can be called again: when it returns, [backups]
    and [reproduced] exist as directories, and a second call returns
    too and leaves the disk as it is ([exist_ok=True]). *)
Theorem ensure_dirs_twice w w' :
  ensure_dirs w = (Return tt, w') →
  FS.stat (w_cwd w') (w_fs w') BACKUPS_DIR = Some Dir
  ∧ FS.stat (w_cwd w') (w_fs w') REPRODUCED_DIR = Some Dir
  ∧ ∃ w'', ensure_dirs w' = (Return tt, w'') ∧ w_fs w'' = w_fs w'.
Proof.
  unfold ensure_dirs. unfold bind, makedirs.
  destruct (FS.makedirs (w_cwd w) (w_fs w) BACKUPS_DIR) as [e|fs1] eqn:H1; [done|].
  autorewrite with io.
  destruct (FS.makedirs (w_cwd w) fs1 REPRODUCED_DIR) as [e|fs2] eqn:H2; [done|].
  intros [= <-]. autorewrite with io.
  assert (Hkeep : ∀ q, fs1 !! q = Some Dir → fs2 !! q = Some Dir).
  { intros q Hq. destruct (makedirs_raw_lookup _ _ _ _ H2 q) as [->|[E _]]; congruence. }
  assert (Hb : FS.lookup_node fs2 (Path.resolve (w_cwd w) BACKUPS_DIR) = Some Dir).
  { apply (makedirs_keeps _ _ _ _ H2), (makedirs_is_dir _ _ _ _ H1). }
  pose proof (makedirs_is_dir _ _ _ _ H2) as Hr.
  split; [|split].
  - unfold FS.stat. by rewrite bool_decide_eq_false_2, Hb.
  - unfold FS.stat. by rewrite bool_decide_eq_false_2, Hr.
  - rewrite (makedirs_again _ _ _ _ _ H1 Hkeep). autorewrite with io.
    rewrite (makedirs_again _ _ fs2 fs2 _ H2) by done.
    eexists. split; reflexivity.
Qed.

(** X22. A backup without a source still writes the manifest: for a
    named script whose path is absent, empty or missing when
    [os.path.exists] looks for it (the archive directory having been
    made, and no directory standing at the manifest's path),
    [backup_script_to_folder] returns [False] without raising, leaves
    [metadata.json] holding a manifest with an empty ["files"] map, the
    script's description and the time stamp, and writes nothing else:
    every regular file on the disk other than the manifest was there
    before. *)
Theorem missing_source_backup script w n fs1 :
  truthy (name script) = Some n →
  FS.makedirs (w_cwd w) (w_fs w) (archive_dir n) = inr fs1 →
  source_missing (w_cwd w) fs1 (path script) →
  FS.lookup_node fs1 (Path.resolve (w_cwd w) (manifest_path n)) ≠ Some Dir →
  ∃ w',
    backup_script_to_folder script w = (Return false, w') ∧
    let m := empty_manifest script (e_now (w_env w) (w_time w)) in
    FS.read_file (w_cwd w') (w_fs w') (manifest_path n) = inr (json_dump m) ∧
    json_load (json_dump m) = Some m ∧
    files m = [] ∧
    m_description m = default (Some "") (description script) ∧
    timestamp m = e_now (w_env w) (w_time w) ∧
    w_log w' = w_log w ++ [MadeDirs (archive_dir n);
                           Wrote (manifest_path n) (json_dump m);
                           Print (MsgNoSource n)] ∧
    ∀ p b, w_fs w' !! p = Some (File b) →
           p = Path.resolve (w_cwd w) (manifest_path n) ∨ w_fs w !! p = Some (File b).
Proof.
  intros Hn Hmk Hmiss Hfree.
  eexists. split; [by apply (backup_no_source_run script w n fs1)|].
  cbn [w_fs w_log w_cwd w_env].
  assert (Hnil : Path.resolve (w_cwd w) (manifest_path n) ≠ [])
    by (rewrite resolve_manifest_path; apply snoc_not_nil).
  repeat split; try done.
  - apply read_file_intro.
    + by apply join_nonempty.
    + apply names_dir_join, plain_metadata.
    + rewrite lookup_node_insert by done. by rewrite decide_True.
  - apply json_round_trip.
  - intros p b Hp.
    destruct (decide (p = Path.resolve (w_cwd w) (manifest_path n))) as [->|Hne];
      [by left | right].
    rewrite lookup_insert_ne in Hp by done.
    destruct (makedirs_raw_lookup _ _ _ _ Hmk p) as [E|[_ E]]; congruence.
Qed.

(** X23. A restore without an archive: when [backups/<name>] does not
    exist, [reproduce_script_to_default] prints that no backup folder
    was found and returns; the disk is as it was (no restore directory,
    no file) and nothing else is logged. *)
Theorem restore_without_archive script w n :
  name script = Some n →
  FS.stat (w_cwd w) (w_fs w) (archive_dir n) = None →
  ∃ w',
    reproduce_script_to_default script w = (Return tt, w') ∧
    w_fs w' = w_fs w ∧
    w_log w' = w_log w ++ [Print (MsgNoBackupFolder n)].
Proof.
  intros Hname Hst. exists (add_log (Print (MsgNoBackupFolder n)) w).
  split; [|split; reflexivity].
  unfold reproduce_script_to_default. rewrite Hname. io_unfold_goal.
  fold (archive_dir n). rewrite Hst.
  by rewrite bool_decide_eq_false_2 by (by intros [? ?]).
Qed.

(** X24. Two script names can collide on the disk: the archive
    directory of a script named [<n>/metadata.json] is the path at which
    the script named [n] keeps its manifest.  Once a backup of the first
    has returned, whatever it returned, every backup of a record named
    [n] whose source is missing raises [IsADirectoryError] to its
    caller and leaves the disk as it was. *)
Theorem colliding_names_block_backup a b w r w1 n :
  Path.plain n →
  truthy (name a) = Some (n +:+ "/metadata.json") →
  backup_script_to_folder a w = (Return r, w1) →
  truthy (name b) = Some n →
  source_missing (w_cwd w1) (w_fs w1) (path b) →
  backup_script_to_folder b w1
  = (Raise IsADirectoryError, add_log (MadeDirs (archive_dir n)) w1).
Proof.
  intros Hn Ha Hrun Hb Hmiss.
  destruct (backup_steps_complete _ _ _ _ _ Ha Hrun) as (evs & Hsteps & ->).
  assert (Hmk : ∃ fs1 evs',
    FS.makedirs (w_cwd w) (w_fs w) (archive_dir (n +:+ "/metadata.json")) = inr fs1 ∧
    replay (w_cwd w) (w_fs w) evs = replay (w_cwd w) fs1 evs').
  { inversion Hsteps as
      [ | | fs1 fs2 Hm | fs1 src e Hm | fs1 src raw e Hm | fs1 src raw fs2 e Hm
        | fs1 src raw fs2 fs3 Hm ]; subst;
      exists fs1; eexists; (split; [exact Hm|]);
      rewrite replay_cons, (replay_event_makedirs _ _ _ _ Hm); reflexivity. }
  destruct Hmk as (fs1 & evs' & Hmk & Hfs).
  rewrite (archive_dir_is_manifest_path n Hn) in Hmk.
  set (w1 := world_after w evs) in *.
  assert (Hkeep : ∀ q, fs1 !! q = Some Dir → w_fs w1 !! q = Some Dir).
  { intros q Hq. subst w1. cbn [w_fs world_after]. rewrite Hfs.
    by apply replay_keeps_dirs. }
  assert (Hcwd : w_cwd w1 = w_cwd w) by done.
  assert (Hdir : FS.lookup_node (w_fs w1) (Path.resolve (w_cwd w1) (manifest_path n))
                 = Some Dir).
  { rewrite Hcwd. pose proof (makedirs_is_dir _ _ _ _ Hmk) as Hd.
    unfold FS.lookup_node in *. case_bool_decide; [done|]. by apply Hkeep. }
  assert (Hmk1 : FS.makedirs (w_cwd w1) (w_fs w1) (archive_dir n) = inr (w_fs w1)).
  { rewrite Hcwd. unfold FS.makedirs in *.
    rewrite bool_decide_eq_false_2 by (by apply join_nonempty; destruct Hn as (_ & ? & _)).
    rewrite bool_decide_eq_false_2 in Hmk by (by apply join_nonempty).
    rewrite resolve_manifest_path in Hmk.
    by apply (mkdirs_from_prefix_again _ _ _ _ _ _ Hmk). }
  pose proof (write_manifest_over_dir (w_cwd w1) (w_fs w1) n
                (json_dump (empty_manifest b (e_now (w_env w1) (w_time w1)))) Hdir) as Hwr.
  unfold backup_script_to_folder. rewrite Hb. io_unfold_goal.
  fold (archive_dir n). rewrite Hmk1. io_simpl_goal.
  replace (set_fs (w_fs w1) w1) with w1 by (by destruct w1).
  unfold source_missing in Hmiss.
  destruct (truthy (path b)) as [src|] eqn:Hsrc; io_simpl_goal.
  - autorewrite with io. rewrite Hmiss.
    rewrite bool_decide_eq_false_2 by (by intros [? ?]).
    unfold manifest_path, empty_manifest in *. io_simpl_goal. autorewrite with io.
    by rewrite Hwr.
  - unfold manifest_path, empty_manifest in *. autorewrite with io.
    by rewrite Hwr.
Qed.

End Extras.

Lemma sweep_keeps_records_witness :
  Forall2 (λ s s', s' = s ∨ (is_pending s = true ∧ s' = pop_pending s))
    [Demo.demo_pending] [pop_pending Demo.demo_pending]
  ∧ true = existsb is_pending [Demo.demo_pending]
  ∧ (true = false → [pop_pending Demo.demo_pending] = [Demo.demo_pending])
  ∧ w_env (sweep [Demo.demo_pending] Demo.queued_idle).2 = w_env Demo.queued_idle
  ∧ w_catalog (sweep [Demo.demo_pending] Demo.queued_idle).2 = w_catalog Demo.queued_idle
  ∧ w_time (sweep [Demo.demo_pending] Demo.queued_idle).2 = w_time Demo.queued_idle.
Proof.
  apply (sweep_keeps_records (L := Stored.libs) [Demo.demo_pending] Demo.queued_idle).
  apply returns_eq. vm_compute. reflexivity.
Defined.

Lemma run_returns_at_once_witness :
  run 3 Demo.settled = (Return (Some tt), Demo.settled).
Proof.
  apply (run_returns_at_once (L := Stored.libs) 2 Demo.settled).
  repeat constructor.
Defined.

Lemma run_keeps_polling_witness :
  ∃ w',
    run 6 Demo.stuck = (Return None, w') ∧
    w_catalog w' = w_catalog Demo.stuck ∧ w_fs w' = w_fs Demo.stuck ∧
    w_time w' = w_time Demo.stuck + 6 ∧
    w_log w' = w_log Demo.stuck ++ replicate 6 Slept.
Proof.
  apply (run_keeps_polling (L := Stored.libs) Demo.stuck).
  - reflexivity.
  - exists Demo.demo_pending. split; [by left | reflexivity].
  - intros s t ->%list_elem_of_singleton _. reflexivity.
Defined.

Lemma run_dies_on_pending_record_without_path_witness :
  run 5 Demo.with_pathless = (Raise TypeError, Demo.with_pathless).
Proof.
  apply (run_dies_on_pending_record_without_path (L := Stored.libs) 4 Demo.with_pathless
           [Demo.demo] Demo.pathless [Demo.demo_pending]).
  - reflexivity.
  - reflexivity.
  - reflexivity.
  - repeat constructor.
  - reflexivity.
  - reflexivity.
Defined.

Lemma backup_touches_only_its_files_witness :
  w_fs Demo.backed_up !! ["home"; "u"; "demo.py"] = Some (File Demo.content)
  ↔ w_fs Demo.start !! ["home"; "u"; "demo.py"] = Some (File Demo.content).
Proof.
  apply (backup_touches_only_its_files (L := Stored.libs) Demo.demo Demo.start
           (Return true) Demo.backed_up "demo").
  - reflexivity.
  - unfold Demo.backed_up. apply returns_eq. vm_compute. reflexivity.
  - vm_compute. discriminate.
  - intros src [= <-]. vm_compute. discriminate.
Defined.

Lemma backup_records_the_source_witness :
  ∃ n src raw blob text m,
    truthy (name Demo.demo) = Some n ∧ truthy (path Demo.demo) = Some src ∧
    FS.read_file (w_cwd Demo.start) (w_fs Demo.start) src = inr raw ∧
    FS.read_file (w_cwd Demo.backed_up) (w_fs Demo.backed_up) (blob_path n src) = inr blob ∧
    zlib_decompress blob = Some raw ∧
    FS.read_file (w_cwd Demo.backed_up) (w_fs Demo.backed_up) (manifest_path n) = inr text ∧
    json_load text = Some m ∧
    original_path m = Some src ∧
    files m = [(Path.basename src,
                {| backup_file := Some (Path.basename src +:+ ".gz");
                   sha256 := Some (sha256_bytes raw);
                   orig_size := Some (length raw) |})].
Proof.
  apply (backup_records_the_source (L := Stored.libs) Demo.demo Demo.start Demo.backed_up).
  unfold Demo.backed_up. apply returns_eq. vm_compute. reflexivity.
Defined.

Lemma restore_reports_its_writes_witness :
  ∃ evs,
    w_log (reproduce_script_to_default Demo.demo Demo.backed_up).2
    = w_log Demo.backed_up ++ evs ∧
    ((∃ n, evs = [Print (MsgNoBackupFolder n)])
     ∨ (writes evs = 0 ∧ last evs = Some (Print MsgNoFilesReproduced))
     ∨ (∃ k dir, writes evs = S k ∧ last evs = Some (Print (MsgReproduced (S k) dir)))).
Proof.
  apply (restore_reports_its_writes (L := Stored.libs) Demo.demo Demo.backed_up).
  apply returns_eq. vm_compute. reflexivity.
Defined.

Lemma entry_without_blob_name_ends_restore_witness :
  for_each ([("demo.py", Demo.legacy)] ++ ("x", Demo.nameless) :: [("y", Demo.legacy)])
    (restore_entry "backups/demo" "reproduced/demo") 0 Demo.restoring
  = (Return (1, Some (default TypeError None)),
     (for_each [("demo.py", Demo.legacy)]
        (restore_entry "backups/demo" "reproduced/demo") 0 Demo.restoring).2).
Proof.
  apply (entry_without_blob_name_ends_restore (L := Stored.libs)).
  - reflexivity.
  - apply returns_eq. vm_compute. reflexivity.
Defined.

Lemma unreadable_blob_is_skipped_witness :
  for_each [("lost", Demo.lost)]
    (restore_entry (L := Stored.libs) "backups/demo" "reproduced/demo") 0 Demo.restoring
  = for_each [] (restore_entry "backups/demo" "reproduced/demo") 0
      (add_log (Print (MsgDataMissing "lost")) Demo.restoring)
  ∧ for_each [("demo.py", Demo.legacy)]
      (restore_entry (L := Stored.libs) "backups/demo" "reproduced/demo") 0 Demo.corrupted
    = for_each [] (restore_entry "backups/demo" "reproduced/demo") 0
        (add_log (Print (MsgFailedDecompressing (Path.join "backups/demo" "demo.py.gz")))
           Demo.corrupted).
Proof.
  split.
  - apply (proj1 (unreadable_blob_is_skipped (L := Stored.libs) "backups/demo"
                    "reproduced/demo" "lost" Demo.lost "lost.gz" [] 0 Demo.restoring
                    eq_refl)).
    vm_compute. reflexivity.
  - apply (proj2 (unreadable_blob_is_skipped (L := Stored.libs) "backups/demo"
                    "reproduced/demo" "demo.py" Demo.legacy "demo.py.gz" [] 0
                    Demo.corrupted eq_refl) Demo.content).
    + vm_compute. reflexivity.
    + reflexivity.
Defined.

Lemma fallback_restores_under_original_name_witness :
  restore_blob "backups/demo" "reproduced/demo" ("demo.py" +:+ ".gz") 0 Demo.restoring
  = (Return 1,
     add_log (Wrote (Path.join "reproduced/demo" "demo.py") Demo.content)
       (set_fs Demo.restored_disk Demo.restoring)).
Proof.
  apply (fallback_restores_under_original_name (L := Stored.libs) "backups/demo"
           "reproduced/demo" "demo.py" (x78 :: Demo.content) Demo.content 0
           Demo.restoring Demo.restored_disk).
  - vm_compute. reflexivity.
  - reflexivity.
  - apply is_inr_eq. vm_compute. reflexivity.
Defined.

Lemma restore_with_manifest_returns_witness :
  ∃ w', reproduce_script_to_default Demo.demo Demo.backed_up = (Return tt, w').
Proof.
  apply (restore_with_manifest_returns (L := Stored.libs) Demo.demo Demo.backed_up "demo"
           Demo.with_restore_dir).
  - reflexivity.
  - vm_compute. by eexists.
  - apply is_inr_eq. vm_compute. reflexivity.
  - refine (bool_decide_eq_true_1 _ _). vm_compute. reflexivity.
Defined.

Lemma absolute_key_leaves_restore_dir_witness :
  restore_entry "backups/demo" "reproduced/demo" ("/home/u/evil.py", Demo.legacy) 0
    Demo.restoring
  = (Return 1,
     after_digest_check "/home/u/evil.py" Demo.legacy Demo.content
       (add_log (Wrote "/home/u/evil.py" Demo.content)
          (set_fs Demo.escaped_disk Demo.restoring)))
  ∧ Path.resolve (w_cwd Demo.restoring) "/home/u/evil.py"
    = Path.resolve [] "/home/u/evil.py".
Proof.
  apply (absolute_key_leaves_restore_dir (L := Stored.libs) "backups/demo"
           "reproduced/demo" "/home/u/evil.py" Demo.legacy "demo.py.gz"
           (x78 :: Demo.content) Demo.content 0 Demo.restoring Demo.escaped_disk).
  - reflexivity.
  - reflexivity.
  - vm_compute. reflexivity.
  - reflexivity.
  - apply is_inr_eq. vm_compute. reflexivity.
Defined.

Lemma backup_now_defers_when_in_use_witness :
  ∃ w',
    backup_now_interactive [Demo.demo_pending] (Some (Z.of_nat 1)) Demo.queued
    = (Return (<[0 := set_pending Demo.demo_pending]> [Demo.demo_pending]), w') ∧
    w_catalog w' = <[0 := set_pending Demo.demo_pending]> [Demo.demo_pending] ∧
    w_fs w' = w_fs Demo.queued ∧
    w_log w' = w_log Demo.queued
               ++ [Print (MsgListing [Demo.demo_pending]); Print MsgScheduling;
                   Saved (<[0 := set_pending Demo.demo_pending]> [Demo.demo_pending])].
Proof.
  apply (backup_now_defers_when_in_use (L := Stored.libs) [Demo.demo_pending] 0
           Demo.demo_pending Demo.queued).
  - reflexivity.
  - reflexivity.
Defined.

Lemma backup_now_pops_whatever_backup_returns_witness :
  ∃ w',
    backup_now_interactive [Demo.gone] (Some (Z.of_nat 1)) Demo.start
    = (Return (<[0 := pop_pending Demo.gone]> [Demo.gone]), w') ∧
    w_catalog w' = <[0 := pop_pending Demo.gone]> [Demo.gone] ∧
    w_fs w' = w_fs (backup_script_to_folder Demo.gone
                      (add_log (Print (MsgListing [Demo.gone])) Demo.start)).2 ∧
    w_log w' = w_log (backup_script_to_folder Demo.gone
                        (add_log (Print (MsgListing [Demo.gone])) Demo.start)).2
               ++ [Saved (<[0 := pop_pending Demo.gone]> [Demo.gone])].
Proof.
  apply (backup_now_pops_whatever_backup_returns (L := Stored.libs) [Demo.gone] 0
           Demo.gone Demo.start false).
  - reflexivity.
  - reflexivity.
  - apply returns_eq. vm_compute. reflexivity.
Defined.

Lemma backup_now_rejects_bad_index_witness :
  ∃ w',
    backup_now_interactive [Demo.demo] (Some 5%Z) Demo.start = (Return [Demo.demo], w') ∧
    w_catalog w' = w_catalog Demo.start ∧ w_fs w' = w_fs Demo.start ∧
    (w_log w' = w_log Demo.start
                ++ [Print (MsgListing [Demo.demo]); Print MsgInvalidSelection]
     ∨ w_log w' = w_log Demo.start
                  ++ [Print (MsgListing [Demo.demo]); Print MsgInvalidIndex]).
Proof.
  apply (backup_now_rejects_bad_index (L := Stored.libs) [Demo.demo] (Some 5%Z) Demo.start).
  - discriminate.
  - right. exists 5%Z. split; [reflexivity|]. right. simpl. lia.
Defined.

Lemma modify_skips_backup_when_archive_lists_a_file_witness :
  ∃ w',
    modify_script_interactive [Demo.demo] (Some (Z.of_nat 1)) "" "other.py" ""
      Demo.backed_up
    = (Return (<[0 := Script (Some "demo") (Some "other.py") (Some (Some "a demo")) None]>
                 [Demo.demo],
               [Modifying (Some "demo"); Modified]), w') ∧
    w_catalog w' = <[0 := Script (Some "demo") (Some "other.py") (Some (Some "a demo")) None]>
                     [Demo.demo] ∧
    w_fs w' = w_fs Demo.backed_up ∧
    w_log w' = w_log Demo.backed_up
               ++ [Print (MsgListing [Demo.demo]);
                   Saved (<[0 := Script (Some "demo") (Some "other.py") (Some (Some "a demo"))
                                   None]> [Demo.demo])].
Proof.
  apply (modify_skips_backup_when_archive_lists_a_file (L := Stored.libs) [Demo.demo] 0
           Demo.demo Demo.backed_up "" "other.py" "" "demo" Demo.manifest_text
           Demo.manifest_of_demo).
  - reflexivity.
  - reflexivity.
  - apply is_inr_eq. vm_compute. reflexivity.
  - vm_compute. reflexivity.
  - discriminate.
  - reflexivity.
Defined.

Lemma add_appends_one_record_witness :
  ∃ flag,
    [set_pending Demo.demo]
    = [] ++ [Script (Some "demo") (Some "demo.py") (Some (Some "a demo")) flag]
    ∧ w_catalog (add_script_interactive [] "demo" "demo.py" "a demo" Demo.queued).2
      = [set_pending Demo.demo]
    ∧ (flag = Some true
       ∧ w_fs (add_script_interactive [] "demo" "demo.py" "a demo" Demo.queued).2
         = w_fs Demo.queued
       ∧ is_running_at (w_env Demo.queued) (w_time Demo.queued) (Some "demo.py")
         = Return true
       ∨ flag = None
         ∧ is_running_at (w_env Demo.queued) (w_time Demo.queued) (Some "demo.py")
           = Return false).
Proof.
  apply (add_appends_one_record (L := Stored.libs) [] "demo" "demo.py" "a demo"
           Demo.queued (Return ([set_pending Demo.demo], [ScriptAdded]))).
  - discriminate.
  - discriminate.
  - apply returns_eq. vm_compute. reflexivity.
Defined.

Lemma delete_removes_one_record_witness :
  ∃ w',
    delete_script_interactive [Demo.demo; Demo.gone] (Some (Z.of_nat 2)) Demo.start
    = (Return (delete 1 [Demo.demo; Demo.gone], [Deleted (name Demo.gone)]), w') ∧
    w_catalog w' = delete 1 [Demo.demo; Demo.gone] ∧
    S (length (delete 1 [Demo.demo; Demo.gone])) = length [Demo.demo; Demo.gone] ∧
    w_fs w' = w_fs Demo.start.
Proof.
  apply (delete_removes_one_record [Demo.demo; Demo.gone] 1 Demo.gone
           Demo.start).
  reflexivity.
Defined.

Lemma restore_twice_gives_the_same_disk_witness :
  ∃ w3 w4,
    reproduce_script_to_default Demo.demo Demo.backed_up = (Return tt, w3) ∧
    reproduce_script_to_default Demo.demo w3 = (Return tt, w4) ∧
    w_fs w4 = w_fs w3 ∧
    FS.read_file (w_cwd w4) (w_fs w4) (restored_path "demo" "demo.py") = inr Demo.content.
Proof.
  apply (restore_twice_gives_the_same_disk (L := Stored.libs) Demo.demo Demo.backed_up
           "demo" "demo.py" Demo.content "2024-01-01T00:00:00" Demo.with_restore_dir).
  - reflexivity.
  - discriminate.
  - split; [reflexivity|]. split; [|split]; vm_compute; discriminate.
  - vm_compute. reflexivity.
  - vm_compute. reflexivity.
  - vm_compute. reflexivity.
  - apply is_inr_eq. vm_compute. reflexivity.
  - vm_compute. discriminate.
  - vm_compute. discriminate.
  - vm_compute. discriminate.
  - vm_compute. discriminate.
Defined.

Lemma ensure_dirs_twice_witness :
  FS.stat (w_cwd (ensure_dirs Demo.start).2) (w_fs (ensure_dirs Demo.start).2) BACKUPS_DIR
  = Some Dir
  ∧ FS.stat (w_cwd (ensure_dirs Demo.start).2) (w_fs (ensure_dirs Demo.start).2)
      REPRODUCED_DIR = Some Dir
  ∧ ∃ w'', ensure_dirs (ensure_dirs Demo.start).2 = (Return tt, w'')
           ∧ w_fs w'' = w_fs (ensure_dirs Demo.start).2.
Proof.
  apply (ensure_dirs_twice Demo.start).
  apply returns_eq. vm_compute. reflexivity.
Defined.

Lemma backup_try_returns_witness :
  ∃ b w', backup_script_to_folder Demo.demo Demo.start = (Return b, w').
Proof.
  apply (backup_try_returns (L := Stored.libs) Demo.demo Demo.start "demo" "demo.py"
           Demo.with_demo_archive_dir).
  - reflexivity.
  - apply is_inr_eq. vm_compute. reflexivity.
  - reflexivity.
  - refine (bool_decide_eq_true_1 _ _). vm_compute. reflexivity.
Defined.

Lemma missing_source_backup_witness :
  ∃ w',
    backup_script_to_folder (L := Stored.libs) Demo.gone Demo.start = (Return false, w') ∧
    let m := empty_manifest Demo.gone "2024-01-01T00:00:00" in
    FS.read_file (w_cwd w') (w_fs w') (manifest_path "gone") = inr (json_dump m) ∧
    json_load (json_dump m) = Some m ∧
    files m = [] ∧
    m_description m = Some "deleted" ∧
    timestamp m = "2024-01-01T00:00:00" ∧
    w_log w' = [MadeDirs (archive_dir "gone");
                Wrote (manifest_path "gone") (json_dump m);
                Print (MsgNoSource "gone")] ∧
    ∀ p b, w_fs w' !! p = Some (File b) →
           p = Path.resolve ["home"; "u"] (manifest_path "gone")
           ∨ Demo.disk !! p = Some (File b).
Proof.
  apply (missing_source_backup (L := Stored.libs) Demo.gone Demo.start "gone"
           Demo.with_archive_dir).
  - reflexivity.
  - apply is_inr_eq. vm_compute. reflexivity.
  - vm_compute. reflexivity.
  - vm_compute. discriminate.
Defined.

Lemma restore_without_archive_witness :
  ∃ w',
    reproduce_script_to_default (L := Stored.libs) Demo.demo Demo.start = (Return tt, w') ∧
    w_fs w' = Demo.disk ∧
    w_log w' = [Print (MsgNoBackupFolder "demo")].
Proof.
  apply (restore_without_archive (L := Stored.libs) Demo.demo Demo.start "demo").
  - reflexivity.
  - vm_compute. reflexivity.
Defined.

Lemma colliding_names_block_backup_witness :
  backup_script_to_folder (L := Stored.libs) Demo.gone Demo.squatted
  = (Raise IsADirectoryError, add_log (MadeDirs (archive_dir "gone")) Demo.squatted).
Proof.
  apply (colliding_names_block_backup (L := Stored.libs) Demo.squatter Demo.gone Demo.start
           true Demo.squatted "gone").
  - by repeat split.
  - reflexivity.
  - unfold Demo.squatted. apply returns_eq. vm_compute. reflexivity.
  - reflexivity.
  - vm_compute. reflexivity.
Defined.
